(** * Oblivion-Helper: supervision of the Sing-Box process

    A shallow embedding of the supervisor variants found in the
    repository:

    - [MainGo]      : src/cmd/main.go            (gRPC server, plain mutex)
    - [GrpcLogged]  : src/unnamed/part_002       (gRPC server, leveled logger)
    - [FileTimed]   : src/unnamed/part_003       (command file, SIGTERM + grace)
    - [FilePolled]  : src/cmd/oblivion-helper.go (command file, first program)
    - [FileSimple]  : src/cmd/oblivion-helper.go (command file, third program)

    Every handler is a function from the supervisor state to a result, a
    new state and the trace of the externally visible actions it
    performed.  What the operating system answers during a call (file
    contents, spawn result, kill result, exit status collected by Wait)
    is an explicit argument of the handler.  A handler that holds the
    mutex for its whole body is one atomic step. *)

From Stdlib Require Import String Ascii List ZArith Bool Lia.
Import ListNotations.
Local Open Scope string_scope.
Local Open Scope list_scope.

(** ** Go runtime values shared by all variants *)

(** gRPC status codes used by the handlers (google.golang.org/grpc/codes). *)
Inductive Code : Type :=
| Canceled | InvalidArgument | NotFound | AlreadyExists
| FailedPrecondition | Aborted | Internal.

(** Go [error] values: a plain error text (OS errors, [errors.New]), a
    [fmt.Errorf("...: %w", err)] wrapper, or a gRPC status error. *)
Inductive error : Type :=
| errorString (msg : string)
| wrapError (prefix : string) (inner : error)
| statusError (c : Code) (msg : string).

Definition Code_String (c : Code) : string :=
  match c with
  | Canceled => "Canceled"
  | InvalidArgument => "InvalidArgument"
  | NotFound => "NotFound"
  | AlreadyExists => "AlreadyExists"
  | FailedPrecondition => "FailedPrecondition"
  | Aborted => "Aborted"
  | Internal => "Internal"
  end.

(** [err.Error()], which is what the [%v] and [%w] verbs print. *)
Fixpoint Error (e : error) : string :=
  match e with
  | errorString msg => msg
  | wrapError prefix inner => prefix ++ Error inner
  | statusError c msg =>
      "rpc error: code = " ++ Code_String c ++ " desc = " ++ msg
  end.

(** [*exec.Cmd]: the command line, and [Process], which is nil until
    [Start] succeeded. *)
Record Cmd : Type := mkCmd {
  Path : string;
  Args : list string;
  Process : option nat
}.

(** [exec.Command(name, arg...)] only fills the struct. *)
Definition exec_Command (name : string) (args : list string) : Cmd :=
  mkCmd name (name :: args) None.

(** [cmd.Start()] succeeded: the struct now carries the OS process. *)
Definition started (c : Cmd) (pid : nat) : Cmd :=
  mkCmd (Path c) (Args c) (Some pid).

(** [p != nil] for a pointer field. *)
Definition not_nil {A} (p : option A) : bool :=
  match p with
  | Some _ => true
  | None => false
  end.

(** How a call that may dereference a nil pointer ends. *)
Inductive Ret : Type :=
| Nil                 (* returned err == nil *)
| Err (e : error)     (* returned a non-nil error *)
| NilDeref.           (* panic: nil pointer dereference *)

(** What an RPC handler hands back to the transport. *)
Inductive Reply : Type :=
| Response (message : string)
| Failure (err : error)
| Crashed.

(** [filepath.Join] of a directory and a file name (path cleaning is not
    modelled; no property below reads a path). *)
Definition filepath_Join (dir file : string) : string :=
  if String.eqb dir "" then file else dir ++ "/" ++ file.

(** Durations are nanoseconds, as [time.Duration]. *)
Definition Millisecond : Z := 1000000.
Definition Second : Z := 1000 * Millisecond.

(** Externally visible actions, in program order. *)
Inductive Event : Type :=
| Log (msg : string)                      (* a line written by a logger *)
| Spawn (path : string) (args : list string) (ok : bool)  (* cmd.Start() *)
| Kill (pid : nat)                        (* Process.Kill() *)
| SignalTerm (pid : nat)                  (* Process.Signal(SIGTERM) *)
| AwaitExit (pid : nat) (timeout : Z)     (* select on Wait vs time.After *)
| Go (routine : string)                   (* go f() *)
| Broadcast (status : string) (queued : bool)  (* broadcastStatus call *)
| StreamSend (status : string) (ok : bool)     (* stream.Send *)
| ExitAfter (delay : Z) (code : Z)        (* go func(){Sleep; os.Exit} *)
| OsExit (code : Z).                      (* os.Exit *)

(** A handler body: reads and writes the receiver, emits events. *)
Definition M (St A : Type) : Type := St -> A * St * list Event.

Definition ret {St A} (a : A) : M St A := fun s => (a, s, []).

Definition bind {St A B} (m : M St A) (k : A -> M St B) : M St B :=
  fun s =>
    let '(a, s1, t1) := m s in
    let '(b, s2, t2) := k a s1 in
    (b, s2, t1 ++ t2).

Definition get {St} : M St St := fun s => (s, s, []).
Definition modify {St} (f : St -> St) : M St unit := fun s => (tt, f s, []).
Definition emit {St} (e : Event) : M St unit := fun s => (tt, s, [e]).

Declare Scope go_scope.
Delimit Scope go_scope with go.
Notation "x <- m ;; k" := (bind m (fun x => k))
  (at level 61, m at next level, right associativity) : go_scope.
Notation "m ;; k" := (bind m (fun _ => k))
  (at level 61, right associativity) : go_scope.
Local Open Scope go_scope.

Definition result_of {St A} (r : A * St * list Event) : A := fst (fst r).
Definition state_of {St A} (r : A * St * list Event) : St := snd (fst r).
Definition trace_of {St A} (r : A * St * list Event) : list Event := snd r.

(** The statuses handed to [broadcastStatus] in a trace. *)
Fixpoint broadcasts (t : list Event) : list string :=
  match t with
  | [] => []
  | Broadcast st _ :: t' => st :: broadcasts t'
  | _ :: t' => broadcasts t'
  end.

(** Actions of a trace that touch an OS process. *)
Definition touches_process (e : Event) : bool :=
  match e with
  | Spawn _ _ _ | Kill _ | SignalTerm _ | AwaitExit _ _ => true
  | _ => false
  end.

(** ** Files read by the handlers *)

(** The decoded view of a configuration document: the keys it sets. *)
Record ConfigDoc : Type := mkDoc {
  doc_sbConfig : option string;
  doc_sbBin : option string;
  doc_wpBin : option string;
  doc_obBin : option string;
  doc_monitorWp : option bool;
  doc_monitorOb : option bool
}.

(** A key present in the document overwrites the field; an absent key
    leaves it as it was. *)
Definition stored {A} (key : option A) (old : A) : A :=
  match key with
  | Some v => v
  | None => old
  end.

(** File contents as [json.Unmarshal] sees them: malformed text is
    rejected before anything is stored; a well-formed document stores
    the keys it can and may still report a type error at the end. *)
Inductive FileData : Type :=
| Malformed (e : error)
| Decodes (d : ConfigDoc) (type_err : option error).

(** [os.ReadFile]. *)
Inductive ReadResult : Type :=
| ReadErr (e : error)
| ReadOk (data : FileData).

(** [os.Stat] as far as [os.IsNotExist] looks at it. *)
Inductive StatResult : Type :=
| StatNotExist
| StatOtherErr
| StatOk.

(** [cmd.Start()]. *)
Inductive SpawnResult : Type :=
| SpawnErr (e : error)
| SpawnOk (pid : nat).

(** ** src/cmd/main.go *)

Module MainGo.

Definition statusChannelCap : nat := 10.
Definition configFileName : string := "config.obv".

Record Config : Type := mkConfig {
  SbConfig : string;
  SbBin : string
}.

Record Server : Type := mkServer {
  running : bool;
  statusChange : list string;     (* buffered channel, oldest first *)
  dirPath : string;
  config : Config;
  sbProcess : option Cmd
}.

Definition set_running (b : bool) (s : Server) : Server :=
  mkServer b (statusChange s) (dirPath s) (config s) (sbProcess s).
Definition set_statusChange (q : list string) (s : Server) : Server :=
  mkServer (running s) q (dirPath s) (config s) (sbProcess s).
Definition set_config (c : Config) (s : Server) : Server :=
  mkServer (running s) (statusChange s) (dirPath s) c (sbProcess s).
Definition set_sbProcess (p : option Cmd) (s : Server) : Server :=
  mkServer (running s) (statusChange s) (dirPath s) (config s) p.

Definition NewServer (execDir : string) : Server :=
  mkServer false [] execDir (mkConfig "" "") None.

Definition json_Unmarshal (data : FileData) (c : Config)
  : Config * option error :=
  match data with
  | Malformed e => (c, Some e)
  | Decodes d type_err =>
      (mkConfig (stored (doc_sbConfig d) (SbConfig c))
                (stored (doc_sbBin d) (SbBin c)), type_err)
  end.

Definition loadConfig (rf : ReadResult) : M Server (option error) :=
  match rf with
  | ReadErr e => ret (Some (wrapError "failed to read config file: " e))
  | ReadOk data =>
      s <- get ;;
      let '(c, err) := json_Unmarshal data (config s) in
      modify (set_config c) ;;
      ret err
  end.

Definition broadcastStatus (status : string) : M Server unit :=
  s <- get ;;
  if Nat.ltb (List.length (statusChange s)) statusChannelCap
  then modify (set_statusChange (statusChange s ++ [status])) ;;
       emit (Broadcast status true)
  else emit (Broadcast status false) ;;
       emit (Log "broadcastStatus: Status channel full, dropping update").

Definition startSingBox (sp : SpawnResult) : M Server (option error) :=
  s <- get ;;
  let sbBinPath := filepath_Join (dirPath s) (SbBin (config s)) in
  let sbConfigPath := filepath_Join (dirPath s) (SbConfig (config s)) in
  let cmd := exec_Command sbBinPath ["run"; "-c"; sbConfigPath] in
  modify (set_sbProcess (Some cmd)) ;;
  match sp with
  | SpawnErr e =>
      emit (Spawn (Path cmd) (Args cmd) false) ;;
      ret (Some e)
  | SpawnOk pid =>
      emit (Spawn (Path cmd) (Args cmd) true) ;;
      modify (set_sbProcess (Some (started cmd pid))) ;;
      modify (set_running true) ;;
      broadcastStatus "started" ;;
      emit (Log "Sing-Box started") ;;
      emit (Go "monitorProcess") ;;
      ret None
  end.

Definition Start (rf : ReadResult) (sp : SpawnResult) : M Server Reply :=
  s <- get ;;
  if running s
  then ret (Failure (statusError AlreadyExists "Sing-Box is already running"))
  else
    lerr <- loadConfig rf ;;
    match lerr with
    | Some err =>
        ret (Failure (statusError FailedPrecondition
                        ("Failed to load config: " ++ Error err)))
    | None =>
        serr <- startSingBox sp ;;
        match serr with
        | Some err =>
            ret (Failure (statusError Internal
                            ("Failed to start Sing-Box: " ++ Error err)))
        | None => ret (Response "")
        end
    end.

(** The goroutine started by [startSingBox]: [werr] is what
    [s.sbProcess.Wait()] returned ([None] for exit status 0); the rest
    runs under the mutex. *)
Definition monitorProcess (werr : option error) : M Server unit :=
  emit (Log "Monitoring Sing-Box process...") ;;
  s <- get ;;
  match werr with
  | Some err =>
      if running s || not_nil (sbProcess s)
      then
        emit (Log ("Sing-Box exited unexpectedly: " ++ Error err)) ;;
        modify (set_running false) ;;
        modify (set_sbProcess None) ;;
        broadcastStatus "stopped"
      else ret tt
  | None => ret tt
  end.

(** [kill] is what [Process.Kill()] answers when it is reached. *)
Definition stopSingBox (kill : option error) : M Server Ret :=
  s <- get ;;
  match sbProcess s with
  | None => ret NilDeref
  | Some cmd =>
      match Process cmd with
      | None => ret NilDeref
      | Some pid =>
          emit (Kill pid) ;;
          match kill with
          | Some err => ret (Err err)
          | None =>
              modify (set_sbProcess None) ;;
              modify (set_running false) ;;
              broadcastStatus "stopped" ;;
              emit (Log "Sing-Box stopped") ;;
              ret Nil
          end
      end
  end.

Definition Stop (kill : option error) : M Server Reply :=
  s <- get ;;
  if negb (running s)
  then ret (Failure (statusError FailedPrecondition "Sing-Box is not running"))
  else
    r <- stopSingBox kill ;;
    match r with
    | Err err =>
        ret (Failure (statusError Internal
                        ("Failed to stop Sing-Box: " ++ Error err)))
    | Nil => ret (Response "")
    | NilDeref => ret Crashed
    end.

Definition Exit (kill : option error) : M Server Reply :=
  emit (Log "Received exit command") ;;
  broadcastStatus "exited" ;;
  s <- get ;;
  r <- (if running s then stopSingBox kill else ret Nil) ;;
  match r with
  | NilDeref => ret Crashed
  | Err err =>
      emit (Log ("Error stopping Sing-Box: " ++ Error err)) ;;
      emit (ExitAfter (1000 * Millisecond) 0) ;;
      ret (Response "")
  | Nil =>
      emit (ExitAfter (1000 * Millisecond) 0) ;;
      ret (Response "")
  end.

Definition Status : M Server string :=
  s <- get ;;
  ret (if running s then "running" else "stopped").

(** One subscriber of [StreamStatus].  [incoming] lists, in order, the
    values this subscriber takes from the channel, each with the answer
    [stream.Send] gives if it is called for it; [closed] tells whether
    the channel is closed after them.  The result is [None] while the
    loop is still blocked on the channel. *)
Fixpoint StreamStatus_loop (lastStatus : string)
    (incoming : list (string * option error)) (closed : bool)
  : option (option error) * list Event :=
  match incoming with
  | [] => (if closed then Some None else None, [])
  | (status, send_err) :: rest =>
      if String.eqb status lastStatus
      then StreamStatus_loop lastStatus rest closed
      else
        match send_err with
        | Some err =>
            (Some (Some err),
             [StreamSend status false;
              Log ("Error streaming status: " ++ Error err)])
        | None =>
            let '(r, t) := StreamStatus_loop status rest closed in
            (r, StreamSend status true :: t)
        end
  end.

Definition StreamStatus := StreamStatus_loop "".

(** The operations that can run against one server, each taken whole:
    a serialized run.  Start, Stop, Status and the monitor update hold
    the mutex for their body; [Exit] holds none, and its interleavings
    with them are those of [stopSingBox_to_handle] and
    [Exit_after_read] below. *)
Inductive Op : Type :=
| OpStart (rf : ReadResult) (sp : SpawnResult)
| OpStop (kill : option error)
| OpExit (kill : option error)
| OpMonitor (werr : option error)
| OpStatus
| OpReceive.          (* a subscriber takes the oldest queued status *)

Definition step (o : Op) (s : Server) : Server * list Event :=
  match o with
  | OpStart rf sp => let r := Start rf sp s in (state_of r, trace_of r)
  | OpStop k => let r := Stop k s in (state_of r, trace_of r)
  | OpExit k => let r := Exit k s in (state_of r, trace_of r)
  | OpMonitor w => let r := monitorProcess w s in (state_of r, trace_of r)
  | OpStatus => let r := Status s in (state_of r, trace_of r)
  | OpReceive => (set_statusChange (tl (statusChange s)) s, [])
  end.

Fixpoint run (ops : list Op) (s : Server) : Server * list Event :=
  match ops with
  | [] => (s, [])
  | o :: rest =>
      let '(s1, t1) := step o s in
      let '(s2, t2) := run rest s1 in
      (s2, t1 ++ t2)
  end.

Definition reachable (s : Server) : Prop :=
  exists execDir ops, fst (run ops (NewServer execDir)) = s.

(** [Exit] and the shutdown path of [main] call [stopSingBox] without
    taking the mutex, so for them its body is not one step: another
    handler can run between two of its statements.  The body split after
    line 147, [s.sbProcess = nil]: the first part answers [Some r] when
    the body ended there with [r], and [None] when it goes on at line
    148, [s.running = false], which the second part starts with. *)
Definition stopSingBox_to_handle (kill : option error)
  : M Server (option Ret) :=
  s <- get ;;
  match sbProcess s with
  | None => ret (Some NilDeref)
  | Some cmd =>
      match Process cmd with
      | None => ret (Some NilDeref)
      | Some pid =>
          emit (Kill pid) ;;
          match kill with
          | Some err => ret (Some (Err err))
          | None => modify (set_sbProcess None) ;; ret None
          end
      end
  end.

Definition stopSingBox_from_flag : M Server Ret :=
  modify (set_running false) ;;
  broadcastStatus "stopped" ;;
  emit (Log "Sing-Box stopped") ;;
  ret Nil.

(** [Exit] from its test of [s.running] on, line 158: [seen] is the
    value the test read, and the state is the one the rest runs in,
    which other handlers may have changed since the read. *)
Definition Exit_after_read (seen : bool) (kill : option error)
  : M Server Reply :=
  r <- (if seen then stopSingBox kill else ret Nil) ;;
  match r with
  | NilDeref => ret Crashed
  | Err err =>
      emit (Log ("Error stopping Sing-Box: " ++ Error err)) ;;
      emit (ExitAfter (1000 * Millisecond) 0) ;;
      ret (Response "")
  | Nil =>
      emit (ExitAfter (1000 * Millisecond) 0) ;;
      ret (Response "")
  end.

(** The first statement of the monitor goroutine, [s.sbProcess.Wait()]:
    it loads the handle without the mutex, before [monitorProcess]
    above takes over with what [Wait] returned.  [None]: the handle was
    nil, the call is a nil dereference. *)
Definition monitorProcess_wait : M Server (option Cmd) :=
  s <- get ;;
  ret (sbProcess s).

End MainGo.

(** ** src/unnamed/part_002 *)

Module GrpcLogged.

Definition statusChannelCap : nat := 100.
Definition configFileName : string := "config.obv".
Definition gracefulShutdownTimeout : Z := 5 * Second.

Record Config : Type := mkConfig {
  SbConfig : string;
  SbBin : string
}.

Record Server : Type := mkServer {
  running : bool;
  statusChange : list string;     (* buffered channel, oldest first *)
  dirPath : string;
  config : Config;
  sbProcess : option Cmd
}.

Definition set_running (b : bool) (s : Server) : Server :=
  mkServer b (statusChange s) (dirPath s) (config s) (sbProcess s).
Definition set_statusChange (q : list string) (s : Server) : Server :=
  mkServer (running s) q (dirPath s) (config s) (sbProcess s).
Definition set_config (c : Config) (s : Server) : Server :=
  mkServer (running s) (statusChange s) (dirPath s) c (sbProcess s).
Definition set_sbProcess (p : option Cmd) (s : Server) : Server :=
  mkServer (running s) (statusChange s) (dirPath s) (config s) p.

Definition NewServer (execDir : string) : Server :=
  mkServer false [] execDir (mkConfig "" "") None.

(** The four loggers of [Logger]. *)
Definition info (msg : string) : Event := Log ("[INFO] " ++ msg).
Definition warn (msg : string) : Event := Log ("[WARN] " ++ msg).
Definition error_ (msg : string) : Event := Log ("[ERROR] " ++ msg).

(** What the file system and the OS answer during one [startSingBox]. *)
Record StartEnv : Type := mkStartEnv {
  stat_config : StatResult;      (* os.Stat(configPath) *)
  read_config : ReadResult;      (* os.ReadFile(configPath) *)
  stat_sbBin : StatResult;       (* os.Stat(sbBinPath) *)
  stat_sbConfig : StatResult;    (* os.Stat(sbConfigPath) *)
  spawn : SpawnResult            (* s.sbProcess.Start() *)
}.

Definition IsNotExist (r : StatResult) : bool :=
  match r with
  | StatNotExist => true
  | _ => false
  end.

Definition json_Unmarshal (data : FileData) (c : Config)
  : Config * option error :=
  match data with
  | Malformed e => (c, Some e)
  | Decodes d type_err =>
      (mkConfig (stored (doc_sbConfig d) (SbConfig c))
                (stored (doc_sbBin d) (SbBin c)), type_err)
  end.

Definition loadConfig (env : StartEnv) : M Server (option error) :=
  s <- get ;;
  let configPath := filepath_Join (dirPath s) configFileName in
  if IsNotExist (stat_config env)
  then ret (Some (statusError NotFound
                    ("configuration file not found at " ++ configPath)))
  else
    match read_config env with
    | ReadErr err =>
        ret (Some (statusError Internal
                     ("failed to read config file: " ++ Error err)))
    | ReadOk data =>
        let '(c, perr) := json_Unmarshal data (config s) in
        modify (set_config c) ;;
        match perr with
        | Some err =>
            ret (Some (statusError InvalidArgument
                         ("failed to parse config: " ++ Error err)))
        | None => ret None
        end
    end.

Definition broadcastStatus (status : string) : M Server unit :=
  s <- get ;;
  if Nat.ltb (List.length (statusChange s)) statusChannelCap
  then modify (set_statusChange (statusChange s ++ [status])) ;;
       emit (Broadcast status true)
  else emit (Broadcast status false) ;;
       emit (warn "Status channel full, dropping update").

Definition startSingBox (env : StartEnv) : M Server (option error) :=
  s <- get ;;
  if running s
  then ret (Some (statusError AlreadyExists "Sing-Box is already running"))
  else
    lerr <- loadConfig env ;;
    match lerr with
    | Some err => ret (Some err)
    | None =>
        s <- get ;;
        let sbBinPath := filepath_Join (dirPath s) (SbBin (config s)) in
        let sbConfigPath := filepath_Join (dirPath s) (SbConfig (config s)) in
        if IsNotExist (stat_sbBin env)
        then ret (Some (statusError NotFound
                          ("Sing-Box binary not found at " ++ sbBinPath)))
        else if IsNotExist (stat_sbConfig env)
        then ret (Some (statusError NotFound
                          ("Sing-Box config not found at " ++ sbConfigPath)))
        else
          let cmd := exec_Command sbBinPath ["run"; "-c"; sbConfigPath] in
          modify (set_sbProcess (Some cmd)) ;;
          match spawn env with
          | SpawnErr err =>
              emit (Spawn (Path cmd) (Args cmd) false) ;;
              ret (Some (statusError Internal
                           ("failed to start Sing-Box: " ++ Error err)))
          | SpawnOk pid =>
              emit (Spawn (Path cmd) (Args cmd) true) ;;
              modify (set_sbProcess (Some (started cmd pid))) ;;
              modify (set_running true) ;;
              broadcastStatus "started" ;;
              emit (info "Sing-Box started") ;;
              emit (Go "monitorProcess") ;;
              ret None
          end
    end.

(** The goroutine started by [startSingBox]: [werr] is what
    [s.sbProcess.Wait()] returned ([None] for exit status 0); the rest
    runs under the mutex. *)
Definition monitorProcess (werr : option error) : M Server unit :=
  emit (info "Monitoring Sing-Box process...") ;;
  s <- get ;;
  match werr with
  | Some err =>
      if running s || not_nil (sbProcess s)
      then
        emit (error_ ("Sing-Box exited unexpectedly: " ++ Error err)) ;;
        modify (set_running false) ;;
        modify (set_sbProcess None) ;;
        broadcastStatus "terminated"
      else ret tt
  | None => ret tt
  end.

(** [kill] is what [Process.Kill()] answers when it is reached. *)
Definition stopSingBox (kill : option error) : M Server Ret :=
  s <- get ;;
  if negb (running s)
  then ret (Err (statusError FailedPrecondition "Sing-Box is not running"))
  else
    match sbProcess s with
    | None => ret NilDeref
    | Some cmd =>
        match Process cmd with
        | None => ret NilDeref
        | Some pid =>
            emit (Kill pid) ;;
            match kill with
            | Some err =>
                ret (Err (statusError Internal
                            ("failed to stop Sing-Box: " ++ Error err)))
            | None =>
                modify (set_sbProcess None) ;;
                modify (set_running false) ;;
                broadcastStatus "stopped" ;;
                emit (info "Sing-Box stopped") ;;
                ret Nil
            end
        end
    end.

Definition Start (env : StartEnv) : M Server Reply :=
  serr <- startSingBox env ;;
  match serr with
  | Some err =>
      emit (error_ ("Start error: " ++ Error err)) ;;
      ret (Failure err)
  | None => ret (Response "Sing-Box started successfully.")
  end.

Definition Stop (kill : option error) : M Server Reply :=
  r <- stopSingBox kill ;;
  match r with
  | Err err =>
      emit (error_ ("Stop error: " ++ Error err)) ;;
      ret (Failure err)
  | Nil => ret (Response "Sing-Box stopped successfully.")
  | NilDeref => ret Crashed
  end.

Definition Exit (kill : option error) : M Server Reply :=
  emit (info "Exiting Oblivion-Helper...") ;;
  s <- get ;;
  r <- (if running s then stopSingBox kill else ret Nil) ;;
  match r with
  | NilDeref => ret Crashed
  | Err err =>
      emit (error_ ("Exit stop error: " ++ Error err)) ;;
      emit (ExitAfter gracefulShutdownTimeout 0) ;;
      ret (Response "")
  | Nil =>
      emit (ExitAfter gracefulShutdownTimeout 0) ;;
      ret (Response "")
  end.

(** What one [select] of the [StreamStatus] loop observes. *)
Inductive Select : Type :=
| CtxDone (ctx_err : error) (kill : option error)
    (* the client is gone; [ctx_err] is [stream.Context().Err()] and
       [kill] answers the stop path if it runs *)
| Received (status : string) (send_err : option error)
    (* a value from the channel, and what [stream.Send] answers if it
       is called for it *)
| ChannelClosed.

(** How one iteration of the loop ends. *)
Inductive Iteration : Type :=
| Continue (lastStatus : string)
| Return (err : option error)
| Panic.

Definition StreamStatus_select (lastStatus : string) (sel : Select)
  : M Server Iteration :=
  match sel with
  | CtxDone ctx_err kill =>
      emit (warn "Stream closed by client") ;;
      s <- get ;;
      if running s
      then
        r <- stopSingBox kill ;;
        match r with
        | Err err =>
            emit (error_ ("Stream stop error: " ++ Error err)) ;;
            ret (Return (Some (statusError Aborted
                   ("failed to stop service during stream closure: "
                    ++ Error err))))
        | Nil => ret (Return (Some ctx_err))
        | NilDeref => ret Panic
        end
      else ret (Return (Some ctx_err))
  | ChannelClosed =>
      emit (warn "Status channel closed") ;;
      ret (Return None)
  | Received status send_err =>
      if String.eqb status lastStatus
      then ret (Continue lastStatus)
      else
        match send_err with
        | Some err =>
            emit (StreamSend status false) ;;
            emit (error_ ("Status stream error: " ++ Error err)) ;;
            ret (Return (Some err))
        | None =>
            emit (StreamSend status true) ;;
            ret (Continue status)
        end
  end.

(** The loop over the selects one subscriber goes through.  [None]:
    still blocked in [select] after them. *)
Fixpoint StreamStatus_loop (lastStatus : string) (sels : list Select)
  : M Server (option Iteration) :=
  match sels with
  | [] => ret None
  | sel :: rest =>
      it <- StreamStatus_select lastStatus sel ;;
      match it with
      | Continue last => StreamStatus_loop last rest
      | _ => ret (Some it)
      end
  end.

Definition StreamStatus := StreamStatus_loop "".

(** The operations that can run against one server, each atomic. *)
Inductive Op : Type :=
| OpStart (env : StartEnv)
| OpStop (kill : option error)
| OpExit (kill : option error)
| OpMonitor (werr : option error)
| OpDisconnect (ctx_err : error) (kill : option error)
| OpReceive.          (* a subscriber takes the oldest queued status *)

Definition step (o : Op) (s : Server) : Server * list Event :=
  match o with
  | OpStart env => let r := Start env s in (state_of r, trace_of r)
  | OpStop k => let r := Stop k s in (state_of r, trace_of r)
  | OpExit k => let r := Exit k s in (state_of r, trace_of r)
  | OpMonitor w => let r := monitorProcess w s in (state_of r, trace_of r)
  | OpDisconnect e k =>
      let r := StreamStatus_select "" (CtxDone e k) s in
      (state_of r, trace_of r)
  | OpReceive => (set_statusChange (tl (statusChange s)) s, [])
  end.

Fixpoint run (ops : list Op) (s : Server) : Server * list Event :=
  match ops with
  | [] => (s, [])
  | o :: rest =>
      let '(s1, t1) := step o s in
      let '(s2, t2) := run rest s1 in
      (s2, t1 ++ t2)
  end.

Definition reachable (s : Server) : Prop :=
  exists execDir ops, fst (run ops (NewServer execDir)) = s.

(** [Exit] reads [s.running] without the mutex and only then calls
    [stopSingBox], which takes it: other handlers can run in between.
    [seen] is the flag as [Exit] read it; the state the body runs on is
    the one [stopSingBox] finds when it holds the mutex. *)
Definition Exit_after_read (seen : bool) (kill : option error)
  : M Server Reply :=
  emit (info "Exiting Oblivion-Helper...") ;;
  r <- (if seen then stopSingBox kill else ret Nil) ;;
  match r with
  | NilDeref => ret Crashed
  | Err err =>
      emit (error_ ("Exit stop error: " ++ Error err)) ;;
      emit (ExitAfter gracefulShutdownTimeout 0) ;;
      ret (Response "")
  | Nil =>
      emit (ExitAfter gracefulShutdownTimeout 0) ;;
      ret (Response "")
  end.

(** The first statement of the monitor goroutine, [s.sbProcess.Wait()]:
    it loads the handle without the mutex, before [monitorProcess]
    above takes over with what [Wait] returned.  [None]: the handle was
    nil, the call is a nil dereference. *)
Definition monitorProcess_wait : M Server (option Cmd) :=
  s <- get ;;
  ret (sbProcess s).

End GrpcLogged.

(** ** Strings and time as the command-file programs use them *)

Definition byte_of (n : nat) : ascii := ascii_of_nat n.
Definition LF : ascii := byte_of 10.
Definition CR : ascii := byte_of 13.

(** [strings.TrimSpace] and [strings.ToLower] on ASCII text: the white
    space bytes are tab, line feed, vertical tab, form feed, carriage
    return and space; bytes from 0x80 up (runes outside ASCII) are left
    as they are. *)
Definition isSpace (c : ascii) : bool :=
  let n := nat_of_ascii c in
  ((9 <=? n)%nat && (n <=? 13)%nat) || (n =? 32)%nat.

Fixpoint TrimLeft (s : string) : string :=
  match s with
  | String c rest => if isSpace c then TrimLeft rest else s
  | EmptyString => EmptyString
  end.

Fixpoint TrimRight (s : string) : string :=
  match s with
  | String c rest =>
      match TrimRight rest with
      | EmptyString => if isSpace c then EmptyString else String c EmptyString
      | kept => String c kept
      end
  | EmptyString => EmptyString
  end.

Definition TrimSpace (s : string) : string := TrimRight (TrimLeft s).

Definition toLower (c : ascii) : ascii :=
  let n := nat_of_ascii c in
  if (65 <=? n)%nat && (n <=? 90)%nat then ascii_of_nat (n + 32) else c.

Fixpoint ToLower (s : string) : string :=
  match s with
  | String c rest => String (toLower c) (ToLower rest)
  | EmptyString => EmptyString
  end.

(** [strings.Contains]. *)
Definition Contains (s substr : string) : bool :=
  not_nil (String.index 0 substr s).

(** The text searched for in settings.json: the key proxyMode with the
    value tun, both in double quotes, a colon between them. *)
Definition DQUOTE : string := String (byte_of 34) EmptyString.
Definition proxyModeTun : string :=
  DQUOTE ++ "proxyMode" ++ DQUOTE ++ ":" ++ DQUOTE ++ "tun" ++ DQUOTE.

(** [bufio.MaxScanTokenSize]. *)
Definition MaxScanTokenSize : nat := 64 * 1024.

(** The text before the first line feed among the first [fuel] bytes. *)
Fixpoint upto_LF (fuel : nat) (s : string) : option string :=
  match fuel, s with
  | S fuel', String c rest =>
      if Ascii.eqb c LF then Some EmptyString
      else match upto_LF fuel' rest with
           | Some line => Some (String c line)
           | None => None
           end
  | _, _ => None
  end.

(** [dropCR] of [bufio.ScanLines]: a final carriage return is cut. *)
Fixpoint dropCR (s : string) : string :=
  match s with
  | EmptyString => EmptyString
  | String c EmptyString => if Ascii.eqb c CR then EmptyString else s
  | String c rest => String c (dropCR rest)
  end.

(** The first [Scan()] of a fresh [bufio.Scanner] with the default line
    splitter over a reader that delivers [content] and then ends with
    [read_err] ([None]: end of file). *)
Inductive Scanned : Type :=
| Token (text : string)            (* Scan() = true, Text() = text *)
| NoToken (err : option error).    (* Scan() = false, Err() = err *)

Definition Scan (content : string) (read_err : option error) : Scanned :=
  match upto_LF MaxScanTokenSize content with
  | Some line => Token (dropCR line)
  | None =>
      if (MaxScanTokenSize <=? String.length content)%nat
      then NoToken (Some (errorString "bufio.Scanner: token too long"))
      else match content with
           | EmptyString => NoToken read_err
           | _ => Token (dropCR content)
           end
  end.

(** [time.Time] as nanoseconds since the zero Time. *)
Definition Time : Type := Z.
Definition zeroTime : Time := 0%Z.
Definition After (t u : Time) : bool := (u <? t)%Z.

(** What the OS answers to a look-up of a process by name. *)
Inductive Probe : Type :=
| ProbeFailed (e : error)
| ProbeAnswer (found : bool).

(** How the child reacts to SIGTERM. *)
Inductive Reaction : Type :=
| ExitsAfter (delay : Z) (wait_err : option error)
| NeverExits.

(** ** src/unnamed/part_003: the stop path *)

Module FileTimed.

Record Config : Type := mkConfig {
  SbConfig : string;
  SbBin : string;
  WpBin : string;
  ObBin : string;
  MonitorWp : bool;
  MonitorOb : bool
}.

Record SingBoxManager : Type := mkManager {
  config : Config;
  configFile : string;
  commandFile : string;
  singBoxProcess : option Cmd
}.

Definition set_singBoxProcess (p : option Cmd) (m : SingBoxManager)
  : SingBoxManager :=
  mkManager (config m) (configFile m) (commandFile m) p.

(** What the OS answers during one [stopSingBox]. *)
Record StopEnv : Type := mkStopEnv {
  GOOS : string;                  (* runtime.GOOS *)
  signal_result : option error;   (* Process.Signal(syscall.SIGTERM) *)
  reaction : Reaction;            (* what the child does with the signal *)
  kill_result : option error      (* Process.Kill() *)
}.

(** The grace period of the [select]: [time.After(5 * time.Second)]. *)
Definition graceTimeout : Z := 5 * Second.

(** [select] between the timer and [done]: the child's exit is taken
    when it comes before the timer fires. *)
Definition termination (env : StopEnv) (pid : nat)
  : M SingBoxManager (option error) :=
  emit (SignalTerm pid) ;;
  match signal_result env with
  | Some err => ret (Some err)
  | None =>
      emit (Go "done <- m.singBoxProcess.Wait()") ;;
      emit (AwaitExit pid graceTimeout) ;;
      match reaction env with
      | ExitsAfter delay wait_err =>
          if (delay <? graceTimeout)%Z
          then ret wait_err
          else emit (Kill pid) ;; ret (kill_result env)
      | NeverExits => emit (Kill pid) ;; ret (kill_result env)
      end
  end.

(** The manager after the call is told by its fields; what [Wait]
    records inside a handle that is kept ([ProcessState]) is not part
    of [Cmd]. *)
Definition stopSingBox (env : StopEnv) : M SingBoxManager Ret :=
  m <- get ;;
  match singBoxProcess m with
  | None =>
      emit (Log "No Sing-Box process to stop.") ;;
      ret Nil
  | Some cmd =>
      match Process cmd with
      | None => ret NilDeref
      | Some pid =>
          err <- (if String.eqb (GOOS env) "windows"
                  then emit (Kill pid) ;; ret (kill_result env)
                  else termination env pid) ;;
          match err with
          | Some e => ret (Err (wrapError "failed to stop Sing-Box: " e))
          | None =>
              emit (Log "Sing-Box stopped.") ;;
              modify (set_singBoxProcess None) ;;
              ret Nil
          end
      end
  end.

End FileTimed.

(** ** src/cmd/oblivion-helper.go: the command-file program *)

Module FilePolled.

Definition InfoLevel : string := "INFO".
Definition WarningLevel : string := "WARNING".
Definition ErrorLevel : string := "ERROR".

Record Config : Type := mkConfig {
  SbConfig : string;
  SbBin : string;
  WpBin : string;
  ObBin : string;
  MonitorWp : bool;
  MonitorOb : bool
}.

Record SingBoxManager : Type := mkManager {
  config : Config;
  configFile : string;
  commandFile : string;
  singBoxProcess : option Cmd;
  dirPath : string
}.

Definition set_config (c : Config) (m : SingBoxManager) : SingBoxManager :=
  mkManager c (configFile m) (commandFile m) (singBoxProcess m) (dirPath m).
Definition set_singBoxProcess (p : option Cmd) (m : SingBoxManager)
  : SingBoxManager :=
  mkManager (config m) (configFile m) (commandFile m) p (dirPath m).

(** The manager [main] builds. *)
Definition newManager (execDir : string) : SingBoxManager :=
  mkManager (mkConfig "" "" "" "" false false)
            (filepath_Join execDir "config.obv")
            (filepath_Join execDir "cmd.obv") None execDir.

Definition logMessage (level function message : string) : Event :=
  Log ("[" ++ level ++ "] " ++ function ++ ": " ++ message).

(** What the OS answers while one command is processed. *)
Record Env : Type := mkEnv {
  GOOS : string;                         (* runtime.GOOS *)
  read_config : ReadResult;              (* os.ReadFile(m.configFile) *)
  spawn : SpawnResult;                   (* m.singBoxProcess.Start() *)
  kill : option error;                   (* Process.Kill() *)
  probe : string -> Probe;               (* process table / pgrep -f *)
  read_settings : error + string;        (* os.ReadFile(settings.json) *)
  run_kill : option error                (* taskkill / pkill *)
}.

Definition json_Unmarshal (data : FileData) (c : Config)
  : Config * option error :=
  match data with
  | Malformed e => (c, Some e)
  | Decodes d type_err =>
      (mkConfig (stored (doc_sbConfig d) (SbConfig c))
                (stored (doc_sbBin d) (SbBin c))
                (stored (doc_wpBin d) (WpBin c))
                (stored (doc_obBin d) (ObBin c))
                (stored (doc_monitorWp d) (MonitorWp c))
                (stored (doc_monitorOb d) (MonitorOb c)), type_err)
  end.

Definition loadConfig (env : Env) : M SingBoxManager (option error) :=
  match read_config env with
  | ReadErr e => ret (Some (wrapError "failed to read config file: " e))
  | ReadOk data =>
      m <- get ;;
      let '(c, err) := json_Unmarshal data (config m) in
      modify (set_config c) ;;
      ret err
  end.

Definition startSingBox (env : Env) : M SingBoxManager unit :=
  m <- get ;;
  if not_nil (singBoxProcess m)
  then emit (logMessage WarningLevel "startSingBox"
               "Sing-Box is already running")
  else
    lerr <- loadConfig env ;;
    match lerr with
    | Some err =>
        emit (logMessage ErrorLevel "startSingBox"
                ("Failed to load config: " ++ Error err))
    | None =>
        m <- get ;;
        let sbBinFullPath := filepath_Join (dirPath m) (SbBin (config m)) in
        let sbConfigFullPath :=
          filepath_Join (dirPath m) (SbConfig (config m)) in
        let cmd := exec_Command sbBinFullPath ["run"; "-c"; sbConfigFullPath] in
        modify (set_singBoxProcess (Some cmd)) ;;
        match spawn env with
        | SpawnErr err =>
            emit (Spawn (Path cmd) (Args cmd) false) ;;
            emit (logMessage ErrorLevel "startSingBox"
                    ("Failed to start Sing-Box: " ++ Error err))
        | SpawnOk pid =>
            emit (Spawn (Path cmd) (Args cmd) true) ;;
            modify (set_singBoxProcess (Some (started cmd pid))) ;;
            emit (logMessage InfoLevel "startSingBox" "Sing-Box started") ;;
            emit (Go "monitorProcess(SbBin, monitorSingBox)") ;;
            (if MonitorWp (config m)
             then emit (Go "monitorProcess(WpBin, monitorWarpPlus)")
             else ret tt) ;;
            (if MonitorOb (config m)
             then emit (Go "monitorProcess(ObBin, monitorOblivionHelper)")
             else ret tt)
        end
    end.

(** [Nil]: returned; [NilDeref]: [Process] was nil. *)
Definition stopSingBox (env : Env) : M SingBoxManager Ret :=
  m <- get ;;
  match singBoxProcess m with
  | None =>
      emit (logMessage WarningLevel "stopSingBox"
              "No Sing-Box process to stop") ;;
      ret Nil
  | Some cmd =>
      match Process cmd with
      | None => ret NilDeref
      | Some pid =>
          emit (Kill pid) ;;
          match kill env with
          | Some err =>
              emit (logMessage ErrorLevel "stopSingBox"
                      ("Failed to stop Sing-Box: " ++ Error err)) ;;
              ret Nil
          | None =>
              emit (logMessage InfoLevel "stopSingBox" "Sing-Box stopped") ;;
              modify (set_singBoxProcess None) ;;
              ret Nil
          end
      end
  end.

Definition isProcessRunning (env : Env) (processName : string)
  : M SingBoxManager bool :=
  if String.eqb (GOOS env) "windows"
  then match probe env processName with
       | ProbeFailed err =>
           emit (logMessage ErrorLevel "isProcessRunning"
                   ("Failed to get processes: " ++ Error err)) ;;
           ret false
       | ProbeAnswer found => ret found
       end
  else if String.eqb (GOOS env) "darwin" || String.eqb (GOOS env) "linux"
  then match probe env processName with
       | ProbeFailed _ => ret false
       | ProbeAnswer found => ret found
       end
  else
    emit (logMessage WarningLevel "isProcessRunning"
            ("Unsupported operating system: " ++ GOOS env)) ;;
    ret false.

Definition shouldKillWarpPlus (env : Env) : M SingBoxManager bool :=
  m <- get ;;
  up <- isProcessRunning env (WpBin (config m)) ;;
  if negb up then ret false
  else
    match read_settings env with
    | inl err =>
        emit (logMessage ErrorLevel "shouldKillWarpPlus"
                ("Error reading settings.json: " ++ Error err)) ;;
        ret false
    | inr content => ret (Contains content proxyModeTun)
    end.

Definition killWarpPlus (env : Env) : M SingBoxManager unit :=
  if String.eqb (GOOS env) "windows" || String.eqb (GOOS env) "darwin"
     || String.eqb (GOOS env) "linux"
  then
    match run_kill env with
    | Some err =>
        emit (logMessage ErrorLevel "killWarpPlus"
                ("Failed to kill Warp-Plus process: " ++ Error err))
    | None =>
        emit (logMessage InfoLevel "killWarpPlus"
                "Warp-Plus process killed successfully")
    end
  else
    emit (logMessage ErrorLevel "killWarpPlus"
            ("Unsupported OS: " ++ GOOS env)).

(** Whether the program goes on after a call. *)
Inductive Flow : Type :=
| Running            (* the call returned *)
| Exited (code : Z)  (* os.Exit *)
| Panicked.          (* nil pointer dereference *)

Definition handleExit (env : Env) : M SingBoxManager Flow :=
  m <- get ;;
  up <- isProcessRunning env (SbBin (config m)) ;;
  r <- (if up then stopSingBox env else ret Nil) ;;
  match r with
  | NilDeref => ret Panicked
  | _ =>
      wp <- shouldKillWarpPlus env ;;
      (if wp then killWarpPlus env else ret tt) ;;
      emit (logMessage InfoLevel "handleExit" "Exiting helper") ;;
      emit (OsExit 0) ;;
      ret (Exited 0)
  end.

Definition processCommand (env : Env) (command : string)
  : M SingBoxManager Flow :=
  emit (logMessage InfoLevel "processCommand"
          ("Processing command: " ++ command)) ;;
  if String.eqb command "start" then startSingBox env ;; ret Running
  else if String.eqb command "stop" then
    r <- stopSingBox env ;;
    match r with
    | NilDeref => ret Panicked
    | _ => ret Running
    end
  else if String.eqb command "exit" then handleExit env
  else
    emit (logMessage WarningLevel "processCommand"
            ("Unknown command: " ++ command)) ;;
    ret Running.

(** [os.Stat(m.commandFile)]. *)
Inductive FileStat : Type :=
| StatMissing
| StatFailed (e : error)
| StatInfo (ModTime : Time).

(** [os.Open(m.commandFile)] and what reading the file delivers. *)
Inductive OpenResult : Type :=
| OpenMissing
| OpenFailed (e : error)
| Opened (content : string) (read_err : option error).

Definition readCommandFromFile (o : OpenResult) : string * option error :=
  match o with
  | OpenMissing => ("", None)
  | OpenFailed err => ("", Some err)
  | Opened content read_err =>
      match Scan content read_err with
      | Token text => (ToLower (TrimSpace text), None)
      | NoToken err => ("", err)
      end
  end.

(** One tick of the ticker in [watchCommandFile]: what [os.Stat] and
    then [os.Open] see of the command file at that tick. *)
Record Tick : Type := mkTick {
  stat : FileStat;
  opened : OpenResult
}.

(** The body of the [for range ticker.C] loop: the new [lastModTime],
    the command sent on [commandChan] if any, and the lines logged. *)
Definition watch_tick (lastModTime : Time) (t : Tick)
  : Time * option string * list Event :=
  match stat t with
  | StatMissing => (lastModTime, None, [])
  | StatFailed err =>
      (lastModTime, None,
       [logMessage ErrorLevel "watchCommandFile"
          ("Error getting file info: " ++ Error err)])
  | StatInfo modTime =>
      if After modTime lastModTime
      then
        let '(command, err) := readCommandFromFile (opened t) in
        if negb (not_nil err) && negb (String.eqb command "")
        then (modTime, Some command, [])
        else (lastModTime, None, [])
      else (lastModTime, None, [])
  end.

(** [watchCommandFile] over a run of ticks: the commands it sends. *)
Fixpoint watchCommandFile (lastModTime : Time) (ticks : list Tick)
  : list string * list Event :=
  match ticks with
  | [] => ([], [])
  | t :: rest =>
      let '(last, sent, logged) := watch_tick lastModTime t in
      let '(cmds, logs) := watchCommandFile last rest in
      (match sent with
       | Some command => command :: cmds
       | None => cmds
       end, logged ++ logs)
  end.

(** The loop of [main] over the commands it receives; [envs] gives the
    OS answers for each of them. *)
Fixpoint serve (commands : list (string * Env)) : M SingBoxManager Flow :=
  match commands with
  | [] => ret Running
  | (command, env) :: rest =>
      f <- processCommand env command ;;
      match f with
      | Running => serve rest
      | _ => ret f
      end
  end.

(** [monitorProcess]: [ticks] holds the OS answers at each tick of its
    3 s ticker; the callback runs with the answers of the tick that
    found the process gone.  [None]: still watching after them. *)
Fixpoint monitorProcess {A : Type} (ticks : list Env) (processName : string)
    (callback : Env -> M SingBoxManager A) : M SingBoxManager (option A) :=
  match ticks with
  | [] => ret None
  | env :: rest =>
      up <- isProcessRunning env processName ;;
      if negb up
      then a <- callback env ;; ret (Some a)
      else monitorProcess rest processName callback
  end.

Definition monitorSingBox (env : Env) : M SingBoxManager unit :=
  m <- get ;;
  up <- isProcessRunning env (WpBin (config m)) ;;
  (if up
   then emit (logMessage WarningLevel "monitorSingBox"
                "Sing-Box process not found. Stopping Warp-Plus...") ;;
        killWarpPlus env
   else ret tt) ;;
  modify (set_singBoxProcess None).

Definition monitorWarpPlus (env : Env) : M SingBoxManager Ret :=
  m <- get ;;
  up <- isProcessRunning env (SbBin (config m)) ;;
  if up
  then emit (logMessage WarningLevel "monitorWarpPlus"
               "Warp-Plus process not found. Stopping Sing-Box...") ;;
       stopSingBox env
  else ret Nil.

Definition monitorOblivionHelper (env : Env) : M SingBoxManager Flow :=
  emit (logMessage WarningLevel "monitorOblivionHelper"
          "Oblivion-Desktop process not found. Stopping Oblivion-Helper...") ;;
  handleExit env.

End FilePolled.

(** ** src/cmd/oblivion-helper.go: the third program (fixed paths) *)

Module FileSimple.

Record SingBoxManager : Type := mkManager {
  commandFile : string;
  configFile : string;
  binFile : string;
  singBoxProcess : option Cmd
}.

Definition set_singBoxProcess (p : option Cmd) (m : SingBoxManager)
  : SingBoxManager :=
  mkManager (commandFile m) (configFile m) (binFile m) p.

(** The manager [main] builds for the target [goos]. *)
Definition newManager (execDir goos : string) : SingBoxManager :=
  mkManager (filepath_Join execDir "cmd.obv")
            (filepath_Join execDir "sbConfig.json")
            (if String.eqb goos "windows"
             then filepath_Join execDir "oblivion-sing-box.exe"
             else filepath_Join execDir "oblivion-sing-box")
            None.

(** Lines printed with [fmt.Println] and [fmt.Printf] are recorded as
    [Log] events, without the final line feed. *)
Definition Println (msg : string) : Event := Log msg.

(** What the OS answers while one command is processed. *)
Record CmdEnv : Type := mkCmdEnv {
  spawn : SpawnResult;            (* m.singBoxProcess.Start() *)
  stop : FileTimed.StopEnv        (* runtime.GOOS, Signal, the child, Kill *)
}.

Definition startSingBox (sp : SpawnResult) : M SingBoxManager unit :=
  m <- get ;;
  match singBoxProcess m with
  | None =>
      let cmd := exec_Command (binFile m) ["run"; "-c"; configFile m] in
      modify (set_singBoxProcess (Some cmd)) ;;
      match sp with
      | SpawnErr err =>
          emit (Spawn (Path cmd) (Args cmd) false) ;;
          emit (Println ("Failed to start Sing-Box: " ++ Error err))
      | SpawnOk pid =>
          emit (Spawn (Path cmd) (Args cmd) true) ;;
          modify (set_singBoxProcess (Some (started cmd pid))) ;;
          emit (Println "Sing-Box started.")
      end
  | Some _ => emit (Println "Sing-Box is already running.")
  end.

(** The force-kill of the stop path, with the two lines it can print. *)
Definition force_kill (env : FileTimed.StopEnv) (pid : nat)
    (failed succeeded : string) : M SingBoxManager unit :=
  emit (Kill pid) ;;
  match FileTimed.kill_result env with
  | Some killErr => emit (Println (failed ++ Error killErr))
  | None => emit (Println succeeded)
  end.

(** [Nil]: returned; [NilDeref]: [Process] was nil. *)
Definition stopSingBox (env : FileTimed.StopEnv) : M SingBoxManager Ret :=
  m <- get ;;
  match singBoxProcess m with
  | None =>
      emit (Println "No Sing-Box process to stop.") ;;
      ret Nil
  | Some cmd =>
      match Process cmd with
      | None => ret NilDeref
      | Some pid =>
          (if String.eqb (FileTimed.GOOS env) "windows"
           then force_kill env pid "Failed to kill process on Windows: "
                  "Sing-Box was stopped on Windows."
           else
             emit (SignalTerm pid) ;;
             match FileTimed.signal_result env with
             | Some err =>
                 emit (Println ("Failed to send termination signal: "
                                ++ Error err)) ;;
                 force_kill env pid "Failed to kill process: "
                   "Sing-Box was forcefully stopped."
             | None =>
                 emit (Go "done <- m.singBoxProcess.Wait()") ;;
                 emit (AwaitExit pid (5 * Second)) ;;
                 let timeout :=
                   force_kill env pid "Failed to kill process after timeout: "
                     "Sing-Box was forcefully stopped after timeout." in
                 match FileTimed.reaction env with
                 | ExitsAfter delay wait_err =>
                     if (delay <? 5 * Second)%Z
                     then match wait_err with
                          | Some err =>
                              emit (Println ("Process exited with error: "
                                             ++ Error err))
                          | None => emit (Println "Sing-Box stopped gracefully.")
                          end
                     else timeout
                 | NeverExits => timeout
                 end
             end) ;;
          modify (set_singBoxProcess None) ;;
          ret Nil
      end
  end.

Definition handleExit (env : FileTimed.StopEnv)
  : M SingBoxManager FilePolled.Flow :=
  r <- stopSingBox env ;;
  match r with
  | NilDeref => ret FilePolled.Panicked
  | _ =>
      emit (Println "Exiting helper.") ;;
      emit (OsExit 0) ;;
      ret (FilePolled.Exited 0)
  end.

Definition readCommandFromFile (o : FilePolled.OpenResult)
  : string * option error :=
  match o with
  | FilePolled.OpenMissing => ("", None)
  | FilePolled.OpenFailed err => ("", Some err)
  | FilePolled.Opened content read_err =>
      match Scan content read_err with
      | Token text => (ToLower (TrimSpace text), None)
      | NoToken err => ("", err)
      end
  end.

Definition processCommand (env : CmdEnv) (command : string)
  : M SingBoxManager FilePolled.Flow :=
  if String.eqb command "start"
  then startSingBox (spawn env) ;; ret FilePolled.Running
  else if String.eqb command "stop" then
    r <- stopSingBox (stop env) ;;
    match r with
    | NilDeref => ret FilePolled.Panicked
    | _ => ret FilePolled.Running
    end
  else if String.eqb command "exit" then handleExit (stop env)
  else
    emit (Println ("Unknown command: " ++ command)) ;;
    ret FilePolled.Running.

(** [watchCommandFile] over a run of polls, one a second: the commands
    it sends on [commandChan] and the lines it prints. *)
Fixpoint watchCommandFile (polls : list FilePolled.OpenResult)
  : list string * list Event :=
  match polls with
  | [] => ([], [])
  | o :: rest =>
      let '(cmds, logs) := watchCommandFile rest in
      match readCommandFromFile o with
      | (_, Some err) =>
          (cmds, Println ("Error reading command: " ++ Error err) :: logs)
      | (command, None) =>
          (if String.eqb command "" then cmds else command :: cmds, logs)
      end
  end.

(** The loop of [main] over the commands received on [commandChan],
    each with the OS answers for its processing. *)
Fixpoint main_loop (lastCommand : string) (commands : list (string * CmdEnv))
  : M SingBoxManager FilePolled.Flow :=
  match commands with
  | [] => ret FilePolled.Running
  | (command, env) :: rest =>
      if negb (String.eqb command lastCommand)
      then
        f <- processCommand env command ;;
        match f with
        | FilePolled.Running => main_loop command rest
        | _ => ret f
        end
      else main_loop lastCommand rest
  end.

End FileSimple.

(** ** Vocabulary of the properties *)

(** The status strings of the specification's closed set. *)
Definition StatusEvent : list string :=
  ["starting"; "started"; "stopping"; "stopped"; "terminated";
   "download-failed"].

(** The statuses for which [stream.Send] was called, in order. *)
Fixpoint sends (t : list Event) : list string :=
  match t with
  | [] => []
  | StreamSend st _ :: t' => st :: sends t'
  | _ :: t' => sends t'
  end.

(** The statuses whose [stream.Send] succeeded, in order. *)
Fixpoint delivered (t : list Event) : list string :=
  match t with
  | [] => []
  | StreamSend st true :: t' => st :: delivered t'
  | _ :: t' => delivered t'
  end.

(** No two neighbours of the list are equal. *)
Fixpoint no_repeat (l : list string) : Prop :=
  match l with
  | [] => True
  | x :: rest =>
      match rest with
      | [] => True
      | y :: _ => x <> y /\ no_repeat rest
      end
  end.

(** The deduplication law in the specification's words: a subscriber
    remembers the last value it passed on and skips a value equal to
    it. *)
Fixpoint skip_repeats (last : string) (l : list string) : list string :=
  match l with
  | [] => []
  | x :: rest =>
      if String.eqb x last then skip_repeats last rest
      else x :: skip_repeats x rest
  end.

(** The values a part_002 subscriber takes from the channel. *)
Fixpoint received (sels : list GrpcLogged.Select) : list string :=
  match sels with
  | [] => []
  | GrpcLogged.Received status _ :: rest => status :: received rest
  | _ :: rest => received rest
  end.

(** The handle the stop path dereferences: [s.sbProcess] and its
    [Process] are both non-nil whenever the running flag is on. *)
Definition handle_ready (running : bool) (sbProcess : option Cmd) : bool :=
  implb running
    (match sbProcess with
     | Some cmd => not_nil (Process cmd)
     | None => false
     end).

(** The closed set with the status that [Exit] of src/cmd/main.go adds. *)
Definition StatusEvent_with_exited : list string :=
  StatusEvent ++ ["exited"].

(** Membership in a list of statuses, decided. *)
Definition status_in (set : list string) (st : string) : bool :=
  existsb (String.eqb st) set.

(** A configuration file that names the binary and its configuration. *)
Definition sample_doc : ReadResult :=
  ReadOk (Decodes (mkDoc (Some "sb.json") (Some "sing-box")
                     None None None None) None).

(** OS answers under which part_002's [startSingBox] succeeds. *)
Definition sample_env : GrpcLogged.StartEnv :=
  GrpcLogged.mkStartEnv StatOk sample_doc StatOk StatOk (SpawnOk 77).

(** What [broadcastStatus] leaves in a queue of capacity [cap]. *)
Definition offered (cap : nat) (queue : list string) (status : string)
  : list string :=
  if Nat.ltb (List.length queue) cap then queue ++ [status] else queue.

(** A value taken from the channel whose [stream.Send] succeeds. *)
Definition delivered_value (v : string) : GrpcLogged.Select :=
  GrpcLogged.Received v None.

(** The first line of a text in the specification's words: what comes
    before the first line feed, or the whole text when it has none. *)
Fixpoint first_line (s : string) : string :=
  match s with
  | EmptyString => EmptyString
  | String c rest =>
      if Ascii.eqb c LF then EmptyString else String c (first_line rest)
  end.

(** A part_003 manager that owns the started process [pid]. *)
Definition owning (pid : nat) : FileTimed.SingBoxManager :=
  FileTimed.mkManager
    (FileTimed.mkConfig "/opt/sb.json" "/opt/sing-box" "warp-plus"
       "oblivion-desktop" false false)
    "/opt/config.obv" "/opt/cmd.obv"
    (Some (mkCmd "/opt/sing-box"
             ["/opt/sing-box"; "run"; "-c"; "/opt/sb.json"] (Some pid))).

(** OS answers for a command that needs none of them. *)
Definition quiet_env : FilePolled.Env :=
  FilePolled.mkEnv "linux" sample_doc (SpawnOk 77) None
    (fun _ => ProbeAnswer false) (inr "{}") None.

(** No action of the trace touches an OS process. *)
Definition process_untouched (t : list Event) : Prop :=
  existsb touches_process t = false.

(** The two errors by which the running flag refuses a call. *)
Definition alreadyRunning : error :=
  statusError AlreadyExists "Sing-Box is already running".

Definition notRunning : error :=
  statusError FailedPrecondition "Sing-Box is not running".

(** The number of processes a trace started. *)
Fixpoint spawned_ok (t : list Event) : nat :=
  match t with
  | [] => 0
  | Spawn _ _ true :: t' => S (spawned_ok t')
  | _ :: t' => spawned_ok t'
  end.

(** The number of times a trace reported the process gone: the calls of
    [broadcastStatus] with stopped or terminated. *)
Fixpoint reported_gone (t : list Event) : nat :=
  match t with
  | [] => 0
  | Broadcast st _ :: t' =>
      if String.eqb st "stopped" || String.eqb st "terminated"
      then S (reported_gone t') else reported_gone t'
  | _ :: t' => reported_gone t'
  end.

(** The number of [Process.Kill()] calls of a trace. *)
Fixpoint kills (t : list Event) : nat :=
  match t with
  | [] => 0
  | Kill _ :: t' => S (kills t')
  | _ :: t' => kills t'
  end.

(** The running flag as a count of managed processes. *)
Definition flag (running : bool) : nat := if running then 1 else 0.

(** The commands that differ from the one received before them, the
    first compared with [last]. *)
Fixpoint fresh_commands {E : Type} (last : string) (l : list (string * E))
  : list (string * E) :=
  match l with
  | [] => []
  | (command, env) :: rest =>
      if String.eqb command last then fresh_commands last rest
      else (command, env) :: fresh_commands command rest
  end.

(** The third program processing every command of a list, until one
    ends the program. *)
Fixpoint process_each (commands : list (string * FileSimple.CmdEnv))
  : M FileSimple.SingBoxManager FilePolled.Flow :=
  match commands with
  | [] => ret FilePolled.Running
  | (command, env) :: rest =>
      f <- FileSimple.processCommand env command ;;
      match f with
      | FilePolled.Running => process_each rest
      | _ => ret f
      end
  end.

(** A value sent by a channel whose [stream.Send] succeeds (main.go). *)
Definition sent_ok (v : string) : string * option error := (v, None).

(** ASCII upper-case letters. *)
Definition isUpper (c : ascii) : bool :=
  let n := nat_of_ascii c in (65 <=? n)%nat && (n <=? 90)%nat.

(** No byte of the text satisfies [p]. *)
Fixpoint none_of (p : ascii -> bool) (s : string) : bool :=
  match s with
  | EmptyString => true
  | String c rest => negb (p c) && none_of p rest
  end.

(** The first and the last byte of a text. *)
Definition first_byte (s : string) : option ascii :=
  match s with
  | EmptyString => None
  | String c _ => Some c
  end.

Fixpoint last_byte (s : string) : option ascii :=
  match s with
  | EmptyString => None
  | String c EmptyString => Some c
  | String _ rest => last_byte rest
  end.

(** Neither the first nor the last byte is white space. *)
Definition trimmed (s : string) : bool :=
  match first_byte s, last_byte s with
  | Some a, Some b => negb (isSpace a) && negb (isSpace b)
  | _, _ => true
  end.

(** Every [Process.Kill()] of the trace comes after a SIGTERM was sent
    and an exit was waited for. *)
Fixpoint kill_after_wait (signalled waited : bool) (t : list Event) : bool :=
  match t with
  | [] => true
  | SignalTerm _ :: t' => kill_after_wait true waited t'
  | AwaitExit _ _ :: t' => kill_after_wait signalled true t'
  | Kill _ :: t' => signalled && waited && kill_after_wait signalled waited t'
  | _ :: t' => kill_after_wait signalled waited t'
  end.

(** A third-program manager that owns the started process [pid]. *)
Definition holding (pid : nat) : FileSimple.SingBoxManager :=
  FileSimple.mkManager "/opt/cmd.obv" "/opt/sbConfig.json"
    "/opt/oblivion-sing-box"
    (Some (mkCmd "/opt/oblivion-sing-box"
             ["/opt/oblivion-sing-box"; "run"; "-c"; "/opt/sbConfig.json"]
             (Some pid))).

(** The line feed byte, as a test. *)
Definition isLF (c : ascii) : bool := Ascii.eqb c LF.

(** ASCII text: every byte is below 0x80.  On such text [TrimSpace] and
    [ToLower] above are [strings.TrimSpace] and [strings.ToLower]. *)
Definition nonASCII (c : ascii) : bool := (128 <=? nat_of_ascii c)%nat.
Definition isASCII (s : string) : bool := none_of nonASCII s.

(** The text of the command file that a tick reads holds ASCII only. *)
Definition ascii_file (t : FilePolled.Tick) : bool :=
  match FilePolled.opened t with
  | FilePolled.Opened content _ => isASCII content
  | _ => true
  end.

(** ** Reasoning about handler bodies *)

#[local] Arguments String.append : simpl never.
#[local] Arguments Nat.ltb : simpl never.

Ltac run_body :=
  unfold result_of, state_of, trace_of, bind, ret, get, modify, emit in *;
  cbn [fst snd app] in *.

(** Case analysis on whether the status queue still has room. *)
Ltac case_queue :=
  match goal with
  | |- context [Nat.ltb ?a ?b] => destruct (Nat.ltb a b) eqn:?
  end.

(** Every answer the OS can give to an operation, then evaluation. *)
Ltac split_unmarshal :=
  repeat match goal with
  | rf : ReadResult |- _ => destruct rf as [? | [? | ? [? |]]]
  | sp : SpawnResult |- _ => destruct sp
  | k : option error |- _ => destruct k
  | st : StatResult |- _ => destruct st
  end.

Ltac eval_step :=
  cbn; repeat (case_queue; cbn); try reflexivity.

(** ** Start and Stop refused by the running flag *)

Section Refusals.

Example start_on_running_server :
  MainGo.Start (ReadErr (errorString "x")) (SpawnOk 3)
    (MainGo.mkServer true [] "/opt" (MainGo.mkConfig "c" "b")
       (Some (mkCmd "b" ["b"] (Some 9))))
  = (Failure alreadyRunning,
     MainGo.mkServer true [] "/opt" (MainGo.mkConfig "c" "b")
       (Some (mkCmd "b" ["b"] (Some 9))), []).
Proof. reflexivity. Qed.

(** C5. With [running = true], [Start] answers the AlreadyExists error
    "Sing-Box is already running" and changes nothing: the state is the
    one it was called on (flag, handle, queue), nothing is handed to
    [broadcastStatus] and no OS process is spawned, signalled or
    killed.  src/cmd/main.go emits nothing at all; part_002 only logs
    the error. *)
Theorem start_refused_when_running
    (rf : ReadResult) (sp : SpawnResult) (env : GrpcLogged.StartEnv)
    (s1 : MainGo.Server) (s2 : GrpcLogged.Server)
    (H1 : MainGo.running s1 = true) (H2 : GrpcLogged.running s2 = true) :
  MainGo.Start rf sp s1 = (Failure alreadyRunning, s1, [])
  /\ result_of (GrpcLogged.Start env s2) = Failure alreadyRunning
  /\ state_of (GrpcLogged.Start env s2) = s2
  /\ broadcasts (trace_of (GrpcLogged.Start env s2)) = []
  /\ process_untouched (trace_of (GrpcLogged.Start env s2)).
Proof.
  split.
  - unfold MainGo.Start. run_body. rewrite H1. reflexivity.
  - unfold GrpcLogged.Start, GrpcLogged.startSingBox. run_body.
    rewrite H2. cbn. repeat split.
Qed.

Lemma start_refused_when_running_witness :
  let s1 := MainGo.mkServer true ["started"] "/opt"
              (MainGo.mkConfig "c.json" "sb")
              (Some (mkCmd "/opt/sb" ["/opt/sb"] (Some 41))) in
  let s2 := GrpcLogged.mkServer true ["started"] "/opt"
              (GrpcLogged.mkConfig "c.json" "sb")
              (Some (mkCmd "/opt/sb" ["/opt/sb"] (Some 41))) in
  let env := GrpcLogged.mkStartEnv StatNotExist (ReadErr (errorString "gone"))
               StatOk StatOk (SpawnOk 42) in
  MainGo.Start (ReadErr (errorString "gone")) (SpawnOk 42) s1
    = (Failure alreadyRunning, s1, [])
  /\ result_of (GrpcLogged.Start env s2) = Failure alreadyRunning
  /\ state_of (GrpcLogged.Start env s2) = s2
  /\ broadcasts (trace_of (GrpcLogged.Start env s2)) = []
  /\ process_untouched (trace_of (GrpcLogged.Start env s2)).
Proof.
  intros s1 s2 env.
  apply (start_refused_when_running (ReadErr (errorString "gone")) (SpawnOk 42)
           env s1 s2); reflexivity.
Defined.

(** C6. With [running = false], [Stop] answers the FailedPrecondition
    error "Sing-Box is not running", leaves the state as it was (flag,
    handle, queue), hands nothing to [broadcastStatus] and touches no
    process.  src/cmd/main.go emits nothing at all; part_002 only logs
    the error. *)
Theorem stop_refused_when_not_running
    (kill : option error) (s1 : MainGo.Server) (s2 : GrpcLogged.Server)
    (H1 : MainGo.running s1 = false) (H2 : GrpcLogged.running s2 = false) :
  MainGo.Stop kill s1 = (Failure notRunning, s1, [])
  /\ result_of (GrpcLogged.Stop kill s2) = Failure notRunning
  /\ state_of (GrpcLogged.Stop kill s2) = s2
  /\ broadcasts (trace_of (GrpcLogged.Stop kill s2)) = []
  /\ process_untouched (trace_of (GrpcLogged.Stop kill s2)).
Proof.
  split.
  - unfold MainGo.Stop. run_body. rewrite H1. reflexivity.
  - unfold GrpcLogged.Stop, GrpcLogged.stopSingBox. run_body.
    rewrite H2. cbn. repeat split.
Qed.

Lemma stop_refused_when_not_running_witness :
  let s1 := MainGo.NewServer "/opt" in
  let s2 := GrpcLogged.mkServer false ["started"; "stopped"] "/opt"
              (GrpcLogged.mkConfig "c.json" "sb") None in
  MainGo.Stop None s1 = (Failure notRunning, s1, [])
  /\ result_of (GrpcLogged.Stop None s2) = Failure notRunning
  /\ state_of (GrpcLogged.Stop None s2) = s2
  /\ broadcasts (trace_of (GrpcLogged.Stop None s2)) = []
  /\ process_untouched (trace_of (GrpcLogged.Stop None s2)).
Proof.
  intros s1 s2.
  apply (stop_refused_when_not_running None s1 s2); reflexivity.
Defined.

End Refusals.

(** ** Start when the configuration cannot be resolved *)

Section ConfigFailure.

Example start_without_config_file :
  GrpcLogged.Start
    (GrpcLogged.mkStartEnv StatNotExist (ReadErr (errorString "no such file"))
       StatOk StatOk (SpawnOk 5))
    (GrpcLogged.NewServer "/opt")
  = (Failure (statusError NotFound
                "configuration file not found at /opt/config.obv"),
     GrpcLogged.NewServer "/opt",
     [GrpcLogged.error_
        ("Start error: rpc error: code = NotFound desc = "
         ++ "configuration file not found at /opt/config.obv")]).
Proof. reflexivity. Qed.

Lemma MainGo_loadConfig_fails (rf : ReadResult) (s : MainGo.Server)
    (err : error) :
  result_of (MainGo.loadConfig rf s) = Some err ->
  exists c, MainGo.loadConfig rf s = (Some err, MainGo.set_config c s, []).
Proof.
  unfold MainGo.loadConfig. destruct rf as [e | data]; run_body.
  - intros H. inversion H; subst. exists (MainGo.config s).
    destruct s; reflexivity.
  - destruct (MainGo.json_Unmarshal data (MainGo.config s)) as [c perr].
    cbn. intros H. subst perr. exists c. reflexivity.
Qed.

Lemma GrpcLogged_loadConfig_fails (env : GrpcLogged.StartEnv)
    (s : GrpcLogged.Server) (err : error) :
  result_of (GrpcLogged.loadConfig env s) = Some err ->
  exists c,
    GrpcLogged.loadConfig env s = (Some err, GrpcLogged.set_config c s, [])
    /\ ((GrpcLogged.stat_config env = StatNotExist
         /\ err = statusError NotFound
                    ("configuration file not found at "
                     ++ filepath_Join (GrpcLogged.dirPath s)
                          GrpcLogged.configFileName))
        \/ (exists e, GrpcLogged.read_config env = ReadErr e
            /\ err = statusError Internal
                       ("failed to read config file: " ++ Error e))
        \/ (exists data e, GrpcLogged.read_config env = ReadOk data
            /\ snd (GrpcLogged.json_Unmarshal data (GrpcLogged.config s))
               = Some e
            /\ err = statusError InvalidArgument
                       ("failed to parse config: " ++ Error e))).
Proof.
  assert (Hid : GrpcLogged.set_config (GrpcLogged.config s) s = s)
    by (destruct s; reflexivity).
  unfold GrpcLogged.loadConfig. run_body.
  destruct (GrpcLogged.stat_config env) eqn:Hstat; cbn.
  - intros H. inversion H; subst. exists (GrpcLogged.config s).
    rewrite Hid. split; [reflexivity | left; split; reflexivity].
  - destruct (GrpcLogged.read_config env) as [e | data] eqn:Hread; cbn.
    + intros H. inversion H; subst. exists (GrpcLogged.config s).
      rewrite Hid. split; [reflexivity |].
      right; left. exists e. split; reflexivity.
    + destruct (GrpcLogged.json_Unmarshal data (GrpcLogged.config s))
        as [c perr] eqn:Hjson.
      destruct perr as [e |]; cbn; intros H; [| discriminate].
      inversion H; subst. exists c. split; [reflexivity |].
      right; right. exists data, e. rewrite Hjson. repeat split.
  - destruct (GrpcLogged.read_config env) as [e | data] eqn:Hread; cbn.
    + intros H. inversion H; subst. exists (GrpcLogged.config s).
      rewrite Hid. split; [reflexivity |].
      right; left. exists e. split; reflexivity.
    + destruct (GrpcLogged.json_Unmarshal data (GrpcLogged.config s))
        as [c perr] eqn:Hjson.
      destruct perr as [e |]; cbn; intros H; [| discriminate].
      inversion H; subst. exists c. split; [reflexivity |].
      right; right. exists data, e. rewrite Hjson. repeat split.
Qed.

(** C3. A [Start] that reaches [loadConfig] (the running flag is off)
    and whose [loadConfig] fails returns the configuration error: in
    src/cmd/main.go FailedPrecondition "Failed to load config: ..."; in
    part_002 the error of [loadConfig] itself, which is NotFound for a
    missing file, Internal for an unreadable one and InvalidArgument for
    text that does not parse.  The running flag, the process handle and
    the status queue are as before, nothing is handed to
    [broadcastStatus], and no process is spawned or touched. *)
Theorem start_fails_on_config
    (rf : ReadResult) (sp : SpawnResult) (env : GrpcLogged.StartEnv)
    (s1 : MainGo.Server) (s2 : GrpcLogged.Server) (err1 err2 : error)
    (R1 : MainGo.running s1 = false)
    (R2 : GrpcLogged.running s2 = false)
    (L1 : result_of (MainGo.loadConfig rf s1) = Some err1)
    (L2 : result_of (GrpcLogged.loadConfig env s2) = Some err2) :
  let r1 := MainGo.Start rf sp s1 in
  let r2 := GrpcLogged.Start env s2 in
  (result_of r1 = Failure (statusError FailedPrecondition
                             ("Failed to load config: " ++ Error err1))
   /\ MainGo.running (state_of r1) = MainGo.running s1
   /\ MainGo.sbProcess (state_of r1) = MainGo.sbProcess s1
   /\ MainGo.statusChange (state_of r1) = MainGo.statusChange s1
   /\ trace_of r1 = [])
  /\ (result_of r2 = Failure err2
   /\ ((GrpcLogged.stat_config env = StatNotExist
        /\ err2 = statusError NotFound
                    ("configuration file not found at "
                     ++ filepath_Join (GrpcLogged.dirPath s2)
                          GrpcLogged.configFileName))
       \/ (exists e, GrpcLogged.read_config env = ReadErr e
            /\ err2 = statusError Internal
                        ("failed to read config file: " ++ Error e))
       \/ (exists data e, GrpcLogged.read_config env = ReadOk data
            /\ snd (GrpcLogged.json_Unmarshal data (GrpcLogged.config s2))
               = Some e
            /\ err2 = statusError InvalidArgument
                        ("failed to parse config: " ++ Error e)))
   /\ GrpcLogged.running (state_of r2) = GrpcLogged.running s2
   /\ GrpcLogged.sbProcess (state_of r2) = GrpcLogged.sbProcess s2
   /\ GrpcLogged.statusChange (state_of r2) = GrpcLogged.statusChange s2
   /\ broadcasts (trace_of r2) = []
   /\ process_untouched (trace_of r2)).
Proof.
  intros r1 r2. subst r1 r2. split.
  - destruct (MainGo_loadConfig_fails rf s1 err1 L1) as [c Hc].
    unfold MainGo.Start. run_body. rewrite R1, Hc. cbn.
    repeat split; assumption.
  - destruct (GrpcLogged_loadConfig_fails env s2 err2 L2) as [c [Hc Hkind]].
    unfold GrpcLogged.Start, GrpcLogged.startSingBox. run_body.
    rewrite R2, Hc. cbn. repeat split; assumption.
Qed.

Lemma start_fails_on_config_witness :
  let rf := ReadOk (Malformed (errorString "unexpected end of JSON input")) in
  let env := GrpcLogged.mkStartEnv StatOk rf StatOk StatOk (SpawnOk 8) in
  let s1 := MainGo.NewServer "/opt" in
  let s2 := GrpcLogged.NewServer "/opt" in
  result_of (MainGo.Start rf (SpawnOk 8) s1)
    = Failure (statusError FailedPrecondition
                 "Failed to load config: unexpected end of JSON input")
  /\ result_of (GrpcLogged.Start env s2)
    = Failure (statusError InvalidArgument
                 "failed to parse config: unexpected end of JSON input")
  /\ state_of (GrpcLogged.Start env s2) = s2.
Proof.
  intros rf env s1 s2.
  pose proof (start_fails_on_config rf (SpawnOk 8) env s1 s2
                (errorString "unexpected end of JSON input")
                (statusError InvalidArgument
                   "failed to parse config: unexpected end of JSON input")
                eq_refl eq_refl eq_refl eq_refl) as [[H1 _] [H2 _]].
  split; [exact H1 | split; [exact H2 | reflexivity]].
Defined.

End ConfigFailure.

(** ** Deduplication at the subscriber *)

Section Deduplication.

Example stream_skips_repeats :
  sends (snd (MainGo.StreamStatus
                [("started", None); ("started", None); ("stopped", None);
                 ("stopped", None); ("started", None)] true))
  = ["started"; "stopped"; "started"].
Proof. reflexivity. Qed.

Lemma no_repeat_cons (x : string) (l : list string) :
  no_repeat l -> (forall y rest, l = y :: rest -> y <> x) ->
  no_repeat (x :: l).
Proof.
  intros Hl Hhead. destruct l as [| y rest]; cbn; [exact I |].
  split; [| exact Hl].
  intros Heq. apply (Hhead y rest eq_refl). symmetry. exact Heq.
Qed.

Lemma no_repeat_prefix (l more : list string) :
  no_repeat (l ++ more) -> no_repeat l.
Proof.
  induction l as [| x l IH]; [intros _; exact I |].
  destruct l as [| y l]; [intros _; exact I |].
  cbn in *. intros [Hxy Hrest]. split; [exact Hxy | exact (IH Hrest)].
Qed.

Lemma sends_app (t1 t2 : list Event) :
  sends (t1 ++ t2) = sends t1 ++ sends t2.
Proof.
  induction t1 as [| e t1 IH]; [reflexivity |].
  destruct e; cbn; rewrite ?IH; reflexivity.
Qed.

Lemma delivered_app (t1 t2 : list Event) :
  delivered (t1 ++ t2) = delivered t1 ++ delivered t2.
Proof.
  induction t1 as [| e t1 IH]; [reflexivity |].
  destruct e as [| | | | | | | st [|] | |]; cbn; rewrite ?IH; reflexivity.
Qed.

(** What the loop of src/cmd/main.go passes on, from any last-seen
    value: no neighbour repeats, the first differs from the last-seen
    value, the whole is an initial part of the received values with the
    repeats skipped, and only a final send can have failed. *)
Lemma MainGo_loop_sends (incoming : list (string * option error)) :
  forall (last : string) (closed : bool),
    let t := snd (MainGo.StreamStatus_loop last incoming closed) in
    no_repeat (sends t)
    /\ (forall y rest, sends t = y :: rest -> y <> last)
    /\ (exists more, skip_repeats last (map fst incoming) = sends t ++ more)
    /\ (exists failed, sends t = delivered t ++ failed).
Proof.
  induction incoming as [| [status send_err] rest IH]; intros last closed.
  - cbn. repeat split; [discriminate | exists []; reflexivity
                        | exists []; reflexivity].
  - cbn [MainGo.StreamStatus_loop map fst skip_repeats].
    destruct (String.eqb_spec status last) as [Heq | Hne].
    + apply IH.
    + destruct send_err as [err |].
      * cbn. repeat split.
        -- intros y r H. inversion H; subst. exact Hne.
        -- eexists. reflexivity.
        -- exists [status]. reflexivity.
      * specialize (IH status closed).
        destruct (MainGo.StreamStatus_loop status rest closed) as [r t].
        cbn in *. destruct IH as [Hnr [Hhead [[more Hmore] [failed Hf]]]].
        repeat split.
        -- apply (no_repeat_cons status (sends t) Hnr Hhead).
        -- intros y r' H. inversion H; subst. exact Hne.
        -- exists more. rewrite Hmore. reflexivity.
        -- exists failed. rewrite Hf at 1. reflexivity.
Qed.

(** One select of part_002: what it passes on and whether the loop
    goes on. *)
Lemma GrpcLogged_select_sends (last : string) (sel : GrpcLogged.Select)
    (s : GrpcLogged.Server) :
  let r := GrpcLogged.StreamStatus_select last sel s in
  match sel with
  | GrpcLogged.Received status send_err =>
      if String.eqb status last
      then sends (trace_of r) = [] /\ delivered (trace_of r) = []
           /\ result_of r = GrpcLogged.Continue last
      else sends (trace_of r) = [status]
           /\ match send_err with
              | None => delivered (trace_of r) = [status]
                        /\ result_of r = GrpcLogged.Continue status
              | Some _ => delivered (trace_of r) = []
                          /\ forall l, result_of r <> GrpcLogged.Continue l
              end
  | _ => sends (trace_of r) = [] /\ delivered (trace_of r) = []
         /\ forall l, result_of r <> GrpcLogged.Continue l
  end.
Proof.
  destruct sel as [ctx_err kill | status send_err |]; cbn.
  - destruct s as [run q dir c [[path args [pid |]] |]];
      destruct run, kill as [err |];
      unfold GrpcLogged.stopSingBox, GrpcLogged.broadcastStatus; run_body;
      cbn; try case_queue; cbn;
      (split; [reflexivity | split; [reflexivity | discriminate]]).
  - destruct (String.eqb status last); cbn; [repeat split |].
    destruct send_err as [err |]; cbn; repeat split. discriminate.
  - repeat split. discriminate.
Qed.

Lemma GrpcLogged_loop_sends (sels : list GrpcLogged.Select) :
  forall (last : string) (s : GrpcLogged.Server),
    let t := trace_of (GrpcLogged.StreamStatus_loop last sels s) in
    no_repeat (sends t)
    /\ (forall y rest, sends t = y :: rest -> y <> last)
    /\ (exists more, skip_repeats last (received sels) = sends t ++ more)
    /\ (exists failed, sends t = delivered t ++ failed).
Proof.
  induction sels as [| sel rest IH]; intros last s.
  - cbn. repeat split; [discriminate | exists []; reflexivity
                        | exists []; reflexivity].
  - cbn [GrpcLogged.StreamStatus_loop].
    pose proof (GrpcLogged_select_sends last sel s) as Hsel.
    unfold bind, trace_of, result_of in *. cbn [fst snd] in *.
    destruct (GrpcLogged.StreamStatus_select last sel s) as [[it s1] t1].
    cbn [fst snd] in *.
    destruct sel as [ctx_err kill | status send_err |].
    + destruct Hsel as [Hs [Hd Hc]].
      destruct it as [l | err |]; [exfalso; exact (Hc l eq_refl) | |];
        cbn; rewrite app_nil_r, Hs, Hd; cbn;
        (repeat split; [discriminate | eexists; reflexivity
                        | exists []; reflexivity]).
    + cbn [received skip_repeats].
      destruct (String.eqb_spec status last) as [Heq | Hne].
      * destruct Hsel as [Hs [Hd Hc]]. subst it.
        specialize (IH last s1).
        destruct (GrpcLogged.StreamStatus_loop last rest s1) as [[r s2] t2].
        cbn [fst snd] in *. rewrite sends_app, delivered_app, Hs, Hd.
        exact IH.
      * destruct Hsel as [Hs Hc].
        destruct send_err as [err |]; destruct Hc as [Hd Hc].
        -- destruct it as [l | e |]; [exfalso; exact (Hc l eq_refl) | |];
             cbn; rewrite app_nil_r, Hs, Hd; cbn; repeat split;
             try (intros y r' H; inversion H; subst; exact Hne);
             try (eexists; reflexivity); exists [status]; reflexivity.
        -- subst it. specialize (IH status s1).
           destruct (GrpcLogged.StreamStatus_loop status rest s1)
             as [[r s2] t2].
           cbn [fst snd] in *. rewrite sends_app, delivered_app, Hs, Hd.
           cbn. destruct IH as [Hnr [Hhead [[more Hmore] [failed Hf]]]].
           repeat split.
           ++ apply (no_repeat_cons status (sends t2) Hnr Hhead).
           ++ intros y r' H. inversion H; subst. exact Hne.
           ++ exists more. rewrite Hmore. reflexivity.
           ++ exists failed. rewrite Hf at 1. reflexivity.
    + destruct Hsel as [Hs [Hd Hc]].
      destruct it as [l | err |]; [exfalso; exact (Hc l eq_refl) | |];
        cbn; rewrite app_nil_r, Hs, Hd; cbn;
        (repeat split; [discriminate | eexists; reflexivity
                        | exists []; reflexivity]).
Qed.

(** C7. Whatever values a subscription takes from the status channel,
    and whatever [stream.Send] answers, the statuses passed to
    [stream.Send], and among them those that reached the subscriber,
    never hold the same string twice in a row, in src/cmd/main.go and in
    part_002 alike; they are an initial part of the received values with
    every value equal to the last one passed on skipped, the last-seen
    value starting as the empty string. *)
Theorem stream_never_repeats
    (incoming : list (string * option error)) (closed : bool)
    (sels : list GrpcLogged.Select) (s : GrpcLogged.Server) :
  let t1 := snd (MainGo.StreamStatus incoming closed) in
  let t2 := trace_of (GrpcLogged.StreamStatus sels s) in
  (no_repeat (sends t1) /\ no_repeat (delivered t1))
  /\ (no_repeat (sends t2) /\ no_repeat (delivered t2))
  /\ (exists more, skip_repeats "" (map fst incoming) = sends t1 ++ more)
  /\ (exists more, skip_repeats "" (received sels) = sends t2 ++ more).
Proof.
  intros t1 t2. subst t1 t2.
  destruct (MainGo_loop_sends incoming "" closed) as [H1 [_ [P1 [f1 F1]]]].
  destruct (GrpcLogged_loop_sends sels "" s) as [H2 [_ [P2 [f2 F2]]]].
  unfold MainGo.StreamStatus, GrpcLogged.StreamStatus in *.
  repeat split; try assumption.
  - apply (no_repeat_prefix _ f1). rewrite <- F1. exact H1.
  - apply (no_repeat_prefix _ f2). rewrite <- F2. exact H2.
Qed.

End Deduplication.

(** ** Invariants of the two gRPC servers *)

Section Invariants.

Lemma MainGo_step_handle_ready (o : MainGo.Op) (s : MainGo.Server) :
  handle_ready (MainGo.running s) (MainGo.sbProcess s) = true ->
  let s' := fst (MainGo.step o s) in
  handle_ready (MainGo.running s') (MainGo.sbProcess s') = true.
Proof.
  destruct s as [run q dir c [[path args [pid |]] |]]; destruct run;
    cbn; try discriminate; intros _;
    destruct o; split_unmarshal;
    unfold MainGo.step, MainGo.Start, MainGo.Stop, MainGo.Exit,
      MainGo.monitorProcess, MainGo.Status, MainGo.loadConfig,
      MainGo.startSingBox, MainGo.stopSingBox, MainGo.broadcastStatus;
    run_body; eval_step.
Qed.

Lemma MainGo_run_invariant (P : MainGo.Server -> Prop) :
  (forall o s, P s -> P (fst (MainGo.step o s))) ->
  forall ops s, P s -> P (fst (MainGo.run ops s)).
Proof.
  intros Hstep. induction ops as [| o rest IH]; intros s Hs; [exact Hs |].
  cbn. specialize (Hstep o s Hs).
  destruct (MainGo.step o s) as [s1 t1]. cbn in Hstep.
  specialize (IH s1 Hstep).
  destruct (MainGo.run rest s1) as [s2 t2]. exact IH.
Qed.

Lemma MainGo_reachable_handle_ready (s : MainGo.Server) :
  MainGo.reachable s ->
  handle_ready (MainGo.running s) (MainGo.sbProcess s) = true.
Proof.
  intros [execDir [ops Hrun]]. subst s.
  apply (MainGo_run_invariant
           (fun s => handle_ready (MainGo.running s) (MainGo.sbProcess s)
                     = true)).
  - intros o s. apply MainGo_step_handle_ready.
  - reflexivity.
Qed.

Lemma GrpcLogged_step_handle_ready (o : GrpcLogged.Op)
    (s : GrpcLogged.Server) :
  handle_ready (GrpcLogged.running s) (GrpcLogged.sbProcess s) = true ->
  let s' := fst (GrpcLogged.step o s) in
  handle_ready (GrpcLogged.running s') (GrpcLogged.sbProcess s') = true.
Proof.
  destruct s as [run q dir c [[path args [pid |]] |]]; destruct run;
    cbn; try discriminate; intros _;
    destruct o as [[st rf sb sc sp] | k | k | k | e k |]; split_unmarshal;
    unfold GrpcLogged.step, GrpcLogged.Start, GrpcLogged.Stop,
      GrpcLogged.Exit, GrpcLogged.monitorProcess,
      GrpcLogged.StreamStatus_select, GrpcLogged.loadConfig,
      GrpcLogged.startSingBox, GrpcLogged.stopSingBox,
      GrpcLogged.broadcastStatus;
    run_body; eval_step.
Qed.

Lemma GrpcLogged_run_invariant (P : GrpcLogged.Server -> Prop) :
  (forall o s, P s -> P (fst (GrpcLogged.step o s))) ->
  forall ops s, P s -> P (fst (GrpcLogged.run ops s)).
Proof.
  intros Hstep. induction ops as [| o rest IH]; intros s Hs; [exact Hs |].
  cbn. specialize (Hstep o s Hs).
  destruct (GrpcLogged.step o s) as [s1 t1]. cbn in Hstep.
  specialize (IH s1 Hstep).
  destruct (GrpcLogged.run rest s1) as [s2 t2]. exact IH.
Qed.

Lemma GrpcLogged_reachable_handle_ready (s : GrpcLogged.Server) :
  GrpcLogged.reachable s ->
  handle_ready (GrpcLogged.running s) (GrpcLogged.sbProcess s) = true.
Proof.
  intros [execDir [ops Hrun]]. subst s.
  apply (GrpcLogged_run_invariant
           (fun s => handle_ready (GrpcLogged.running s)
                       (GrpcLogged.sbProcess s) = true)).
  - intros o s. apply GrpcLogged_step_handle_ready.
  - reflexivity.
Qed.

Lemma handle_ready_running (sbProcess : option Cmd) :
  handle_ready true sbProcess = true ->
  exists cmd pid, sbProcess = Some cmd /\ Process cmd = Some pid.
Proof.
  destruct sbProcess as [cmd |]; cbn; [| discriminate].
  destruct (Process cmd) as [pid |] eqn:Hp; cbn; [| discriminate].
  intros _. exists cmd, pid. split; [reflexivity | exact Hp].
Qed.

End Invariants.

(** ** The handle behind the running flag *)

Section RunningHandle.

Example failed_spawn_keeps_the_command :
  fst (MainGo.run [MainGo.OpStart sample_doc
                     (SpawnErr (errorString "exec format error"))]
         (MainGo.NewServer "/opt"))
  = MainGo.mkServer false [] "/opt" (MainGo.mkConfig "sb.json" "sing-box")
      (Some (mkCmd "/opt/sing-box"
               ["/opt/sing-box"; "run"; "-c"; "/opt/sb.json"] None)).
Proof. reflexivity. Qed.

(** Handlers that do not overlap.  In every state of src/cmd/main.go
    reached from [NewServer] by any sequence of Start, Stop, Exit,
    Status calls, monitor updates and channel receives, each run to its
    end before the next begins, [running = true] implies that
    [sbProcess] is non-nil (and so is its [Process]); between such
    handlers neither [stopSingBox] nor [Stop] ends in a nil
    dereference.  The converse fails: a state with a non-nil handle and
    [running = false] is reachable, by a [Start] whose spawn fails.
    [Exit] holds no mutex, and what a [Stop] finds while an [Exit] is
    under way is told in the next section. *)
Theorem serialized_running_implies_handle (s : MainGo.Server)
    (R : MainGo.reachable s) :
  (MainGo.running s = true ->
   MainGo.sbProcess s <> None
   /\ forall kill,
        result_of (MainGo.stopSingBox kill s) <> NilDeref
        /\ result_of (MainGo.Stop kill s) <> Crashed)
  /\ (exists s', MainGo.reachable s'
                 /\ MainGo.sbProcess s' <> None
                 /\ MainGo.running s' = false).
Proof.
  split.
  - intros Hrun. pose proof (MainGo_reachable_handle_ready s R) as Hinv.
    rewrite Hrun in Hinv.
    destruct (handle_ready_running _ Hinv) as [cmd [pid [Hcmd Hpid]]].
    split; [rewrite Hcmd; discriminate |].
    intros kill. destruct s as [run q dir c p], cmd as [path args pr].
    cbn in Hrun, Hcmd, Hpid. subst run p pr.
    unfold MainGo.Stop, MainGo.stopSingBox, MainGo.broadcastStatus.
    run_body. cbn.
    destruct kill as [err |]; cbn; [split; discriminate |].
    case_queue; cbn; split; discriminate.
  - exists (fst (MainGo.run [MainGo.OpStart sample_doc
                               (SpawnErr (errorString "exec format error"))]
                   (MainGo.NewServer "/opt"))).
    split; [| split].
    + exists "/opt", [MainGo.OpStart sample_doc
                        (SpawnErr (errorString "exec format error"))].
      reflexivity.
    + cbn. discriminate.
    + reflexivity.
Qed.

Lemma serialized_running_implies_handle_example :
  let s := fst (MainGo.run [MainGo.OpStart sample_doc (SpawnOk 77)]
                  (MainGo.NewServer "/opt")) in
  MainGo.running s = true
  /\ MainGo.sbProcess s <> None
  /\ result_of (MainGo.Stop None s) <> Crashed.
Proof.
  intros s.
  assert (R : MainGo.reachable s).
  { exists "/opt", [MainGo.OpStart sample_doc (SpawnOk 77)]. reflexivity. }
  destruct (serialized_running_implies_handle s R) as [H _].
  assert (Hrun : MainGo.running s = true) by reflexivity.
  destruct (H Hrun) as [Hnil Hstop].
  split; [exact Hrun | split; [exact Hnil | exact (proj2 (Hstop None))]].
Defined.

End RunningHandle.

(** ** Exit runs the stop path without the mutex *)

Section ExitRace.

Lemma MainGo_stopSingBox_split (kill : option error) (s : MainGo.Server) :
  MainGo.stopSingBox kill s
  = (r <- MainGo.stopSingBox_to_handle kill ;;
     match r with
     | Some ended => ret ended
     | None => MainGo.stopSingBox_from_flag
     end) s.
Proof.
  destruct s as [run q dir c [[path args [pid |]] |]]; destruct kill as [e |];
    unfold MainGo.stopSingBox, MainGo.stopSingBox_to_handle,
      MainGo.stopSingBox_from_flag, MainGo.broadcastStatus;
    run_body; cbn; try case_queue; reflexivity.
Qed.

(** C9. The code breaks the invariant of the claim.  [Exit] of
    src/cmd/main.go, and the shutdown path of [main], run [stopSingBox]
    without the mutex that Start, Stop, Status and the monitor take.
    From a reachable state with the flag on, once that unlocked body
    has killed the process and executed line 147, [s.sbProcess = nil],
    it stands before line 148 with [running = true] and a nil handle.
    A [Stop] that takes the mutex at this point passes its test of the
    flag and dereferences the nil handle in [s.sbProcess.Process.Kill()].
    The two parts of the body, run without interruption, are
    [stopSingBox].  [Exit] itself meets the nil handle when the monitor
    update of a process that died runs between its test of the flag,
    which read it on, and its [stopSingBox]; test and stop without
    interruption are [Exit]. *)
Theorem exit_without_mutex_tears_handle
    (kill : option error) (err : error) (s : MainGo.Server)
    (R : MainGo.reachable s) (Hrun : MainGo.running s = true) :
  let mid := MainGo.stopSingBox_to_handle None s in
  let gone := state_of (MainGo.monitorProcess (Some err) s) in
  result_of mid = None
  /\ MainGo.running (state_of mid) = true
  /\ MainGo.sbProcess (state_of mid) = None
  /\ handle_ready (MainGo.running (state_of mid))
       (MainGo.sbProcess (state_of mid)) = false
  /\ result_of (MainGo.stopSingBox kill (state_of mid)) = NilDeref
  /\ result_of (MainGo.Stop kill (state_of mid)) = Crashed
  /\ MainGo.stopSingBox None s
     = (result_of (MainGo.stopSingBox_from_flag (state_of mid)),
        state_of (MainGo.stopSingBox_from_flag (state_of mid)),
        trace_of mid
        ++ trace_of (MainGo.stopSingBox_from_flag (state_of mid)))
  /\ MainGo.sbProcess gone = None
  /\ result_of (MainGo.Exit_after_read true kill gone) = Crashed
  /\ MainGo.Exit kill s
     = (emit (Log "Received exit command") ;;
        MainGo.broadcastStatus "exited" ;;
        s' <- get ;;
        MainGo.Exit_after_read (MainGo.running s') kill) s.
Proof.
  intros mid gone. subst mid gone.
  pose proof (MainGo_reachable_handle_ready s R) as Hinv.
  rewrite Hrun in Hinv.
  destruct (handle_ready_running _ Hinv) as [cmd [pid [Hcmd Hpid]]].
  destruct s as [run q dir c p], cmd as [path args pr].
  cbn in Hrun, Hcmd, Hpid. subst run p pr.
  rewrite MainGo_stopSingBox_split.
  unfold MainGo.Stop, MainGo.Exit, MainGo.Exit_after_read,
    MainGo.monitorProcess, MainGo.stopSingBox, MainGo.stopSingBox_to_handle,
    MainGo.stopSingBox_from_flag, MainGo.broadcastStatus.
  run_body. cbn.
  repeat split; repeat (case_queue; cbn); reflexivity.
Qed.

Lemma exit_without_mutex_tears_handle_witness :
  let s := fst (MainGo.run [MainGo.OpStart sample_doc (SpawnOk 77)]
                  (MainGo.NewServer "/opt")) in
  let mid := MainGo.stopSingBox_to_handle None s in
  trace_of mid = [Kill 77]
  /\ MainGo.running (state_of mid) = true
  /\ MainGo.sbProcess (state_of mid) = None
  /\ result_of (MainGo.Stop None (state_of mid)) = Crashed.
Proof.
  intros s mid.
  assert (R : MainGo.reachable s).
  { exists "/opt", [MainGo.OpStart sample_doc (SpawnOk 77)]. reflexivity. }
  destruct (exit_without_mutex_tears_handle None
              (errorString "signal: killed") s R eq_refl)
    as [_ [Hrun [Hnil [_ [_ [Hstop _]]]]]].
  split; [reflexivity |].
  split; [exact Hrun | split; [exact Hnil | exact Hstop]].
Defined.

End ExitRace.

(** ** The statuses handed to the bus *)

Section StatusSet.

Lemma broadcasts_app (t1 t2 : list Event) :
  broadcasts (t1 ++ t2) = broadcasts t1 ++ broadcasts t2.
Proof.
  induction t1 as [| e t1 IH]; [reflexivity |].
  destruct e; cbn; rewrite ?IH; reflexivity.
Qed.

Lemma MainGo_step_broadcasts (o : MainGo.Op) (s : MainGo.Server) :
  forallb (status_in StatusEvent_with_exited)
    (broadcasts (snd (MainGo.step o s))) = true.
Proof.
  destruct s as [run q dir c [[path args [pid |]] |]]; destruct run;
    destruct o; split_unmarshal;
    unfold MainGo.step, MainGo.Start, MainGo.Stop, MainGo.Exit,
      MainGo.monitorProcess, MainGo.Status, MainGo.loadConfig,
      MainGo.startSingBox, MainGo.stopSingBox, MainGo.broadcastStatus;
    run_body; eval_step.
Qed.

Lemma GrpcLogged_step_broadcasts (o : GrpcLogged.Op) (s : GrpcLogged.Server) :
  forallb (status_in StatusEvent) (broadcasts (snd (GrpcLogged.step o s)))
  = true.
Proof.
  destruct s as [run q dir c [[path args [pid |]] |]]; destruct run;
    destruct o as [[st rf sb sc sp] | k | k | k | e k |]; split_unmarshal;
    unfold GrpcLogged.step, GrpcLogged.Start, GrpcLogged.Stop,
      GrpcLogged.Exit, GrpcLogged.monitorProcess,
      GrpcLogged.StreamStatus_select, GrpcLogged.loadConfig,
      GrpcLogged.startSingBox, GrpcLogged.stopSingBox,
      GrpcLogged.broadcastStatus;
    run_body; eval_step.
Qed.

Lemma MainGo_run_broadcasts (ops : list MainGo.Op) :
  forall s, forallb (status_in StatusEvent_with_exited)
              (broadcasts (snd (MainGo.run ops s))) = true.
Proof.
  induction ops as [| o rest IH]; intros s; [reflexivity |].
  cbn. pose proof (MainGo_step_broadcasts o s) as Hstep.
  destruct (MainGo.step o s) as [s1 t1]. specialize (IH s1).
  destruct (MainGo.run rest s1) as [s2 t2]. cbn in *.
  rewrite broadcasts_app, forallb_app, Hstep, IH. reflexivity.
Qed.

Lemma GrpcLogged_run_broadcasts (ops : list GrpcLogged.Op) :
  forall s, forallb (status_in StatusEvent)
              (broadcasts (snd (GrpcLogged.run ops s))) = true.
Proof.
  induction ops as [| o rest IH]; intros s; [reflexivity |].
  cbn. pose proof (GrpcLogged_step_broadcasts o s) as Hstep.
  destruct (GrpcLogged.step o s) as [s1 t1]. specialize (IH s1).
  destruct (GrpcLogged.run rest s1) as [s2 t2]. cbn in *.
  rewrite broadcasts_app, forallb_app, Hstep, IH. reflexivity.
Qed.

(** C2, as the claim states it, fails on src/cmd/main.go: [Exit] on a
    fresh server hands the status exited to [broadcastStatus], and
    exited is not in the closed set. *)
Lemma exit_publishes_exited :
  broadcasts (trace_of (MainGo.Exit None (MainGo.NewServer "/opt")))
  = ["exited"]
  /\ MainGo.statusChange
       (state_of (MainGo.Exit None (MainGo.NewServer "/opt"))) = ["exited"]
  /\ status_in StatusEvent "exited" = false
  /\ ~ In "exited" StatusEvent.
Proof.
  repeat split.
  unfold StatusEvent. cbn. intros H.
  repeat (destruct H as [H | H]; [discriminate |]). exact H.
Qed.

(** C2, amended.  From any state and for any sequence of operations
    (Start, Stop, Exit, monitor update, stream disconnect, receive),
    every string handed to [broadcastStatus] is in the closed set
    started, stopped, terminated, ... for part_002, and in the closed
    set extended by exited for src/cmd/main.go. *)
Theorem published_statuses_closed
    (ops1 : list MainGo.Op) (s1 : MainGo.Server)
    (ops2 : list GrpcLogged.Op) (s2 : GrpcLogged.Server) :
  Forall (fun st => In st StatusEvent_with_exited)
    (broadcasts (snd (MainGo.run ops1 s1)))
  /\ Forall (fun st => In st StatusEvent)
       (broadcasts (snd (GrpcLogged.run ops2 s2))).
Proof.
  assert (Hin : forall set st, status_in set st = true -> In st set).
  { intros set st H. unfold status_in in H.
    apply existsb_exists in H. destruct H as [x [Hx Heq]].
    apply String.eqb_eq in Heq. subst x. exact Hx. }
  split; apply Forall_forall; intros st Hst; apply Hin.
  - pose proof (MainGo_run_broadcasts ops1 s1) as H.
    rewrite forallb_forall in H. apply H. exact Hst.
  - pose proof (GrpcLogged_run_broadcasts ops2 s2) as H.
    rewrite forallb_forall in H. apply H. exact Hst.
Qed.

End StatusSet.

(** ** The background monitor *)

Section Monitor.

(** C1, as the claim states it, fails.  In part_002, when the process
    exits with status 0 (Wait returns nil) while [running = true], the
    monitor leaves the state as it is, the flag still on, and hands
    nothing to [broadcastStatus].  In src/cmd/main.go the status handed
    over after a failed exit is stopped, not terminated. *)
Lemma monitor_clean_exit_unreported :
  let s := fst (GrpcLogged.run [GrpcLogged.OpStart sample_env]
                  (GrpcLogged.NewServer "/opt")) in
  let s1 := fst (MainGo.run [MainGo.OpStart sample_doc (SpawnOk 77)]
                   (MainGo.NewServer "/opt")) in
  GrpcLogged.running s = true
  /\ state_of (GrpcLogged.monitorProcess None s) = s
  /\ GrpcLogged.running (state_of (GrpcLogged.monitorProcess None s)) = true
  /\ broadcasts (trace_of (GrpcLogged.monitorProcess None s)) = []
  /\ MainGo.running s1 = true
  /\ broadcasts
       (trace_of (MainGo.monitorProcess
                    (Some (errorString "exit status 1")) s1))
     = ["stopped"].
Proof. repeat split. Qed.

(** C1, amended.  When Wait reports an error for the exit (a non-zero
    exit status or a death by signal) and [running = true], the monitor
    sets [running = false], clears the handle and calls
    [broadcastStatus] exactly once, with terminated in part_002 and with
    stopped in src/cmd/main.go; the status is appended to the queue
    when the queue has room and dropped when it is full. *)
Theorem monitor_reports_failed_exit (err : error)
    (s1 : MainGo.Server) (s2 : GrpcLogged.Server)
    (R1 : MainGo.running s1 = true) (R2 : GrpcLogged.running s2 = true) :
  let r1 := MainGo.monitorProcess (Some err) s1 in
  let r2 := GrpcLogged.monitorProcess (Some err) s2 in
  (MainGo.running (state_of r1) = false
   /\ MainGo.sbProcess (state_of r1) = None
   /\ broadcasts (trace_of r1) = ["stopped"]
   /\ MainGo.statusChange (state_of r1)
      = offered MainGo.statusChannelCap (MainGo.statusChange s1) "stopped"
   /\ process_untouched (trace_of r1))
  /\
  (GrpcLogged.running (state_of r2) = false
   /\ GrpcLogged.sbProcess (state_of r2) = None
   /\ broadcasts (trace_of r2) = ["terminated"]
   /\ GrpcLogged.statusChange (state_of r2)
      = offered GrpcLogged.statusChannelCap (GrpcLogged.statusChange s2)
          "terminated"
   /\ process_untouched (trace_of r2)).
Proof.
  intros r1 r2. subst r1 r2. split.
  - destruct s1 as [run q dir c p]. cbn in R1. subst run.
    unfold MainGo.monitorProcess, MainGo.broadcastStatus, offered.
    run_body. cbn. case_queue; cbn; repeat split.
  - destruct s2 as [run q dir c p]. cbn in R2. subst run.
    unfold GrpcLogged.monitorProcess, GrpcLogged.broadcastStatus, offered.
    run_body. cbn. case_queue; cbn; repeat split.
Qed.

Lemma monitor_reports_failed_exit_witness :
  let s1 := fst (MainGo.run [MainGo.OpStart sample_doc (SpawnOk 77)]
                   (MainGo.NewServer "/opt")) in
  let s2 := fst (GrpcLogged.run [GrpcLogged.OpStart sample_env]
                   (GrpcLogged.NewServer "/opt")) in
  let r2 := GrpcLogged.monitorProcess (Some (errorString "exit status 1")) s2
  in
  GrpcLogged.running (state_of r2) = false
  /\ GrpcLogged.sbProcess (state_of r2) = None
  /\ broadcasts (trace_of r2) = ["terminated"]
  /\ GrpcLogged.statusChange (state_of r2) = ["started"; "terminated"].
Proof.
  intros s1 s2 r2.
  destruct (monitor_reports_failed_exit (errorString "exit status 1") s1 s2
              eq_refl eq_refl) as [_ [Hrun [Hnil [Hb [Hq _]]]]].
  split; [exact Hrun | split; [exact Hnil | split; [exact Hb | exact Hq]]].
Defined.

End Monitor.

(** ** A subscriber that disconnects *)

Section Disconnect.

Lemma GrpcLogged_loop_after_receives (vals : list string) :
  forall (last : string) (rest : list GrpcLogged.Select)
         (s : GrpcLogged.Server),
  exists last',
    GrpcLogged.StreamStatus_loop last (map delivered_value vals ++ rest) s
    = (result_of (GrpcLogged.StreamStatus_loop last' rest s),
       state_of (GrpcLogged.StreamStatus_loop last' rest s),
       map (fun v => StreamSend v true) (skip_repeats last vals)
       ++ trace_of (GrpcLogged.StreamStatus_loop last' rest s)).
Proof.
  induction vals as [| v vals IH]; intros last rest s.
  - exists last. cbn.
    destruct (GrpcLogged.StreamStatus_loop last rest s) as [[r s'] t].
    reflexivity.
  - change (map delivered_value (v :: vals))
      with (GrpcLogged.Received v None :: map delivered_value vals).
    cbn [app GrpcLogged.StreamStatus_loop GrpcLogged.StreamStatus_select
         skip_repeats].
    run_body. destruct (String.eqb v last).
    + cbn. destruct (IH last rest s) as [last' Heq]. exists last'.
      rewrite Heq. reflexivity.
    + cbn. destruct (IH v rest s) as [last' Heq]. exists last'.
      rewrite Heq. reflexivity.
Qed.

Lemma broadcasts_of_sends (l : list string) :
  broadcasts (map (fun v => StreamSend v true) l) = [].
Proof. induction l as [| v l IH]; [reflexivity | exact IH]. Qed.

Lemma untouched_by_sends (l : list string) (t : list Event) :
  process_untouched t ->
  process_untouched (map (fun v => StreamSend v true) l ++ t).
Proof.
  unfold process_untouched. intros H.
  induction l as [| v l IH]; [exact H | exact IH].
Qed.













End Disconnect.

(** ** The stop path *)

Section StopPath.

Example stop_of_a_deaf_process :
  FileTimed.stopSingBox (FileTimed.mkStopEnv "linux" None NeverExits None)
    (owning 4)
  = (Nil, FileTimed.set_singBoxProcess None (owning 4),
     [SignalTerm 4; Go "done <- m.singBoxProcess.Wait()";
      AwaitExit 4 5000000000; Kill 4; Log "Sing-Box stopped."]).
Proof. reflexivity. Qed.

(** C4, as the claim states it, fails on src/cmd/main.go: its stop path
    has no signal and no wait on any target.  The first and only thing
    done to the process is [Process.Kill()]. *)
Lemma grpc_stop_kills_at_once :
  let s := fst (MainGo.run [MainGo.OpStart sample_doc (SpawnOk 77)]
                  (MainGo.NewServer "/opt")) in
  let t := trace_of (MainGo.stopSingBox None s) in
  MainGo.running s = true
  /\ t = [Kill 77; Broadcast "stopped" true; Log "Sing-Box stopped"]
  /\ ~ In (SignalTerm 77) t
  /\ (forall timeout, ~ In (AwaitExit 77 timeout) t).
Proof.
  cbn. repeat split.
  - intros H. repeat (destruct H as [H | H]; [discriminate |]). exact H.
  - intros timeout H.
    repeat (destruct H as [H | H]; [discriminate |]). exact H.
Qed.

(** C4, amended.  In part_003, for a manager that owns a started
    process and an OS whose force-kill succeeds: on a target other than
    windows whose SIGTERM is delivered, the stop path sends the signal
    and waits for the exit for at most 5 seconds; when the process
    ignores the signal, or exits only after that time, it is
    force-killed and the handle is cleared (stopped); when it exits
    cleanly within that time it is not killed.  On windows the kill
    comes at once, with no signal and no wait.  In src/cmd/main.go the
    kill comes at once on every target. *)
Theorem stop_path_grace_then_kill
    (env : FileTimed.StopEnv) (m : FileTimed.SingBoxManager)
    (s : MainGo.Server) (kill : option error) (cmd : Cmd) (pid : nat)
    (Hm : FileTimed.singBoxProcess m = Some cmd)
    (Hs : MainGo.sbProcess s = Some cmd)
    (Hpid : Process cmd = Some pid)
    (Hkill : FileTimed.kill_result env = None) :
  FileTimed.graceTimeout = (5 * 1000 * 1000 * 1000)%Z
  /\ (FileTimed.GOOS env <> "windows" ->
      FileTimed.signal_result env = None ->
      (FileTimed.reaction env = NeverExits
       \/ (exists delay wait_err,
             FileTimed.reaction env = ExitsAfter delay wait_err
             /\ (FileTimed.graceTimeout <= delay)%Z) ->
       FileTimed.stopSingBox env m
       = (Nil, FileTimed.set_singBoxProcess None m,
          [SignalTerm pid; Go "done <- m.singBoxProcess.Wait()";
           AwaitExit pid FileTimed.graceTimeout; Kill pid;
           Log "Sing-Box stopped."]))
      /\ (forall delay,
            FileTimed.reaction env = ExitsAfter delay None ->
            (delay < FileTimed.graceTimeout)%Z ->
            FileTimed.stopSingBox env m
            = (Nil, FileTimed.set_singBoxProcess None m,
               [SignalTerm pid; Go "done <- m.singBoxProcess.Wait()";
                AwaitExit pid FileTimed.graceTimeout;
                Log "Sing-Box stopped."])))
  /\ (FileTimed.GOOS env = "windows" ->
      FileTimed.stopSingBox env m
      = (Nil, FileTimed.set_singBoxProcess None m,
         [Kill pid; Log "Sing-Box stopped."]))
  /\ (exists rest,
        trace_of (MainGo.stopSingBox kill s) = Kill pid :: rest
        /\ process_untouched rest).
Proof.
  destruct cmd as [path args pr]. cbn in Hpid. subst pr.
  split; [reflexivity |]. split; [| split].
  - intros Hos Hsig. apply String.eqb_neq in Hos.
    unfold FileTimed.stopSingBox, FileTimed.termination. run_body.
    rewrite Hm, Hos, Hsig. cbn. split.
    + intros [Hre | [delay [wait_err [Hre Hlate]]]]; rewrite Hre; cbn.
      * rewrite Hkill. reflexivity.
      * apply Z.ltb_ge in Hlate. rewrite Hlate. cbn.
        rewrite Hkill. reflexivity.
    + intros delay Hre Hearly. rewrite Hre. cbn.
      apply Z.ltb_lt in Hearly. rewrite Hearly. reflexivity.
  - intros Hos. apply String.eqb_eq in Hos.
    unfold FileTimed.stopSingBox. run_body.
    rewrite Hm, Hos. cbn. rewrite Hkill. reflexivity.
  - destruct s as [run q dir c p]. cbn in Hs. subst p.
    unfold MainGo.stopSingBox, MainGo.broadcastStatus. run_body. cbn.
    destruct kill as [err |]; cbn; [eexists; split; reflexivity |].
    case_queue; cbn; eexists; split; reflexivity.
Qed.

Lemma stop_path_grace_then_kill_witness :
  let env := FileTimed.mkStopEnv "linux" None NeverExits None in
  let s := fst (MainGo.run [MainGo.OpStart sample_doc (SpawnOk 4)]
                  (MainGo.NewServer "/opt")) in
  FileTimed.stopSingBox env (owning 4)
  = (Nil, FileTimed.set_singBoxProcess None (owning 4),
     [SignalTerm 4; Go "done <- m.singBoxProcess.Wait()";
      AwaitExit 4 FileTimed.graceTimeout; Kill 4; Log "Sing-Box stopped."])
  /\ exists rest, trace_of (MainGo.stopSingBox None s) = Kill 4 :: rest
                  /\ process_untouched rest.
Proof.
  intros env s.
  destruct (stop_path_grace_then_kill env (owning 4) s None
              (mkCmd "/opt/sing-box"
                 ["/opt/sing-box"; "run"; "-c"; "/opt/sb.json"] (Some 4))
              4 eq_refl eq_refl eq_refl eq_refl)
    as [_ [Hposix [_ Hgrpc]]].
  split; [| exact Hgrpc].
  assert (Hos : FileTimed.GOOS env <> "windows") by (cbn; discriminate).
  destruct (Hposix Hos eq_refl) as [Hdeaf _].
  apply Hdeaf. left. reflexivity.
Defined.

End StopPath.

(** ** The command file *)

Section CommandFile.

Example command_is_first_line_trimmed_lowered :
  FilePolled.watch_tick 10%Z
    (FilePolled.mkTick (FilePolled.StatInfo 11%Z)
       (FilePolled.Opened ("  StArT " ++ String CR (String LF "stop")) None))
  = (11%Z, Some "start", []).
Proof. reflexivity. Qed.

Example same_modification_time_is_skipped :
  FilePolled.watch_tick 11%Z
    (FilePolled.mkTick (FilePolled.StatInfo 11%Z)
       (FilePolled.Opened "stop" None))
  = (11%Z, None, []).
Proof. reflexivity. Qed.

Lemma upto_LF_first_line (fuel : nat) :
  forall s line, upto_LF fuel s = Some line -> line = first_line s.
Proof.
  induction fuel as [| fuel IH]; intros s line; [discriminate |].
  destruct s as [| c rest]; cbn [upto_LF first_line]; [discriminate |].
  destruct (Ascii.eqb c LF).
  - intros H. inversion H. reflexivity.
  - destruct (upto_LF fuel rest) as [l |] eqn:Hrest; [| discriminate].
    intros H. inversion H. rewrite (IH rest l Hrest). reflexivity.
Qed.

Lemma upto_LF_none (fuel : nat) :
  forall s, upto_LF fuel s = None -> String.length s < fuel ->
            first_line s = s.
Proof.
  induction fuel as [| fuel IH]; intros s Hnone Hlen; [lia |].
  destruct s as [| c rest]; [reflexivity |].
  cbn [upto_LF first_line String.length] in *.
  destruct (Ascii.eqb c LF); [discriminate |].
  destruct (upto_LF fuel rest) eqn:Hrest; [discriminate |].
  rewrite (IH rest Hrest); [reflexivity | lia].
Qed.

Lemma Scan_first_line (content : string) (read_err : option error)
    (text : string) :
  Scan content read_err = Token text -> text = dropCR (first_line content).
Proof.
  unfold Scan.
  destruct (upto_LF MaxScanTokenSize content) as [line |] eqn:Hline.
  - intros H. inversion H. rewrite (upto_LF_first_line _ _ _ Hline).
    reflexivity.
  - destruct (Nat.leb_spec MaxScanTokenSize (String.length content))
      as [Hlong | Hshort]; [discriminate |].
    destruct content as [| c rest]; [discriminate |].
    intros H. inversion H.
    rewrite (upto_LF_none _ _ Hline Hshort). reflexivity.
Qed.

Lemma watch_tick_sent (lastModTime : Time) (t : FilePolled.Tick)
    (command : string) :
  snd (fst (FilePolled.watch_tick lastModTime t)) = Some command ->
  exists modTime content read_err,
    FilePolled.stat t = FilePolled.StatInfo modTime
    /\ (lastModTime < modTime)%Z
    /\ FilePolled.opened t = FilePolled.Opened content read_err
    /\ command = ToLower (TrimSpace (dropCR (first_line content)))
    /\ command <> ""
    /\ fst (fst (FilePolled.watch_tick lastModTime t)) = modTime.
Proof.
  unfold FilePolled.watch_tick.
  destruct (FilePolled.stat t) as [| e | modTime]; cbn; try discriminate.
  unfold After. destruct (Z.ltb_spec lastModTime modTime) as [Hlt | Hge];
    cbn; [| discriminate].
  unfold FilePolled.readCommandFromFile.
  destruct (FilePolled.opened t) as [| e | content read_err]; cbn;
    try discriminate.
  destruct (Scan content read_err) as [text | err] eqn:Hscan.
  - cbn. destruct (String.eqb_spec (ToLower (TrimSpace text)) "")
      as [Hempty | Hne]; cbn; [discriminate |].
    intros H. inversion H; subst command.
    exists modTime, content, read_err.
    rewrite (Scan_first_line _ _ _ Hscan) in *.
    repeat split; assumption.
  - destruct err; cbn; discriminate.
Qed.

Lemma watch_tick_not_sent (lastModTime : Time) (t : FilePolled.Tick) :
  snd (fst (FilePolled.watch_tick lastModTime t)) = None ->
  fst (fst (FilePolled.watch_tick lastModTime t)) = lastModTime.
Proof.
  unfold FilePolled.watch_tick.
  destruct (FilePolled.stat t) as [| e | modTime]; cbn; try reflexivity.
  destruct (After modTime lastModTime); cbn; [| reflexivity].
  destruct (FilePolled.readCommandFromFile (FilePolled.opened t))
    as [command err].
  destruct (negb (not_nil err) && negb (String.eqb command "")); cbn;
    [discriminate | reflexivity].
Qed.

Lemma processCommand_unknown (env : FilePolled.Env) (command : string)
    (m : FilePolled.SingBoxManager) :
  command <> "start" -> command <> "stop" -> command <> "exit" ->
  FilePolled.processCommand env command m
  = (FilePolled.Running, m,
     [FilePolled.logMessage FilePolled.InfoLevel "processCommand"
        ("Processing command: " ++ command);
      FilePolled.logMessage FilePolled.WarningLevel "processCommand"
        ("Unknown command: " ++ command)]).
Proof.
  intros H1 H2 H3. apply String.eqb_neq in H1, H2, H3.
  unfold FilePolled.processCommand. run_body.
  rewrite H1, H2, H3. reflexivity.
Qed.

End CommandFile.

(** ** Start and Stop of the gRPC servers, beyond the refusals *)

Section StartStop.

Lemma handle_ready_fresh (sbProcess : option Cmd) :
  handle_ready false sbProcess = true.
Proof. reflexivity. Qed.

(** X1. [Start] of src/cmd/main.go answers with a response exactly when
    the running flag is off, [loadConfig] succeeds and the spawn
    succeeds.  Then the flag is on, the handle holds the spawned
    process, its command line is the binary and "run -c" with the
    configuration file, both taken from the configuration just loaded
    and joined to the server's directory, started is handed to
    [broadcastStatus] once, and one monitor goroutine is launched. *)
Theorem main_start_succeeds_exactly_when
    (rf : ReadResult) (sp : SpawnResult) (s : MainGo.Server) :
  let r := MainGo.Start rf sp s in
  ((exists msg, result_of r = Response msg)
   <-> (MainGo.running s = false
        /\ result_of (MainGo.loadConfig rf s) = None
        /\ exists pid, sp = SpawnOk pid))
  /\ (forall msg pid,
        result_of r = Response msg -> sp = SpawnOk pid ->
        let s' := state_of r in
        let bin := filepath_Join (MainGo.dirPath s)
                     (MainGo.SbBin (MainGo.config s')) in
        let cfg := filepath_Join (MainGo.dirPath s)
                     (MainGo.SbConfig (MainGo.config s')) in
        MainGo.running s' = true
        /\ MainGo.sbProcess s'
           = Some (mkCmd bin [bin; "run"; "-c"; cfg] (Some pid))
        /\ broadcasts (trace_of r) = ["started"]
        /\ MainGo.statusChange s'
           = offered MainGo.statusChannelCap (MainGo.statusChange s) "started"
        /\ spawned_ok (trace_of r) = 1
        /\ In (Go "monitorProcess") (trace_of r)).
Proof.
  intros r. subst r.
  destruct s as [run q dir c p]; destruct run;
    destruct rf as [e | [e | d [te |]]]; destruct sp as [e' | pid'];
    unfold MainGo.Start, MainGo.loadConfig, MainGo.startSingBox,
      MainGo.broadcastStatus, offered;
    run_body; cbn; try case_queue; cbn;
    (split;
     [ split;
       [ intros [msg H]; try discriminate;
         repeat split; try reflexivity; eexists; reflexivity
       | intros [H1 [H2 [pid H3]]]; try discriminate;
         eexists; reflexivity ]
     | intros msg pid H1 H2; try discriminate;
       inversion H2; subst; repeat split;
       cbn; auto 10 ]).
Qed.

Lemma main_start_succeeds_exactly_when_witness :
  let r := MainGo.Start sample_doc (SpawnOk 77) (MainGo.NewServer "/opt") in
  MainGo.running (state_of r) = true
  /\ MainGo.sbProcess (state_of r)
     = Some (mkCmd "/opt/sing-box"
               ["/opt/sing-box"; "run"; "-c"; "/opt/sb.json"] (Some 77))
  /\ broadcasts (trace_of r) = ["started"].
Proof.
  intros r.
  destruct (main_start_succeeds_exactly_when sample_doc (SpawnOk 77)
              (MainGo.NewServer "/opt")) as [_ H].
  destruct (H "" 77 eq_refl eq_refl) as [Hrun [Hcmd [Hb _]]].
  split; [exact Hrun | split; [exact Hcmd | exact Hb]].
Defined.


(** X2. [Start] of part_002 answers with a response exactly when the
    running flag is off, [loadConfig] succeeds, neither the binary nor
    the Sing-Box configuration is reported missing by [os.Stat], and
    the spawn succeeds.  Then the flag is on, the handle holds the
    spawned process with the command line built from the configuration
    just loaded, started is handed to [broadcastStatus] once, and one
    monitor goroutine is launched. *)
Theorem grpc_start_succeeds_exactly_when
    (env : GrpcLogged.StartEnv) (s : GrpcLogged.Server) :
  let r := GrpcLogged.Start env s in
  ((exists msg, result_of r = Response msg)
   <-> (GrpcLogged.running s = false
        /\ result_of (GrpcLogged.loadConfig env s) = None
        /\ GrpcLogged.IsNotExist (GrpcLogged.stat_sbBin env) = false
        /\ GrpcLogged.IsNotExist (GrpcLogged.stat_sbConfig env) = false
        /\ exists pid, GrpcLogged.spawn env = SpawnOk pid))
  /\ (forall msg pid,
        result_of r = Response msg -> GrpcLogged.spawn env = SpawnOk pid ->
        let s' := state_of r in
        let bin := filepath_Join (GrpcLogged.dirPath s)
                     (GrpcLogged.SbBin (GrpcLogged.config s')) in
        let cfg := filepath_Join (GrpcLogged.dirPath s)
                     (GrpcLogged.SbConfig (GrpcLogged.config s')) in
        msg = "Sing-Box started successfully."
        /\ GrpcLogged.running s' = true
        /\ GrpcLogged.sbProcess s'
           = Some (mkCmd bin [bin; "run"; "-c"; cfg] (Some pid))
        /\ broadcasts (trace_of r) = ["started"]
        /\ GrpcLogged.statusChange s'
           = offered GrpcLogged.statusChannelCap (GrpcLogged.statusChange s)
               "started"
        /\ spawned_ok (trace_of r) = 1
        /\ In (Go "monitorProcess") (trace_of r)).
Proof.
  intros r. subst r.
  destruct s as [run q dir c p]; destruct run;
    destruct env as [st rf sb sc sp];
    destruct rf as [e | [e | d [te |]]]; destruct sp as [e' | pid'];
    destruct st, sb, sc;
    unfold GrpcLogged.Start, GrpcLogged.loadConfig, GrpcLogged.startSingBox,
      GrpcLogged.broadcastStatus, offered;
    run_body; cbn; try case_queue; cbn;
    (split;
     [ split;
       [ intros [msg H]; try discriminate;
         repeat split; try reflexivity; eexists; reflexivity
       | intros [H1 [H2 [H3 [H4 [pid H5]]]]]; try discriminate;
         eexists; reflexivity ]
     | intros msg pid H1 H2; try discriminate;
       inversion H1; inversion H2; subst; repeat split;
       cbn; auto 10 ]).
Qed.

Lemma grpc_start_succeeds_exactly_when_witness :
  let r := GrpcLogged.Start sample_env (GrpcLogged.NewServer "/opt") in
  GrpcLogged.running (state_of r) = true
  /\ GrpcLogged.sbProcess (state_of r)
     = Some (mkCmd "/opt/sing-box"
               ["/opt/sing-box"; "run"; "-c"; "/opt/sb.json"] (Some 77))
  /\ broadcasts (trace_of r) = ["started"].
Proof.
  intros r.
  destruct (grpc_start_succeeds_exactly_when sample_env
              (GrpcLogged.NewServer "/opt")) as [_ H].
  destruct (H "Sing-Box started successfully." 77 eq_refl eq_refl)
    as [_ [Hrun [Hcmd [Hb _]]]].
  split; [exact Hrun | split; [exact Hcmd | exact Hb]].
Defined.

(** X3. In part_002, with the running flag off and a configuration that
    loads, a binary or a Sing-Box configuration file that [os.Stat]
    reports missing makes [Start] fail with NotFound and the path it
    looked for, the binary being checked first; nothing is spawned or
    published and the flag, the handle and the queue are as before.
    The configuration just loaded stays stored. *)
Theorem grpc_start_missing_files
    (env : GrpcLogged.StartEnv) (s : GrpcLogged.Server)
    (R : GrpcLogged.running s = false)
    (L : result_of (GrpcLogged.loadConfig env s) = None)
    (Hmissing : GrpcLogged.stat_sbBin env = StatNotExist
                \/ GrpcLogged.stat_sbConfig env = StatNotExist) :
  let r := GrpcLogged.Start env s in
  let s' := state_of r in
  let bin := filepath_Join (GrpcLogged.dirPath s)
               (GrpcLogged.SbBin (GrpcLogged.config s')) in
  let cfg := filepath_Join (GrpcLogged.dirPath s)
               (GrpcLogged.SbConfig (GrpcLogged.config s')) in
  result_of r
  = Failure (statusError NotFound
               (if GrpcLogged.IsNotExist (GrpcLogged.stat_sbBin env)
                then "Sing-Box binary not found at " ++ bin
                else "Sing-Box config not found at " ++ cfg))
  /\ GrpcLogged.config s'
     = GrpcLogged.config (state_of (GrpcLogged.loadConfig env s))
  /\ GrpcLogged.running s' = false
  /\ GrpcLogged.sbProcess s' = GrpcLogged.sbProcess s
  /\ GrpcLogged.statusChange s' = GrpcLogged.statusChange s
  /\ broadcasts (trace_of r) = []
  /\ process_untouched (trace_of r).
Proof.
  intros r s' bin cfg. subst r s' bin cfg.
  destruct s as [run q dir c p]. cbn in R. subst run.
  destruct env as [st rf sb sc sp]. cbn in Hmissing.
  destruct rf as [e | [e | d [te |]]];
    destruct st; cbn in L; try discriminate;
    destruct Hmissing as [H | H]; subst;
    try destruct sb;
    unfold GrpcLogged.Start, GrpcLogged.loadConfig, GrpcLogged.startSingBox;
    run_body; cbn; repeat split.
Qed.

Lemma grpc_start_missing_files_witness :
  let env := GrpcLogged.mkStartEnv StatOk sample_doc StatNotExist StatOk
               (SpawnOk 77) in
  let r := GrpcLogged.Start env (GrpcLogged.NewServer "/opt") in
  result_of r
  = Failure (statusError NotFound
               "Sing-Box binary not found at /opt/sing-box")
  /\ GrpcLogged.sbProcess (state_of r) = None
  /\ process_untouched (trace_of r).
Proof.
  intros env r.
  destruct (grpc_start_missing_files env (GrpcLogged.NewServer "/opt")
              eq_refl eq_refl (or_introl eq_refl))
    as [Hres [_ [_ [Hp [_ [_ Hu]]]]]].
  split; [exact Hres | split; [exact Hp | exact Hu]].
Defined.

End StartStop.

(** ** A spawn that fails, a stop that succeeds or fails *)

Section SpawnAndKill.

(** X4. When the spawn fails (flag off, configuration loaded, files
    present), both servers answer with an Internal error, publish
    nothing and launch no monitor; the flag stays off but the handle is
    left set to the command that did not start, its [Process] nil.  A
    following [Start] under the same configuration file whose spawn
    succeeds is accepted and replaces that handle. *)
Theorem failed_spawn_can_be_retried
    (d : ConfigDoc) (err : error) (pid : nat)
    (s1 : MainGo.Server) (s2 : GrpcLogged.Server)
    (R1 : MainGo.running s1 = false) (R2 : GrpcLogged.running s2 = false) :
  let rf := ReadOk (Decodes d None) in
  let env sp := GrpcLogged.mkStartEnv StatOk rf StatOk StatOk sp in
  let r1 := MainGo.Start rf (SpawnErr err) s1 in
  let r2 := GrpcLogged.Start (env (SpawnErr err)) s2 in
  (result_of r1
   = Failure (statusError Internal
                ("Failed to start Sing-Box: " ++ Error err))
   /\ MainGo.running (state_of r1) = false
   /\ (exists cmd, MainGo.sbProcess (state_of r1) = Some cmd
                   /\ Process cmd = None)
   /\ trace_of r1 = [Spawn (filepath_Join (MainGo.dirPath s1)
                              (MainGo.SbBin (MainGo.config (state_of r1))))
                       [filepath_Join (MainGo.dirPath s1)
                          (MainGo.SbBin (MainGo.config (state_of r1)));
                        "run"; "-c";
                        filepath_Join (MainGo.dirPath s1)
                          (MainGo.SbConfig (MainGo.config (state_of r1)))]
                       false]
   /\ result_of (MainGo.Start rf (SpawnOk pid) (state_of r1)) = Response ""
   /\ MainGo.running (state_of (MainGo.Start rf (SpawnOk pid) (state_of r1)))
      = true)
  /\
  (result_of r2
   = Failure (statusError Internal
                ("failed to start Sing-Box: " ++ Error err))
   /\ GrpcLogged.running (state_of r2) = false
   /\ (exists cmd, GrpcLogged.sbProcess (state_of r2) = Some cmd
                   /\ Process cmd = None)
   /\ broadcasts (trace_of r2) = []
   /\ spawned_ok (trace_of r2) = 0
   /\ ~ In (Go "monitorProcess") (trace_of r2)
   /\ result_of (GrpcLogged.Start (env (SpawnOk pid)) (state_of r2))
      = Response "Sing-Box started successfully."
   /\ GrpcLogged.running
        (state_of (GrpcLogged.Start (env (SpawnOk pid)) (state_of r2)))
      = true).
Proof.
  intros rf env r1 r2. subst rf env r1 r2. split.
  - destruct s1 as [run q dir c p]. cbn in R1. subst run.
    unfold MainGo.Start, MainGo.loadConfig, MainGo.startSingBox,
      MainGo.broadcastStatus.
    run_body. cbn. repeat split.
    + eexists. split; reflexivity.
    + case_queue; reflexivity.
    + case_queue; reflexivity.
  - destruct s2 as [run q dir c p]. cbn in R2. subst run.
    unfold GrpcLogged.Start, GrpcLogged.loadConfig, GrpcLogged.startSingBox,
      GrpcLogged.broadcastStatus.
    run_body. cbn. repeat split.
    + eexists. split; reflexivity.
    + intros H. repeat (destruct H as [H | H]; [discriminate |]). exact H.
    + case_queue; reflexivity.
    + case_queue; reflexivity.
Qed.

Lemma failed_spawn_can_be_retried_witness :
  let d := mkDoc (Some "sb.json") (Some "sing-box") None None None None in
  let rf := ReadOk (Decodes d None) in
  let r1 := MainGo.Start rf (SpawnErr (errorString "exec format error"))
              (MainGo.NewServer "/opt") in
  result_of r1
  = Failure (statusError Internal
               "Failed to start Sing-Box: exec format error")
  /\ MainGo.running (state_of (MainGo.Start rf (SpawnOk 5) (state_of r1)))
     = true.
Proof.
  intros d rf r1.
  destruct (failed_spawn_can_be_retried d (errorString "exec format error") 5
              (MainGo.NewServer "/opt") (GrpcLogged.NewServer "/opt")
              eq_refl eq_refl) as [[Hres [_ [_ [_ [_ Hrun]]]]] _].
  split; [exact Hres | exact Hrun].
Defined.

(** X5. [Stop] in a reachable state with the running flag on calls
    [Process.Kill()] on the process of the handle, once, and does
    nothing else to any process.  When the kill succeeds the answer is
    a response, the flag is off, the handle is nil and stopped is
    handed to [broadcastStatus] once; when it fails the answer is an
    Internal error, the state is unchanged and nothing is published. *)
Theorem stop_kills_the_handle
    (kill : option error) (s1 : MainGo.Server) (s2 : GrpcLogged.Server)
    (H1 : MainGo.reachable s1) (H2 : GrpcLogged.reachable s2)
    (R1 : MainGo.running s1 = true) (R2 : GrpcLogged.running s2 = true) :
  let r1 := MainGo.Stop kill s1 in
  let r2 := GrpcLogged.Stop kill s2 in
  (exists cmd pid rest,
     MainGo.sbProcess s1 = Some cmd /\ Process cmd = Some pid
     /\ trace_of r1 = Kill pid :: rest /\ process_untouched rest
     /\ match kill with
        | None => result_of r1 = Response ""
                  /\ MainGo.running (state_of r1) = false
                  /\ MainGo.sbProcess (state_of r1) = None
                  /\ broadcasts rest = ["stopped"]
        | Some err =>
            result_of r1
            = Failure (statusError Internal
                         ("Failed to stop Sing-Box: " ++ Error err))
            /\ state_of r1 = s1 /\ rest = []
        end)
  /\
  (exists cmd pid rest,
     GrpcLogged.sbProcess s2 = Some cmd /\ Process cmd = Some pid
     /\ trace_of r2 = Kill pid :: rest /\ process_untouched rest
     /\ match kill with
        | None => result_of r2 = Response "Sing-Box stopped successfully."
                  /\ GrpcLogged.running (state_of r2) = false
                  /\ GrpcLogged.sbProcess (state_of r2) = None
                  /\ broadcasts rest = ["stopped"]
        | Some err =>
            result_of r2
            = Failure (statusError Internal
                         ("failed to stop Sing-Box: " ++ Error err))
            /\ state_of r2 = s2 /\ broadcasts rest = []
        end).
Proof.
  intros r1 r2. subst r1 r2.
  pose proof (MainGo_reachable_handle_ready s1 H1) as I1.
  pose proof (GrpcLogged_reachable_handle_ready s2 H2) as I2.
  rewrite R1 in I1. rewrite R2 in I2.
  destruct (handle_ready_running _ I1) as [c1 [p1 [Hc1 Hp1]]].
  destruct (handle_ready_running _ I2) as [c2 [p2 [Hc2 Hp2]]].
  split.
  - exists c1, p1. destruct s1 as [run q dir c p], c1 as [path args pr].
    cbn in R1, Hc1, Hp1. subst run p pr.
    unfold MainGo.Stop, MainGo.stopSingBox, MainGo.broadcastStatus.
    run_body. cbn. destruct kill as [err |]; cbn.
    + exists []. repeat split.
    + case_queue; cbn; eexists; repeat split.
  - exists c2, p2. destruct s2 as [run q dir c p], c2 as [path args pr].
    cbn in R2, Hc2, Hp2. subst run p pr.
    unfold GrpcLogged.Stop, GrpcLogged.stopSingBox,
      GrpcLogged.broadcastStatus.
    run_body. cbn. destruct kill as [err |]; cbn.
    + eexists. repeat split.
    + case_queue; cbn; eexists; repeat split.
Qed.

Lemma stop_kills_the_handle_witness :
  let s1 := fst (MainGo.run [MainGo.OpStart sample_doc (SpawnOk 77)]
                   (MainGo.NewServer "/opt")) in
  let s2 := fst (GrpcLogged.run [GrpcLogged.OpStart sample_env]
                   (GrpcLogged.NewServer "/opt")) in
  (exists rest, trace_of (MainGo.Stop None s1) = Kill 77 :: rest)
  /\ GrpcLogged.running (state_of (GrpcLogged.Stop None s2)) = false.
Proof.
  intros s1 s2.
  assert (H1 : MainGo.reachable s1).
  { exists "/opt", [MainGo.OpStart sample_doc (SpawnOk 77)]. reflexivity. }
  assert (H2 : GrpcLogged.reachable s2).
  { exists "/opt", [GrpcLogged.OpStart sample_env]. reflexivity. }
  destruct (stop_kills_the_handle None s1 s2 H1 H2 eq_refl eq_refl)
    as [[c1 [p1 [rest [Hc [Hp [Ht _]]]]]] [c2 [p2 [rest2 [_ [_ [_ [_ Hk]]]]]]]].
  split.
  - exists rest. cbn in Hc. inversion Hc; subst c1. cbn in Hp.
    inversion Hp; subst p1. exact Ht.
  - exact (proj1 (proj2 Hk)).
Defined.

(** X6. What the monitor goroutine of a killed process does depends on
    when it runs, in both servers.  When its update runs directly
    after the [Stop], it finds the flag off and the handle nil: it
    changes nothing and publishes nothing, and the stop shows on the bus
    as stopped alone.  When a [Start] has succeeded in between, the
    update, which carries the error of the old process, finds the flag
    of the new process on: it turns the flag off, clears the handle and
    publishes stopped (terminated in part_002) a second time, without
    touching the new process.  And the handle that the goroutine reads
    for its [s.sbProcess.Wait()], outside the mutex, is nil when it
    reads only after the [Stop], a nil dereference, and is the handle
    of the new process when it reads after that [Start]. *)
Theorem monitor_update_after_stop
    (err : error) (d : ConfigDoc) (pid' : nat)
    (s1 : MainGo.Server) (s2 : GrpcLogged.Server)
    (H1 : MainGo.reachable s1) (H2 : GrpcLogged.reachable s2)
    (R1 : MainGo.running s1 = true) (R2 : GrpcLogged.running s2 = true) :
  let a1 := state_of (MainGo.Stop None s1) in
  let a2 := state_of (GrpcLogged.Stop None s2) in
  let rf := ReadOk (Decodes d None) in
  let env := GrpcLogged.mkStartEnv StatOk rf StatOk StatOk (SpawnOk pid') in
  let b1 := state_of (MainGo.Start rf (SpawnOk pid') a1) in
  let b2 := state_of (GrpcLogged.Start env a2) in
  let m1 := MainGo.monitorProcess (Some err) b1 in
  let m2 := GrpcLogged.monitorProcess (Some err) b2 in
  (state_of (MainGo.monitorProcess (Some err) a1) = a1
   /\ broadcasts (trace_of (MainGo.monitorProcess (Some err) a1)) = []
   /\ state_of (GrpcLogged.monitorProcess (Some err) a2) = a2
   /\ broadcasts (trace_of (GrpcLogged.monitorProcess (Some err) a2)) = []
   /\ broadcasts (snd (MainGo.run [MainGo.OpStop None;
                                   MainGo.OpMonitor (Some err)] s1))
      = ["stopped"]
   /\ broadcasts (snd (GrpcLogged.run [GrpcLogged.OpStop None;
                                       GrpcLogged.OpMonitor (Some err)] s2))
      = ["stopped"])
  /\ (MainGo.running b1 = true
      /\ (exists cmd, MainGo.sbProcess b1 = Some cmd
                      /\ Process cmd = Some pid')
      /\ MainGo.running (state_of m1) = false
      /\ MainGo.sbProcess (state_of m1) = None
      /\ broadcasts (trace_of m1) = ["stopped"]
      /\ process_untouched (trace_of m1)
      /\ broadcasts (snd (MainGo.run [MainGo.OpStop None;
                                      MainGo.OpStart rf (SpawnOk pid');
                                      MainGo.OpMonitor (Some err)] s1))
         = ["stopped"; "started"; "stopped"])
  /\ (GrpcLogged.running b2 = true
      /\ (exists cmd, GrpcLogged.sbProcess b2 = Some cmd
                      /\ Process cmd = Some pid')
      /\ GrpcLogged.running (state_of m2) = false
      /\ GrpcLogged.sbProcess (state_of m2) = None
      /\ broadcasts (trace_of m2) = ["terminated"]
      /\ process_untouched (trace_of m2)
      /\ broadcasts (snd (GrpcLogged.run [GrpcLogged.OpStop None;
                                          GrpcLogged.OpStart env;
                                          GrpcLogged.OpMonitor (Some err)] s2))
         = ["stopped"; "started"; "terminated"])
  /\ (result_of (MainGo.monitorProcess_wait a1) = None
      /\ result_of (GrpcLogged.monitorProcess_wait a2) = None
      /\ result_of (MainGo.monitorProcess_wait b1) = MainGo.sbProcess b1
      /\ result_of (GrpcLogged.monitorProcess_wait b2)
         = GrpcLogged.sbProcess b2).
Proof.
  intros a1 a2 rf env b1 b2 m1 m2. subst a1 a2 rf env b1 b2 m1 m2.
  pose proof (MainGo_reachable_handle_ready s1 H1) as I1.
  pose proof (GrpcLogged_reachable_handle_ready s2 H2) as I2.
  rewrite R1 in I1. rewrite R2 in I2.
  destruct (handle_ready_running _ I1) as [c1 [p1 [Hc1 Hp1]]].
  destruct (handle_ready_running _ I2) as [c2 [p2 [Hc2 Hp2]]].
  destruct s1 as [run1 q1 dir1 cf1 pr1], c1 as [path1 args1 pp1].
  destruct s2 as [run2 q2 dir2 cf2 pr2], c2 as [path2 args2 pp2].
  cbn in R1, Hc1, Hp1, R2, Hc2, Hp2. subst.
  unfold MainGo.run, MainGo.step, GrpcLogged.run, GrpcLogged.step,
    MainGo.Stop, MainGo.stopSingBox, MainGo.monitorProcess,
    MainGo.monitorProcess_wait, MainGo.Start, MainGo.loadConfig,
    MainGo.startSingBox, MainGo.broadcastStatus,
    GrpcLogged.Stop, GrpcLogged.stopSingBox, GrpcLogged.monitorProcess,
    GrpcLogged.monitorProcess_wait, GrpcLogged.Start, GrpcLogged.loadConfig,
    GrpcLogged.startSingBox, GrpcLogged.broadcastStatus, process_untouched.
  run_body. cbn.
  repeat split; repeat (case_queue; cbn); try reflexivity;
    eexists; split; reflexivity.
Qed.

Lemma monitor_update_after_stop_witness :
  let s1 := fst (MainGo.run [MainGo.OpStart sample_doc (SpawnOk 77)]
                   (MainGo.NewServer "/opt")) in
  let s2 := fst (GrpcLogged.run [GrpcLogged.OpStart sample_env]
                   (GrpcLogged.NewServer "/opt")) in
  let late := errorString "signal: killed" in
  let again := ReadOk (Decodes (mkDoc (Some "sb.json") (Some "sing-box")
                                  None None None None) None) in
  broadcasts (snd (GrpcLogged.run
                     [GrpcLogged.OpStop None;
                      GrpcLogged.OpMonitor (Some late)] s2))
  = ["stopped"]
  /\ broadcasts (snd (MainGo.run [MainGo.OpStop None;
                                  MainGo.OpStart again (SpawnOk 78);
                                  MainGo.OpMonitor (Some late)] s1))
     = ["stopped"; "started"; "stopped"]
  /\ result_of (MainGo.monitorProcess_wait
                  (state_of (MainGo.Stop None s1))) = None.
Proof.
  intros s1 s2 late again.
  assert (H1 : MainGo.reachable s1).
  { exists "/opt", [MainGo.OpStart sample_doc (SpawnOk 77)]. reflexivity. }
  assert (H2 : GrpcLogged.reachable s2).
  { exists "/opt", [GrpcLogged.OpStart sample_env]. reflexivity. }
  destruct (monitor_update_after_stop late
              (mkDoc (Some "sb.json") (Some "sing-box") None None None None)
              78 s1 s2 H1 H2 eq_refl eq_refl)
    as [[_ [_ [_ [_ [_ Hdirect]]]]]
        [[_ [_ [_ [_ [_ [_ Hstale]]]]]] [_ [Hnil _]]]].
  split; [exact Hdirect | split; [exact Hstale | exact Hnil]].
Defined.

End SpawnAndKill.

(** ** Counting processes and queued statuses over whole runs *)

Section Accounting.

Lemma spawned_ok_app (t1 t2 : list Event) :
  spawned_ok (t1 ++ t2) = spawned_ok t1 + spawned_ok t2.
Proof.
  induction t1 as [| e t1 IH]; [reflexivity |].
  destruct e as [| path args [|] | | | | | | | |]; cbn; rewrite ?IH;
    reflexivity.
Qed.

Lemma reported_gone_app (t1 t2 : list Event) :
  reported_gone (t1 ++ t2) = reported_gone t1 + reported_gone t2.
Proof.
  induction t1 as [| e t1 IH]; [reflexivity |].
  destruct e; cbn; rewrite ?IH; try reflexivity.
  destruct (String.eqb status "stopped" || String.eqb status "terminated");
    reflexivity.
Qed.

Lemma MainGo_step_accounts (o : MainGo.Op) (s : MainGo.Server) :
  Nat.leb (spawned_ok (snd (MainGo.step o s)) + flag (MainGo.running s))
          (reported_gone (snd (MainGo.step o s))
           + flag (MainGo.running (fst (MainGo.step o s)))) = true.
Proof.
  destruct s as [run q dir c [[path args [pid |]] |]]; destruct run;
    destruct o; split_unmarshal;
    unfold MainGo.step, MainGo.Start, MainGo.Stop, MainGo.Exit,
      MainGo.monitorProcess, MainGo.Status, MainGo.loadConfig,
      MainGo.startSingBox, MainGo.stopSingBox, MainGo.broadcastStatus;
    run_body; eval_step.
Qed.

Lemma GrpcLogged_step_accounts (o : GrpcLogged.Op) (s : GrpcLogged.Server) :
  Nat.leb (spawned_ok (snd (GrpcLogged.step o s))
           + flag (GrpcLogged.running s))
          (reported_gone (snd (GrpcLogged.step o s))
           + flag (GrpcLogged.running (fst (GrpcLogged.step o s)))) = true.
Proof.
  destruct s as [run q dir c [[path args [pid |]] |]]; destruct run;
    destruct o as [[st rf sb sc sp] | k | k | k | e k |]; split_unmarshal;
    unfold GrpcLogged.step, GrpcLogged.Start, GrpcLogged.Stop,
      GrpcLogged.Exit, GrpcLogged.monitorProcess,
      GrpcLogged.StreamStatus_select, GrpcLogged.loadConfig,
      GrpcLogged.startSingBox, GrpcLogged.stopSingBox,
      GrpcLogged.broadcastStatus;
    run_body; eval_step.
Qed.

(** X7. Over any sequence of operations from any state of either
    server, the processes started are accounted for: their number, plus
    one if the flag was on at the beginning, is at most the number of
    times stopped or terminated was handed to [broadcastStatus], plus
    one if the flag is on at the end.  So from a fresh server at most
    one started process is not yet reported gone, and none when the flag
    is off. *)
Theorem started_processes_accounted
    (ops1 : list MainGo.Op) (s1 : MainGo.Server)
    (ops2 : list GrpcLogged.Op) (s2 : GrpcLogged.Server) :
  spawned_ok (snd (MainGo.run ops1 s1)) + flag (MainGo.running s1)
  <= reported_gone (snd (MainGo.run ops1 s1))
     + flag (MainGo.running (fst (MainGo.run ops1 s1)))
  /\ spawned_ok (snd (GrpcLogged.run ops2 s2)) + flag (GrpcLogged.running s2)
     <= reported_gone (snd (GrpcLogged.run ops2 s2))
        + flag (GrpcLogged.running (fst (GrpcLogged.run ops2 s2))).
Proof.
  split.
  - revert s1. induction ops1 as [| o rest IH]; intros s; [cbn; lia |].
    cbn. pose proof (MainGo_step_accounts o s) as Hstep.
    destruct (MainGo.step o s) as [sa ta]. specialize (IH sa).
    destruct (MainGo.run rest sa) as [sb tb]. cbn in *.
    apply Nat.leb_le in Hstep.
    rewrite spawned_ok_app, reported_gone_app. lia.
  - revert s2. induction ops2 as [| o rest IH]; intros s; [cbn; lia |].
    cbn. pose proof (GrpcLogged_step_accounts o s) as Hstep.
    destruct (GrpcLogged.step o s) as [sa ta]. specialize (IH sa).
    destruct (GrpcLogged.run rest sa) as [sb tb]. cbn in *.
    apply Nat.leb_le in Hstep.
    rewrite spawned_ok_app, reported_gone_app. lia.
Qed.

Ltac queue_room :=
  cbn; repeat (case_queue; cbn);
  repeat match goal with
  | H : Nat.ltb _ _ = true |- _ => apply Nat.ltb_lt in H
  | H : Nat.ltb _ _ = false |- _ => apply Nat.ltb_ge in H
  end;
  rewrite ?length_app in *; cbn [List.length] in *; try lia.

Lemma length_tl_le (q : list string) (n : nat) :
  List.length q <= n -> List.length (tl q) <= n.
Proof. destruct q; cbn; lia. Qed.

Lemma MainGo_step_queue (o : MainGo.Op) (s : MainGo.Server) :
  List.length (MainGo.statusChange s) <= MainGo.statusChannelCap ->
  List.length (MainGo.statusChange (fst (MainGo.step o s)))
  <= MainGo.statusChannelCap.
Proof.
  unfold MainGo.statusChannelCap.
  destruct s as [run q dir c [[path args [pid |]] |]]; destruct run;
    cbn [MainGo.statusChange]; intros Hq;
    destruct o; split_unmarshal;
    try (apply length_tl_le; exact Hq);
    unfold MainGo.step, MainGo.Start, MainGo.Stop, MainGo.Exit,
      MainGo.monitorProcess, MainGo.Status, MainGo.loadConfig,
      MainGo.startSingBox, MainGo.stopSingBox, MainGo.broadcastStatus,
      MainGo.statusChannelCap;
    run_body; queue_room.
Qed.

Lemma GrpcLogged_step_queue (o : GrpcLogged.Op) (s : GrpcLogged.Server) :
  List.length (GrpcLogged.statusChange s) <= GrpcLogged.statusChannelCap ->
  List.length (GrpcLogged.statusChange (fst (GrpcLogged.step o s)))
  <= GrpcLogged.statusChannelCap.
Proof.
  unfold GrpcLogged.statusChannelCap.
  destruct s as [run q dir c [[path args [pid |]] |]]; destruct run;
    cbn [GrpcLogged.statusChange]; intros Hq;
    destruct o as [[st rf sb sc sp] | k | k | k | e k |]; split_unmarshal;
    try (apply length_tl_le; exact Hq);
    unfold GrpcLogged.step, GrpcLogged.Start, GrpcLogged.Stop,
      GrpcLogged.Exit, GrpcLogged.monitorProcess,
      GrpcLogged.StreamStatus_select, GrpcLogged.loadConfig,
      GrpcLogged.startSingBox, GrpcLogged.stopSingBox,
      GrpcLogged.broadcastStatus, GrpcLogged.statusChannelCap;
    run_body; queue_room.
Qed.

(** X8. In every state reached from [NewServer] the status channel
    holds no more statuses than its capacity, 10 in src/cmd/main.go and
    100 in part_002: [broadcastStatus] never queues into a full
    buffer. *)
Theorem status_queue_bounded
    (execDir : string) (ops1 : list MainGo.Op) (ops2 : list GrpcLogged.Op) :
  List.length (MainGo.statusChange
                 (fst (MainGo.run ops1 (MainGo.NewServer execDir)))) <= 10
  /\ List.length (GrpcLogged.statusChange
                    (fst (GrpcLogged.run ops2 (GrpcLogged.NewServer execDir))))
     <= 100.
Proof.
  split.
  - apply (MainGo_run_invariant
             (fun s => List.length (MainGo.statusChange s)
                       <= MainGo.statusChannelCap)).
    + intros o s. apply MainGo_step_queue.
    + cbn. unfold MainGo.statusChannelCap. lia.
  - apply (GrpcLogged_run_invariant
             (fun s => List.length (GrpcLogged.statusChange s)
                       <= GrpcLogged.statusChannelCap)).
    + intros o s. apply GrpcLogged_step_queue.
    + cbn. unfold GrpcLogged.statusChannelCap. lia.
Qed.

End Accounting.

(** ** Exit *)

Section ExitRequest.

(** X9. [Exit] of part_002 always answers, also when other handlers run
    between its read of the flag, outside the mutex, and its
    [stopSingBox], which locks: for either value it has read and any
    reachable state that the stop then finds, it returns an empty
    response and the last thing it does is to schedule [os.Exit(0)]
    after 5 s.  It calls [Process.Kill()] exactly when it has read the
    flag on and the flag is still on, and the flag goes off exactly
    when that kill succeeds.  Having read the flag on for a process
    that was stopped meanwhile, it logs the refusal of the stop path
    and touches no process.  Read and stop together, without
    interruption, are [Exit]. *)
Theorem grpc_exit_always_answers
    (seen : bool) (kill : option error) (s : GrpcLogged.Server)
    (H : GrpcLogged.reachable s) :
  let r := GrpcLogged.Exit_after_read seen kill s in
  result_of r = Response ""
  /\ last (trace_of r) (Log "") = ExitAfter (5 * Second) 0
  /\ kills (trace_of r) = flag (seen && GrpcLogged.running s)
  /\ GrpcLogged.running (state_of r)
     = GrpcLogged.running s && (negb seen || not_nil kill)
  /\ (seen = true -> GrpcLogged.running s = false ->
      state_of r = s
      /\ process_untouched (trace_of r)
      /\ In (GrpcLogged.error_
               ("Exit stop error: "
                ++ Error (statusError FailedPrecondition
                            "Sing-Box is not running")))
            (trace_of r))
  /\ GrpcLogged.Exit kill s
     = GrpcLogged.Exit_after_read (GrpcLogged.running s) kill s.
Proof.
  intros r. subst r.
  pose proof (GrpcLogged_reachable_handle_ready s H) as I.
  destruct s as [run q dir c [[path args [pid |]] |]]; destruct run;
    cbn in I; try discriminate; destruct seen, kill as [err |];
    unfold GrpcLogged.Exit, GrpcLogged.Exit_after_read,
      GrpcLogged.stopSingBox, GrpcLogged.broadcastStatus, process_untouched;
    run_body; cbn; repeat (case_queue; cbn);
    (split; [reflexivity |]); (split; [reflexivity |]);
    (split; [reflexivity |]); (split; [reflexivity |]);
    (split; [| reflexivity]);
    intros Hseen Hoff; try discriminate; repeat split; cbn; auto.
Qed.

Lemma grpc_exit_always_answers_witness :
  let s := fst (GrpcLogged.run [GrpcLogged.OpStart sample_env;
                                GrpcLogged.OpStop None]
                  (GrpcLogged.NewServer "/opt")) in
  let r := GrpcLogged.Exit_after_read true None s in
  GrpcLogged.running s = false
  /\ result_of r = Response ""
  /\ kills (trace_of r) = 0
  /\ last (trace_of r) (Log "") = ExitAfter (5 * Second) 0.
Proof.
  intros s r.
  assert (H : GrpcLogged.reachable s).
  { exists "/opt", [GrpcLogged.OpStart sample_env; GrpcLogged.OpStop None].
    reflexivity. }
  destruct (grpc_exit_always_answers true None s H)
    as [Hr [Hl [Hk _]]].
  split; [reflexivity |].
  split; [exact Hr | split; [exact Hk | exact Hl]].
Defined.

End ExitRequest.

(** ** What a subscriber gets and how its stream ends *)

Section StreamEnd.

Lemma MainGo_loop_all_sent (vals : list string) :
  forall (last : string) (closed : bool),
    MainGo.StreamStatus_loop last (map sent_ok vals) closed
    = (if closed then Some None else None,
       map (fun v => StreamSend v true) (skip_repeats last vals)).
Proof.
  induction vals as [| v vals IH]; intros last closed; [reflexivity |].
  cbn [map sent_ok MainGo.StreamStatus_loop skip_repeats].
  destruct (String.eqb v last); [apply IH |].
  rewrite IH. reflexivity.
Qed.

(** X10. When every [stream.Send] succeeds, a subscriber receives
    exactly the values taken from the channel with the repeats of the
    last passed value skipped, nothing lost and nothing added.  In
    src/cmd/main.go the stream then ends with nil when the channel is
    closed and stays open otherwise; in part_002 a closed channel ends
    it with nil and leaves the server as it was. *)
Theorem stream_delivers_everything
    (vals : list string) (closed : bool) (s : GrpcLogged.Server) :
  MainGo.StreamStatus (map sent_ok vals) closed
  = (if closed then Some None else None,
     map (fun v => StreamSend v true) (skip_repeats "" vals))
  /\ GrpcLogged.StreamStatus
       (map delivered_value vals ++ [GrpcLogged.ChannelClosed]) s
     = (Some (GrpcLogged.Return None), s,
        map (fun v => StreamSend v true) (skip_repeats "" vals)
        ++ [GrpcLogged.warn "Status channel closed"])
  /\ result_of (GrpcLogged.StreamStatus (map delivered_value vals) s) = None
  /\ delivered (snd (MainGo.StreamStatus (map sent_ok vals) closed))
     = skip_repeats "" vals.
Proof.
  unfold MainGo.StreamStatus, GrpcLogged.StreamStatus.
  rewrite MainGo_loop_all_sent. split; [reflexivity |]. split; [| split].
  - destruct (GrpcLogged_loop_after_receives vals ""
                [GrpcLogged.ChannelClosed] s) as [last' Heq].
    rewrite Heq. reflexivity.
  - destruct (GrpcLogged_loop_after_receives vals "" [] s) as [last' Heq].
    rewrite app_nil_r in Heq. rewrite Heq. reflexivity.
  - cbn [snd]. induction (skip_repeats "" vals) as [| v l IH];
      [reflexivity | cbn; rewrite IH; reflexivity].
Qed.

Lemma last_cons (l : list string) :
  forall (v d : string), last (v :: l) d = last l v.
Proof.
  induction l as [| x l IH]; intros v d; [reflexivity |].
  change (last (v :: x :: l) d) with (last (x :: l) d).
  rewrite (IH x d), (IH x v). reflexivity.
Qed.

Lemma MainGo_loop_after_sent (before : list string) :
  forall (last_seen : string) (rest : list (string * option error))
         (closed : bool),
    MainGo.StreamStatus_loop last_seen (map sent_ok before ++ rest) closed
    = (fst (MainGo.StreamStatus_loop
              (last (skip_repeats last_seen before) last_seen) rest closed),
       map (fun v => StreamSend v true) (skip_repeats last_seen before)
       ++ snd (MainGo.StreamStatus_loop
                 (last (skip_repeats last_seen before) last_seen) rest
                 closed)).
Proof.
  induction before as [| v before IH]; intros last_seen rest closed.
  - cbn. destruct (MainGo.StreamStatus_loop last_seen rest closed).
    reflexivity.
  - cbn [map app sent_ok MainGo.StreamStatus_loop skip_repeats].
    destruct (String.eqb v last_seen); [apply IH |].
    rewrite IH, last_cons. reflexivity.
Qed.

Lemma GrpcLogged_loop_after_delivered (before : list string) :
  forall (last_seen : string) (rest : list GrpcLogged.Select)
         (s : GrpcLogged.Server),
    GrpcLogged.StreamStatus_loop last_seen
      (map delivered_value before ++ rest) s
    = (result_of (GrpcLogged.StreamStatus_loop
                    (last (skip_repeats last_seen before) last_seen) rest s),
       state_of (GrpcLogged.StreamStatus_loop
                   (last (skip_repeats last_seen before) last_seen) rest s),
       map (fun v => StreamSend v true) (skip_repeats last_seen before)
       ++ trace_of (GrpcLogged.StreamStatus_loop
                      (last (skip_repeats last_seen before) last_seen)
                      rest s)).
Proof.
  induction before as [| v before IH]; intros last_seen rest s.
  - cbn. destruct (GrpcLogged.StreamStatus_loop last_seen rest s)
      as [[r s'] t]. reflexivity.
  - change (map delivered_value (v :: before))
      with (GrpcLogged.Received v None :: map delivered_value before).
    cbn [app GrpcLogged.StreamStatus_loop GrpcLogged.StreamStatus_select
         skip_repeats].
    run_body. destruct (String.eqb v last_seen).
    + rewrite IH. reflexivity.
    + rewrite IH, last_cons. reflexivity.
Qed.

(** X11. A [stream.Send] that fails ends the stream at once with the
    error of that send: the values received after it are not sent, and
    in part_002 the server is left as it was.  But a value equal to the
    last one passed on is skipped before [stream.Send] is called, so a
    send that would fail for it goes unnoticed and the stream goes on as
    if the value had not been received. *)
Theorem stream_ends_at_failed_send
    (before : list string) (v : string) (err : error)
    (after : list (string * option error)) (closed : bool)
    (sels : list GrpcLogged.Select) (s : GrpcLogged.Server) :
  let seen := last (skip_repeats "" before) "" in
  let passed := map (fun x => StreamSend x true) (skip_repeats "" before) in
  (v <> seen ->
   MainGo.StreamStatus (map sent_ok before ++ (v, Some err) :: after) closed
   = (Some (Some err),
      passed ++ [StreamSend v false;
                 Log ("Error streaming status: " ++ Error err)])
   /\ GrpcLogged.StreamStatus
        (map delivered_value before
         ++ GrpcLogged.Received v (Some err) :: sels) s
      = (Some (GrpcLogged.Return (Some err)), s,
         passed ++ [StreamSend v false;
                    GrpcLogged.error_ ("Status stream error: "
                                       ++ Error err)]))
  /\ (v = seen ->
      MainGo.StreamStatus (map sent_ok before ++ (v, Some err) :: after)
        closed
      = MainGo.StreamStatus (map sent_ok before ++ after) closed
      /\ GrpcLogged.StreamStatus
           (map delivered_value before
            ++ GrpcLogged.Received v (Some err) :: sels) s
         = GrpcLogged.StreamStatus (map delivered_value before ++ sels) s).
Proof.
  intros seen passed. subst seen passed.
  unfold MainGo.StreamStatus, GrpcLogged.StreamStatus.
  rewrite !MainGo_loop_after_sent, !GrpcLogged_loop_after_delivered.
  cbn [MainGo.StreamStatus_loop GrpcLogged.StreamStatus_loop
       GrpcLogged.StreamStatus_select].
  run_body. split.
  - intros Hne. apply String.eqb_neq in Hne. rewrite Hne. cbn.
    split; reflexivity.
  - intros Heq. apply String.eqb_eq in Heq. rewrite Heq. cbn.
    split; [reflexivity |].
    destruct (GrpcLogged.StreamStatus_loop
                (last (skip_repeats "" before) "") sels s) as [[r s'] t].
    reflexivity.
Qed.

Lemma stream_ends_at_failed_send_witness :
  MainGo.StreamStatus
    (map sent_ok ["started"; "started"]
     ++ ("stopped", Some (errorString "transport is closing"))
        :: [("started", None)]) true
  = (Some (Some (errorString "transport is closing")),
     [StreamSend "started" true; StreamSend "stopped" false;
      Log "Error streaming status: transport is closing"]).
Proof.
  assert (Hne : "stopped" <> last (skip_repeats "" ["started"; "started"]) "")
    by (cbn; discriminate).
  exact (proj1 (proj1 (stream_ends_at_failed_send ["started"; "started"]
                         "stopped" (errorString "transport is closing")
                         [("started", None)] true []
                         (GrpcLogged.NewServer "/opt")) Hne)).
Defined.

End StreamEnd.

(** ** The two stop paths of the command-file programs *)

Section FileStop.

Ltac split_stop_env env :=
  destruct env as [goos [sigerr |] [delay [werr |] |] [killerr |]];
  cbn [FileTimed.GOOS FileTimed.signal_result FileTimed.reaction
       FileTimed.kill_result] in *.

Ltac case_os_and_delay :=
  repeat match goal with
  | |- context [String.eqb ?g "windows"] =>
      destruct (String.eqb g "windows") eqn:?
  | |- context [Z.ltb ?d ?g] => destruct (Z.ltb d g) eqn:?
  end.

(** X12. [stopSingBox] of part_003 on a manager that owns a started
    process either returns nil with the handle cleared, or returns the
    failure wrapped as "failed to stop Sing-Box: ..." with the handle
    field still holding the same command.  The failure is then the
    error of the signal, with nothing killed; or the error that [Wait]
    reported for a child that exited within the 5 seconds, with nothing
    killed, so that the handle is kept for a process on which [Wait]
    has returned; or the error of the one [Process.Kill()].
    [Process.Kill()] is called at most once, and on a target other than
    windows never before SIGTERM has been sent and the exit waited
    for. *)
Theorem timed_stop_clears_or_keeps
    (env : FileTimed.StopEnv) (m : FileTimed.SingBoxManager)
    (cmd : Cmd) (pid : nat)
    (Hm : FileTimed.singBoxProcess m = Some cmd)
    (Hp : Process cmd = Some pid) :
  let r := FileTimed.stopSingBox env m in
  ((result_of r = Nil
    /\ state_of r = FileTimed.set_singBoxProcess None m)
   \/ (exists e,
         result_of r = Err (wrapError "failed to stop Sing-Box: " e)
         /\ FileTimed.singBoxProcess (state_of r) = Some cmd
         /\ ((FileTimed.GOOS env <> "windows"
              /\ FileTimed.signal_result env = Some e
              /\ kills (trace_of r) = 0)
             \/ (FileTimed.GOOS env <> "windows"
                 /\ FileTimed.signal_result env = None
                 /\ (exists delay,
                       FileTimed.reaction env = ExitsAfter delay (Some e)
                       /\ (delay < FileTimed.graceTimeout)%Z)
                 /\ kills (trace_of r) = 0)
             \/ (FileTimed.kill_result env = Some e
                 /\ kills (trace_of r) = 1))))
  /\ kills (trace_of r) <= 1
  /\ (FileTimed.GOOS env <> "windows" ->
      kill_after_wait false false (trace_of r) = true).
Proof.
  intros r. subst r.
  destruct m as [c cf cmf p], cmd as [path args pr].
  cbn in Hm, Hp. subst p pr.
  split_stop_env env;
    unfold FileTimed.stopSingBox, FileTimed.termination; run_body; cbn;
    case_os_and_delay; cbn;
    (split; [| split; [lia |]]);
    try (left; split; reflexivity);
    try (right; eexists; split; [reflexivity |]; split; [reflexivity |];
         first
           [ left; split; [apply String.eqb_neq; assumption |];
             split; reflexivity
           | right; left; split; [apply String.eqb_neq; assumption |];
             split; [reflexivity |];
             split; [eexists; split; [reflexivity |];
                     apply Z.ltb_lt; assumption | reflexivity]
           | right; right; split; reflexivity ]);
    try reflexivity;
    intros Hos; apply String.eqb_neq in Hos; congruence.
Qed.

Lemma timed_stop_clears_or_keeps_witness :
  let env := FileTimed.mkStopEnv "darwin" None
               (ExitsAfter (6 * Second) None)
               (Some (errorString "operation not permitted")) in
  let r := FileTimed.stopSingBox env (owning 4) in
  FileTimed.singBoxProcess (state_of r)
  = FileTimed.singBoxProcess (owning 4)
  /\ kills (trace_of r) <= 1
  /\ kill_after_wait false false (trace_of r) = true.
Proof.
  intros env r.
  destruct (timed_stop_clears_or_keeps env (owning 4)
              (mkCmd "/opt/sing-box"
                 ["/opt/sing-box"; "run"; "-c"; "/opt/sb.json"] (Some 4))
              4 eq_refl eq_refl) as [Hres [Hk Hw]].
  split; [| split; [exact Hk |]].
  - destruct Hres as [[Hnil _] | [e [_ [Hkeep _]]]].
    + discriminate Hnil.
    + exact Hkeep.
  - apply Hw. cbn. discriminate.
Defined.

(** X13. Two ways part_003's stop fails on a target other than windows
    while the handle stays set.  When SIGTERM cannot be sent, the error
    is returned at once: no wait, no kill.  When the child exits within
    the 5 seconds but Wait reports an error for that exit, as for a
    child that the signal killed, that error is returned and the handle
    is kept although the process is gone. *)
Theorem timed_stop_keeps_handle_on_error
    (env : FileTimed.StopEnv) (m : FileTimed.SingBoxManager)
    (cmd : Cmd) (pid : nat)
    (Hm : FileTimed.singBoxProcess m = Some cmd)
    (Hp : Process cmd = Some pid)
    (Hos : FileTimed.GOOS env <> "windows") :
  (forall e, FileTimed.signal_result env = Some e ->
     FileTimed.stopSingBox env m
     = (Err (wrapError "failed to stop Sing-Box: " e), m, [SignalTerm pid]))
  /\ (forall delay e,
        FileTimed.signal_result env = None ->
        FileTimed.reaction env = ExitsAfter delay (Some e) ->
        (delay < FileTimed.graceTimeout)%Z ->
        FileTimed.stopSingBox env m
        = (Err (wrapError "failed to stop Sing-Box: " e), m,
           [SignalTerm pid; Go "done <- m.singBoxProcess.Wait()";
            AwaitExit pid FileTimed.graceTimeout])).
Proof.
  destruct m as [c cf cmf p], cmd as [path args pr].
  cbn in Hm, Hp. subst p pr. apply String.eqb_neq in Hos.
  split.
  - intros e Hsig.
    unfold FileTimed.stopSingBox, FileTimed.termination. run_body. cbn.
    rewrite Hos, Hsig. reflexivity.
  - intros delay e Hsig Hre Hearly.
    unfold FileTimed.stopSingBox, FileTimed.termination. run_body. cbn.
    rewrite Hos, Hsig, Hre. cbn. case_os_and_delay; [reflexivity |].
    exfalso. unfold FileTimed.graceTimeout, Second, Millisecond in Hearly.
    apply Z.ltb_ge in Heqb. lia.
Qed.

Lemma timed_stop_keeps_handle_on_error_witness :
  let env := FileTimed.mkStopEnv "linux" None
               (ExitsAfter (20 * Millisecond)
                  (Some (errorString "signal: terminated")))
               None in
  FileTimed.stopSingBox env (owning 4)
  = (Err (wrapError "failed to stop Sing-Box: "
            (errorString "signal: terminated")),
     owning 4,
     [SignalTerm 4; Go "done <- m.singBoxProcess.Wait()";
      AwaitExit 4 FileTimed.graceTimeout]).
Proof.
  intros env.
  assert (Hos : FileTimed.GOOS env <> "windows") by (cbn; discriminate).
  destruct (timed_stop_keeps_handle_on_error env (owning 4)
              (mkCmd "/opt/sing-box"
                 ["/opt/sing-box"; "run"; "-c"; "/opt/sb.json"] (Some 4))
              4 eq_refl eq_refl Hos) as [_ H].
  apply (H (20 * Millisecond)%Z (errorString "signal: terminated")
           eq_refl eq_refl).
  reflexivity.
Defined.

(** X14. [stopSingBox] of the third program of oblivion-helper.go always
    forgets the process: on a manager that owns a started process it
    returns with the handle nil whatever the signal, the wait and the
    kill answer, and a following stop finds nothing to stop.  It calls
    [Process.Kill()] at most once; on a target other than windows it
    sends SIGTERM first, and when the signal cannot be sent it kills at
    once. *)
Theorem simple_stop_always_forgets
    (env env' : FileTimed.StopEnv) (m : FileSimple.SingBoxManager)
    (cmd : Cmd) (pid : nat)
    (Hm : FileSimple.singBoxProcess m = Some cmd)
    (Hp : Process cmd = Some pid) :
  let r := FileSimple.stopSingBox env m in
  result_of r = Nil
  /\ state_of r = FileSimple.set_singBoxProcess None m
  /\ kills (trace_of r) <= 1
  /\ (FileTimed.GOOS env <> "windows" ->
      hd_error (trace_of r) = Some (SignalTerm pid)
      /\ (FileTimed.signal_result env <> None -> kills (trace_of r) = 1))
  /\ FileSimple.stopSingBox env' (state_of r)
     = (Nil, state_of r, [Log "No Sing-Box process to stop."]).
Proof.
  intros r. subst r.
  destruct m as [cf cmf bf p], cmd as [path args pr].
  cbn in Hm, Hp. subst p pr.
  split_stop_env env;
    unfold FileSimple.stopSingBox, FileSimple.force_kill; run_body; cbn;
    case_os_and_delay; cbn;
    (repeat split; try lia; try reflexivity;
     try (intros Hos; apply String.eqb_neq in Hos; congruence);
     try match goal with
         | H : ?g <> "windows", E : String.eqb ?g "windows" = true |- _ =>
             apply String.eqb_eq in E; contradiction
         end;
     try (let Hn := fresh in intros Hn; exfalso; apply Hn; reflexivity)).
Qed.

Lemma simple_stop_always_forgets_witness :
  let env := FileTimed.mkStopEnv "linux"
               (Some (errorString "os: process already finished"))
               NeverExits
               (Some (errorString "os: process already finished")) in
  FileSimple.singBoxProcess
    (state_of (FileSimple.stopSingBox env (holding 9))) = None
  /\ kills (trace_of (FileSimple.stopSingBox env (holding 9))) = 1.
Proof.
  intros env.
  destruct (simple_stop_always_forgets env env (holding 9)
              (mkCmd "/opt/oblivion-sing-box"
                 ["/opt/oblivion-sing-box"; "run"; "-c"; "/opt/sbConfig.json"]
                 (Some 9))
              9 eq_refl eq_refl) as [_ [Hs [_ [Hos _]]]].
  split; [rewrite Hs; reflexivity |].
  assert (Hne : FileTimed.GOOS env <> "windows") by (cbn; discriminate).
  destruct (Hos Hne) as [_ Hk]. apply Hk. cbn. discriminate.
Defined.

End FileStop.

(** ** Commands as they are read from the file *)

Section CommandText.

Lemma toLower_not_upper (c : ascii) : isUpper (toLower c) = false.
Proof. destruct c as [[] [] [] [] [] [] [] []]; reflexivity. Qed.

Lemma isSpace_toLower (c : ascii) : isSpace (toLower c) = isSpace c.
Proof. destruct c as [[] [] [] [] [] [] [] []]; reflexivity. Qed.

Lemma toLower_fixed (c : ascii) : isUpper c = false -> toLower c = c.
Proof.
  destruct c as [[] [] [] [] [] [] [] []]; vm_compute; intros H;
    first [reflexivity | discriminate H].
Qed.

Lemma ToLower_no_upper (s : string) : none_of isUpper (ToLower s) = true.
Proof.
  induction s as [| c s IH]; [reflexivity |].
  cbn [ToLower none_of]. rewrite toLower_not_upper, IH. reflexivity.
Qed.

Lemma ToLower_fixed (s : string) :
  none_of isUpper s = true -> ToLower s = s.
Proof.
  induction s as [| c s IH]; [reflexivity |].
  cbn [ToLower none_of]. intros H. apply andb_prop in H as [Hc Hs].
  apply negb_true_iff in Hc. rewrite (toLower_fixed c Hc), (IH Hs).
  reflexivity.
Qed.

Lemma TrimLeft_first (s : string) :
  match first_byte (TrimLeft s) with
  | Some c => isSpace c = false
  | None => True
  end.
Proof.
  induction s as [| c s IH]; [exact I |].
  cbn [TrimLeft]. destruct (isSpace c) eqn:Hc; [exact IH | exact Hc].
Qed.

Lemma TrimRight_ends (s : string) :
  (TrimRight s = EmptyString \/ first_byte (TrimRight s) = first_byte s)
  /\ match last_byte (TrimRight s) with
     | Some c => isSpace c = false
     | None => True
     end.
Proof.
  induction s as [| c s [IHf IHl]]; [split; [left; reflexivity | exact I] |].
  cbn [TrimRight]. destruct (TrimRight s) as [| k kept] eqn:Hk.
  - destruct (isSpace c) eqn:Hc; cbn; [split; [left; reflexivity | exact I] |].
    split; [right; reflexivity | exact Hc].
  - split; [right; reflexivity |]. exact IHl.
Qed.

Lemma TrimSpace_trimmed (s : string) : trimmed (TrimSpace s) = true.
Proof.
  unfold TrimSpace, trimmed.
  pose proof (TrimLeft_first s) as Hfirst.
  destruct (TrimRight_ends (TrimLeft s)) as [[Hempty | Hsame] Hlast].
  - rewrite Hempty. reflexivity.
  - rewrite Hsame.
    destruct (first_byte (TrimLeft s)) as [a |]; [| reflexivity].
    destruct (last_byte (TrimRight (TrimLeft s))) as [b |]; [| reflexivity].
    rewrite Hfirst, Hlast. reflexivity.
Qed.

Lemma last_byte_ToLower (s : string) :
  last_byte (ToLower s) = option_map toLower (last_byte s).
Proof.
  induction s as [| c s IH]; [reflexivity |].
  destruct s as [| c' s']; [reflexivity |].
  cbn [ToLower last_byte] in *. exact IH.
Qed.

Lemma ToLower_trimmed (s : string) : trimmed (ToLower s) = trimmed s.
Proof.
  assert (Hf : first_byte (ToLower s) = option_map toLower (first_byte s))
    by (destruct s; reflexivity).
  unfold trimmed. rewrite Hf, last_byte_ToLower.
  destruct (first_byte s), (last_byte s); cbn; rewrite ?isSpace_toLower;
    reflexivity.
Qed.

Lemma TrimRight_fixed (s : string) :
  match last_byte s with
  | Some c => isSpace c = false
  | None => True
  end -> TrimRight s = s.
Proof.
  induction s as [| c s IH]; [reflexivity |].
  destruct s as [| c' s'].
  - cbn. intros Hc. rewrite Hc. reflexivity.
  - intros H.
    assert (E : TrimRight (String c' s') = String c' s') by (apply IH; exact H).
    change (TrimRight (String c (String c' s')))
      with (match TrimRight (String c' s') with
            | EmptyString =>
                if isSpace c then EmptyString else String c EmptyString
            | String k kept => String c (String k kept)
            end).
    rewrite E. reflexivity.
Qed.

Lemma TrimSpace_fixed (s : string) : trimmed s = true -> TrimSpace s = s.
Proof.
  unfold trimmed, TrimSpace. destruct s as [| c s]; [reflexivity |].
  cbn [first_byte].
  destruct (last_byte (String c s)) as [b |] eqn:Hlast.
  - intros H. apply andb_prop in H as [Hc Hb].
    apply negb_true_iff in Hc, Hb. cbn [TrimLeft]. rewrite Hc.
    apply TrimRight_fixed. rewrite Hlast. exact Hb.
  - exfalso. revert c Hlast. induction s as [| c' s IH]; intros c H.
    + discriminate.
    + cbn [last_byte] in H. exact (IH c' H).
Qed.

Lemma command_normal_form (o : FilePolled.OpenResult) :
  let command := fst (FilePolled.readCommandFromFile o) in
  none_of isUpper command = true
  /\ trimmed command = true
  /\ ToLower command = command
  /\ TrimSpace command = command
  /\ (snd (FilePolled.readCommandFromFile o) <> None -> command = "").
Proof.
  intros command. subst command.
  assert (Hcase : none_of isUpper (fst (FilePolled.readCommandFromFile o))
                  = true
                  /\ trimmed (fst (FilePolled.readCommandFromFile o)) = true
                  /\ (snd (FilePolled.readCommandFromFile o) <> None ->
                      fst (FilePolled.readCommandFromFile o) = "")).
  { destruct o as [| e | content read_err];
      cbn [FilePolled.readCommandFromFile fst snd];
      [repeat split | repeat split |].
    destruct (Scan content read_err) as [text | e]; cbn [fst snd].
    - split; [apply ToLower_no_upper |].
      split; [rewrite ToLower_trimmed; apply TrimSpace_trimmed |].
      intros H. exfalso. apply H. reflexivity.
    - repeat split. }
  destruct Hcase as [Hu [Ht He]].
  repeat split; try assumption.
  - apply ToLower_fixed. exact Hu.
  - apply TrimSpace_fixed. exact Ht.
Qed.

(** X15. Whatever the command file holds, the command read from it is
    in normal form: lowercasing it or trimming it again changes
    nothing, so it has no ASCII upper-case letter and neither starts
    nor ends with white space.  A missing file and an empty file give
    the empty command without an error, and whenever an error is
    returned the command is empty.  The first and the third program of
    oblivion-helper.go read the same way. *)
Theorem command_read_is_normalised (o : FilePolled.OpenResult) :
  let command := fst (FilePolled.readCommandFromFile o) in
  let err := snd (FilePolled.readCommandFromFile o) in
  ToLower command = command
  /\ TrimSpace command = command
  /\ none_of isUpper command = true
  /\ trimmed command = true
  /\ (err <> None -> command = "")
  /\ FilePolled.readCommandFromFile FilePolled.OpenMissing = ("", None)
  /\ (forall read_err,
        FilePolled.readCommandFromFile (FilePolled.Opened "" read_err)
        = ("", read_err))
  /\ FileSimple.readCommandFromFile o = FilePolled.readCommandFromFile o.
Proof.
  intros command err. subst command err.
  destruct (command_normal_form o) as [Hu [Ht [Hl [Hs He]]]].
  repeat split; assumption.
Qed.

End CommandText.

(** ** Polling the command file and serving the commands *)

Section Polling.

Lemma watch_tick_again (lastModTime : Time) (t : FilePolled.Tick) :
  let '(last1, sent1, logs1) := FilePolled.watch_tick lastModTime t in
  match sent1 with
  | Some _ => FilePolled.watch_tick last1 t = (last1, None, [])
  | None => last1 = lastModTime
  end.
Proof.
  unfold FilePolled.watch_tick.
  destruct (FilePolled.stat t) as [| e | modTime]; try reflexivity.
  destruct (After modTime lastModTime) eqn:Hafter; [| reflexivity].
  destruct (FilePolled.readCommandFromFile (FilePolled.opened t))
    as [command err].
  destruct (negb (not_nil err) && negb (String.eqb command "")) eqn:Hok;
    [| reflexivity].
  unfold After. rewrite Z.ltb_irrefl. reflexivity.
Qed.

Lemma watch_nothing_more (t : FilePolled.Tick) (n : nat) :
  forall lastModTime,
    snd (fst (FilePolled.watch_tick lastModTime t)) = None ->
    fst (FilePolled.watchCommandFile lastModTime (repeat t n)) = [].
Proof.
  induction n as [| n IH]; intros lastModTime Hnone; [reflexivity |].
  cbn [repeat FilePolled.watchCommandFile].
  pose proof (watch_tick_again lastModTime t) as Hagain.
  specialize (IH lastModTime Hnone).
  destruct (FilePolled.watch_tick lastModTime t) as [[last1 sent1] logs1].
  cbn in Hnone. subst sent1 last1.
  destruct (FilePolled.watchCommandFile lastModTime (repeat t n))
    as [cmds logs].
  exact IH.
Qed.

(** X16. A command file that stays as it is, same modification time and
    same content, is acted on at most once however often it is polled:
    over any number of ticks that see it, the watcher sends exactly what
    the first tick sends, one command or none. *)
Theorem unchanged_file_sends_once
    (lastModTime : Time) (t : FilePolled.Tick) (n : nat) :
  fst (FilePolled.watchCommandFile lastModTime (repeat t (S n)))
  = match snd (fst (FilePolled.watch_tick lastModTime t)) with
    | Some command => [command]
    | None => []
    end.
Proof.
  cbn [repeat FilePolled.watchCommandFile].
  pose proof (watch_tick_again lastModTime t) as Hagain.
  pose proof (watch_nothing_more t n) as Hmore.
  destruct (FilePolled.watch_tick lastModTime t) as [[last1 sent1] logs1]
    eqn:Htick.
  destruct sent1 as [command |]; cbn [fst snd].
  - specialize (Hmore last1). rewrite Hagain in Hmore.
    specialize (Hmore eq_refl).
    destruct (FilePolled.watchCommandFile last1 (repeat t n)) as [cmds logs].
    cbn in *. rewrite Hmore. reflexivity.
  - subst last1. specialize (Hmore lastModTime). rewrite Htick in Hmore.
    specialize (Hmore eq_refl).
    destruct (FilePolled.watchCommandFile lastModTime (repeat t n))
      as [cmds logs].
    cbn in *. exact Hmore.
Qed.

(** X17. In the first and in the third program of oblivion-helper.go, a
    start whose spawn fails leaves the handle set to the command that
    did not start, its [Process] nil.  From then on a start is refused
    as already running, without spawning, and a stop dereferences the
    nil [Process]: the program panics. *)
Theorem failed_spawn_poisons_handle
    (env1 env2 : FilePolled.Env) (d : ConfigDoc) (err : error)
    (m1 : FilePolled.SingBoxManager)
    (sp : SpawnResult) (senv : FileSimple.CmdEnv)
    (m3 : FileSimple.SingBoxManager)
    (Hm1 : FilePolled.singBoxProcess m1 = None)
    (Hcfg : FilePolled.read_config env1 = ReadOk (Decodes d None))
    (Hsp : FilePolled.spawn env1 = SpawnErr err)
    (Hm3 : FileSimple.singBoxProcess m3 = None) :
  let a1 := state_of (FilePolled.processCommand env1 "start" m1) in
  let a3 := state_of (FileSimple.startSingBox (SpawnErr err) m3) in
  ((exists cmd, FilePolled.singBoxProcess a1 = Some cmd /\ Process cmd = None)
   /\ result_of (FilePolled.processCommand env2 "stop" a1)
      = FilePolled.Panicked
   /\ state_of (FilePolled.processCommand env2 "start" a1) = a1
   /\ spawned_ok (trace_of (FilePolled.processCommand env2 "start" a1)) = 0)
  /\
  ((exists cmd, FileSimple.singBoxProcess a3 = Some cmd /\ Process cmd = None)
   /\ result_of (FileSimple.processCommand senv "stop" a3)
      = FilePolled.Panicked
   /\ FileSimple.startSingBox sp a3
      = (tt, a3, [Log "Sing-Box is already running."])).
Proof.
  intros a1 a3. subst a1 a3.
  destruct m1 as [c cf cmf p dir], m3 as [cmf3 cf3 bf3 p3].
  cbn in Hm1, Hm3. subst p p3. split.
  - unfold FilePolled.processCommand, FilePolled.startSingBox,
      FilePolled.stopSingBox, FilePolled.loadConfig. run_body. cbn.
    rewrite Hcfg. cbn. rewrite Hsp. cbn. repeat split.
    eexists. split; reflexivity.
  - unfold FileSimple.processCommand, FileSimple.startSingBox,
      FileSimple.stopSingBox. run_body. cbn. repeat split.
    eexists. split; reflexivity.
Qed.

Lemma failed_spawn_poisons_handle_witness :
  let env := FilePolled.mkEnv "linux" sample_doc
               (SpawnErr (errorString "permission denied")) None
               (fun _ => ProbeAnswer false) (inr "{}") None in
  let a1 := state_of (FilePolled.processCommand env "start"
                        (FilePolled.newManager "/opt")) in
  result_of (FilePolled.processCommand quiet_env "stop" a1)
  = FilePolled.Panicked.
Proof.
  intros env a1.
  destruct (failed_spawn_poisons_handle env quiet_env
              (mkDoc (Some "sb.json") (Some "sing-box") None None None None)
              (errorString "permission denied")
              (FilePolled.newManager "/opt") (SpawnOk 1)
              (FileSimple.mkCmdEnv (SpawnOk 1)
                 (FileTimed.mkStopEnv "linux" None NeverExits None))
              (FileSimple.newManager "/opt" "linux")
              eq_refl eq_refl eq_refl eq_refl) as [[_ [H _]] _].
  exact H.
Defined.

#[local] Arguments FilePolled.shouldKillWarpPlus : simpl never.
#[local] Arguments FilePolled.killWarpPlus : simpl never.
#[local] Arguments FilePolled.isProcessRunning : simpl never.
#[local] Arguments FilePolled.stopSingBox : simpl never.
#[local] Arguments FilePolled.handleExit : simpl never.

Lemma last_app_exit (t l : list Event) :
  last l (Log "") = OsExit 0 -> last (t ++ l) (Log "") = OsExit 0.
Proof.
  intros Hl. destruct l as [| y l]; [discriminate |].
  induction t as [| x t IH]; [exact Hl |].
  cbn [app]. destruct (t ++ y :: l) as [| z w] eqn:E.
  - destruct t; discriminate.
  - exact IH.
Qed.

Lemma handleExit_ends (env : FilePolled.Env) (m : FilePolled.SingBoxManager) :
  result_of (FilePolled.handleExit env m) = FilePolled.Panicked
  \/ (result_of (FilePolled.handleExit env m) = FilePolled.Exited 0
      /\ last (trace_of (FilePolled.handleExit env m)) (Log "") = OsExit 0).
Proof.
  unfold FilePolled.handleExit. run_body. cbn.
  destruct (FilePolled.isProcessRunning env
              (FilePolled.SbBin (FilePolled.config m)) m) as [[up m1] t1].
  assert (Hrest : forall m2,
    let r := (let '(wp, s1, ta) := FilePolled.shouldKillWarpPlus env m2 in
              let '(b, s2, tb) :=
                let '(_, s3, tc) :=
                  (if wp then FilePolled.killWarpPlus env
                   else fun s => (tt, s, [])) s1 in
                (FilePolled.Exited 0, s3,
                 tc ++ [FilePolled.logMessage FilePolled.InfoLevel
                          "handleExit" "Exiting helper"; OsExit 0]) in
              (b, s2, ta ++ tb)) in
    fst (fst r) = FilePolled.Exited 0
    /\ last (snd r) (Log "") = OsExit 0).
  { intros m2. cbn.
    destruct (FilePolled.shouldKillWarpPlus env m2) as [[wp s1] ta].
    destruct wp; [destruct (FilePolled.killWarpPlus env s1) as [[u s3] tc] |];
      cbn; (split; [reflexivity |]); repeat apply last_app_exit;
      reflexivity. }
  destruct up; cbn.
  - destruct (FilePolled.stopSingBox env m1) as [[r m2] t2].
    destruct r; cbn; [right | right | left; reflexivity];
      specialize (Hrest m2); cbn in Hrest;
      destruct (FilePolled.shouldKillWarpPlus env m2) as [[wp s1] ta];
      (destruct wp;
       [destruct (FilePolled.killWarpPlus env s1) as [[u s3] tc] |]);
      cbn in *; (split; [reflexivity |]); repeat apply last_app_exit;
      reflexivity.
  - right. specialize (Hrest m1). cbn in Hrest.
    destruct (FilePolled.shouldKillWarpPlus env m1) as [[wp s1] ta].
    (destruct wp;
     [destruct (FilePolled.killWarpPlus env s1) as [[u s3] tc] |]);
      cbn in *; (split; [reflexivity |]); repeat apply last_app_exit;
      reflexivity.
Qed.

Lemma isProcessRunning_keeps (env : FilePolled.Env) (name : string)
    (m : FilePolled.SingBoxManager) :
  state_of (FilePolled.isProcessRunning env name m) = m.
Proof.
  unfold FilePolled.isProcessRunning. run_body.
  destruct (String.eqb (FilePolled.GOOS env) "windows");
    [| destruct (String.eqb (FilePolled.GOOS env) "darwin"
                 || String.eqb (FilePolled.GOOS env) "linux")];
    try destruct (FilePolled.probe env name) as [e | found];
    reflexivity.
Qed.

(** [handleExit], call by call. *)
Lemma handleExit_steps (env : FilePolled.Env) (m : FilePolled.SingBoxManager) :
  let probe := FilePolled.isProcessRunning env
                 (FilePolled.SbBin (FilePolled.config m)) m in
  let stop := if result_of probe
              then FilePolled.stopSingBox env (state_of probe)
              else (Nil, state_of probe, []) in
  let ask := FilePolled.shouldKillWarpPlus env (state_of stop) in
  let kill := if result_of ask
              then FilePolled.killWarpPlus env (state_of ask)
              else (tt, state_of ask, []) in
  FilePolled.handleExit env m
  = match result_of stop with
    | NilDeref =>
        (FilePolled.Panicked, state_of stop, trace_of probe ++ trace_of stop)
    | _ =>
        (FilePolled.Exited 0, state_of kill,
         trace_of probe ++ trace_of stop ++ trace_of ask ++ trace_of kill
         ++ [FilePolled.logMessage FilePolled.InfoLevel "handleExit"
               "Exiting helper"; OsExit 0])
    end.
Proof.
  unfold FilePolled.handleExit. run_body. cbn.
  destruct (FilePolled.isProcessRunning env
              (FilePolled.SbBin (FilePolled.config m)) m) as [[up m1] t1].
  cbn. destruct up; cbn.
  - destruct (FilePolled.stopSingBox env m1) as [[r m2] t2]. cbn.
    destruct r; cbn; try (rewrite ?app_nil_r; reflexivity);
      destruct (FilePolled.shouldKillWarpPlus env m2) as [[wp m3] t3]; cbn;
      (destruct wp; cbn;
       [destruct (FilePolled.killWarpPlus env m3) as [[u m4] t4]; cbn |]);
      rewrite ?app_nil_r; reflexivity.
  - destruct (FilePolled.shouldKillWarpPlus env m1) as [[wp m3] t3]; cbn.
    destruct wp; cbn;
      [destruct (FilePolled.killWarpPlus env m3) as [[u m4] t4]; cbn |];
      rewrite ?app_nil_r; reflexivity.
Qed.


(** X18. The exit command ends the command loop of the first program:
    the commands that follow it are never processed, whatever they are,
    and the program does not go on after it.  Before it exits,
    [handleExit] asks whether Sing-Box is running and, if it is, runs
    [stopSingBox], which for a manager that owns a started process
    begins with [Process.Kill()] on it; then it asks
    [shouldKillWarpPlus] and, if that says so, runs [killWarpPlus];
    then it logs Exiting helper and calls [os.Exit(0)], the last thing
    done: the trace of the command is these calls in this order, and
    the manager is the one they leave.  A stop that dereferences the
    nil [Process] of a handle that never started ends the program
    there instead, before any exit. *)
Theorem exit_ends_the_loop
    (env : FilePolled.Env) (rest : list (string * FilePolled.Env))
    (m : FilePolled.SingBoxManager) :
  let probe := FilePolled.isProcessRunning env
                 (FilePolled.SbBin (FilePolled.config m)) m in
  let stop := if result_of probe
              then FilePolled.stopSingBox env (state_of probe)
              else (Nil, state_of probe, []) in
  let ask := FilePolled.shouldKillWarpPlus env (state_of stop) in
  let kill := if result_of ask
              then FilePolled.killWarpPlus env (state_of ask)
              else (tt, state_of ask, []) in
  FilePolled.serve (("exit", env) :: rest) m
  = FilePolled.processCommand env "exit" m
  /\ result_of (FilePolled.processCommand env "exit" m) <> FilePolled.Running
  /\ (forall code,
        result_of (FilePolled.processCommand env "exit" m)
        = FilePolled.Exited code ->
        code = 0%Z
        /\ last (trace_of (FilePolled.processCommand env "exit" m)) (Log "")
           = OsExit 0)
  /\ (result_of stop <> NilDeref ->
      FilePolled.processCommand env "exit" m
      = (FilePolled.Exited 0, state_of kill,
         FilePolled.logMessage FilePolled.InfoLevel "processCommand"
           "Processing command: exit"
         :: trace_of probe ++ trace_of stop ++ trace_of ask ++ trace_of kill
            ++ [FilePolled.logMessage FilePolled.InfoLevel "handleExit"
                  "Exiting helper"; OsExit 0]))
  /\ (result_of stop = NilDeref ->
      FilePolled.processCommand env "exit" m
      = (FilePolled.Panicked, state_of stop,
         FilePolled.logMessage FilePolled.InfoLevel "processCommand"
           "Processing command: exit"
         :: trace_of probe ++ trace_of stop))
  /\ (forall cmd pid,
        result_of probe = true ->
        FilePolled.singBoxProcess m = Some cmd -> Process cmd = Some pid ->
        result_of stop = Nil
        /\ hd_error (trace_of stop) = Some (Kill pid)
        /\ kills (trace_of stop) = 1)
  /\ (result_of probe = false -> stop = (Nil, m, [])).
Proof.
  intros probe stop ask kill.
  pose proof (handleExit_ends env m) as Hends.
  pose proof (handleExit_steps env m) as Hsteps.
  pose proof (isProcessRunning_keeps env
                (FilePolled.SbBin (FilePolled.config m)) m) as Hkeep.
  cbv zeta in Hsteps. fold probe in Hsteps, Hkeep. fold stop in Hsteps.
  fold ask in Hsteps. fold kill in Hsteps.
  assert (Hp : FilePolled.processCommand env "exit" m
               = (result_of (FilePolled.handleExit env m),
                  state_of (FilePolled.handleExit env m),
                  [FilePolled.logMessage FilePolled.InfoLevel "processCommand"
                     "Processing command: exit"]
                  ++ trace_of (FilePolled.handleExit env m))).
  { unfold FilePolled.processCommand. run_body.
    change (String.eqb "exit" "start") with false.
    change (String.eqb "exit" "stop") with false.
    change (String.eqb "exit" "exit") with true. cbn iota.
    destruct (FilePolled.handleExit env m) as [[f m'] t]. reflexivity. }
  split; [| split; [| split; [| split; [| split; [| split]]]]].
  - cbn [FilePolled.serve]. unfold bind at 1. rewrite Hp.
    destruct Hends as [Hpanic | [Hexit _]].
    + rewrite Hpanic. cbn. rewrite ?app_nil_r. reflexivity.
    + rewrite Hexit. cbn. rewrite ?app_nil_r. reflexivity.
  - rewrite Hp. unfold result_of at 1. cbn [fst].
    destruct Hends as [Hpanic | [Hexit _]];
      [rewrite Hpanic | rewrite Hexit]; discriminate.
  - intros code. rewrite Hp. unfold result_of at 1, trace_of at 1.
    cbn [fst snd].
    destruct Hends as [Hpanic | [Hexit Hlast]].
    + rewrite Hpanic. discriminate.
    + rewrite Hexit. intros H. inversion H. split; [reflexivity |].
      apply last_app_exit. exact Hlast.
  - intros Hok. rewrite Hp, Hsteps.
    destruct (result_of stop); [reflexivity | reflexivity |].
    exfalso. apply Hok. reflexivity.
  - intros Hnil. rewrite Hp, Hsteps, Hnil. reflexivity.
  - intros cmd pid Hup Hcmd Hpid. subst stop. rewrite Hup, Hkeep.
    destruct m as [c cf cmf p dir], cmd as [path args pr].
    cbn in Hcmd, Hpid. subst p pr.
    unfold FilePolled.stopSingBox. run_body. cbn.
    destruct (FilePolled.kill env); repeat split.
  - intros Hdown. subst stop. rewrite Hdown, Hkeep. reflexivity.
Qed.

End Polling.

(** ** Watching a process by name *)

Section Watchers.

Lemma isProcessRunning_pure (env : FilePolled.Env) (name : string)
    (m m' : FilePolled.SingBoxManager) :
  state_of (FilePolled.isProcessRunning env name m) = m
  /\ result_of (FilePolled.isProcessRunning env name m')
     = result_of (FilePolled.isProcessRunning env name m)
  /\ (result_of (FilePolled.isProcessRunning env name m) = true ->
      trace_of (FilePolled.isProcessRunning env name m) = []).
Proof.
  unfold FilePolled.isProcessRunning. run_body.
  destruct (String.eqb (FilePolled.GOOS env) "windows");
    [| destruct (String.eqb (FilePolled.GOOS env) "darwin"
                 || String.eqb (FilePolled.GOOS env) "linux")];
    try destruct (FilePolled.probe env name) as [e | found];
    cbn; repeat split; try discriminate.
Qed.

(** X19. [monitorProcess] of the first program calls its callback at
    the first tick that finds the named process absent, once, and then
    returns: the ticks after it are not looked at.  While every tick
    finds the process it calls nothing and changes nothing.  On a
    target that is neither windows, darwin nor linux the process is
    never found, so the callback runs at the very first tick. *)
Theorem monitor_fires_at_first_absence
    (A : Type) (ups : list FilePolled.Env) (down : FilePolled.Env)
    (rest : list FilePolled.Env) (name : string)
    (callback : FilePolled.Env -> M FilePolled.SingBoxManager A)
    (m : FilePolled.SingBoxManager)
    (Hups : Forall (fun env =>
                      result_of (FilePolled.isProcessRunning env name m)
                      = true) ups)
    (Hdown : result_of (FilePolled.isProcessRunning down name m) = false) :
  FilePolled.monitorProcess ups name callback m = (None, m, [])
  /\ FilePolled.monitorProcess (ups ++ down :: rest) name callback m
     = (Some (result_of (callback down m)), state_of (callback down m),
        trace_of (FilePolled.isProcessRunning down name m)
        ++ trace_of (callback down m))
  /\ (forall env,
        String.eqb (FilePolled.GOOS env) "windows"
        || String.eqb (FilePolled.GOOS env) "darwin"
        || String.eqb (FilePolled.GOOS env) "linux" = false ->
        result_of (FilePolled.isProcessRunning env name m) = false).
Proof.
  split; [| split].
  - induction ups as [| env ups IH]; [reflexivity |].
    inversion Hups as [| e l Henv Hl]; subst.
    destruct (isProcessRunning_pure env name m m) as [Hs [_ Ht]].
    specialize (Ht Henv). cbn [FilePolled.monitorProcess].
    unfold bind at 1.
    unfold result_of, state_of, trace_of in *.
    destruct (FilePolled.isProcessRunning env name m) as [[up m1] t1].
    cbn in *. subst up m1 t1. cbn. rewrite (IH Hl). reflexivity.
  - induction ups as [| env ups IH].
    + cbn [app FilePolled.monitorProcess].
      destruct (isProcessRunning_pure down name m m) as [Hs _].
      unfold result_of, state_of, trace_of, bind in *.
      destruct (FilePolled.isProcessRunning down name m) as [[up m1] t1].
      cbn in *. subst up m1. cbn.
      destruct (callback down m) as [[a m2] t2]. cbn.
      rewrite ?app_nil_r. reflexivity.
    + inversion Hups as [| e l Henv Hl]; subst.
      destruct (isProcessRunning_pure env name m m) as [Hs [_ Ht]].
      specialize (Ht Henv). cbn [app FilePolled.monitorProcess].
      unfold bind at 1.
      unfold result_of, state_of, trace_of in *.
      destruct (FilePolled.isProcessRunning env name m) as [[up m1] t1].
      cbn in *. subst up m1 t1. cbn. rewrite (IH Hl).
      destruct (callback down m) as [[a m2] t2]. cbn.
      rewrite ?app_nil_r. reflexivity.
  - intros env Hos. apply orb_false_elim in Hos as [Hos Hl].
    apply orb_false_elim in Hos as [Hw Hd].
    unfold FilePolled.isProcessRunning. run_body.
    rewrite Hw, Hd, Hl. reflexivity.
Qed.

Lemma monitor_fires_at_first_absence_witness :
  let up := FilePolled.mkEnv "linux" sample_doc (SpawnOk 77) None
              (fun _ => ProbeAnswer true) (inr "{}") None in
  let m := FilePolled.set_singBoxProcess
             (Some (mkCmd "/opt/sing-box" ["/opt/sing-box"] (Some 77)))
             (FilePolled.newManager "/opt") in
  FilePolled.monitorProcess [up; up; quiet_env; up] "sing-box"
    FilePolled.monitorSingBox m
  = (Some tt, FilePolled.set_singBoxProcess None m, []).
Proof.
  intros up m.
  assert (Hups : Forall (fun env =>
                           result_of (FilePolled.isProcessRunning env
                                        "sing-box" m) = true) [up; up])
    by (repeat constructor).
  destruct (monitor_fires_at_first_absence unit [up; up] quiet_env [up]
              "sing-box" FilePolled.monitorSingBox m Hups eq_refl)
    as [_ [H _]].
  exact H.
Defined.

(** X20. The main loop of the third program of oblivion-helper.go
    processes a received command only when it differs from the command
    received just before it: the loop does what processing the
    commands with their repeats skipped does, starting from the empty
    command.  So a command that stays in the polled file is processed
    once, and the same command sent twice in a row acts once. *)
Theorem main_loop_skips_repeated_commands
    (commands : list (string * FileSimple.CmdEnv)) (lastCommand : string)
    (m : FileSimple.SingBoxManager) (command : string)
    (env : FileSimple.CmdEnv) (n : nat) :
  FileSimple.main_loop lastCommand commands m
  = process_each (fresh_commands lastCommand commands) m
  /\ map fst (fresh_commands lastCommand commands)
     = skip_repeats lastCommand (map fst commands)
  /\ FileSimple.main_loop lastCommand (repeat (command, env) (S n) ++ commands)
       m
     = FileSimple.main_loop lastCommand ((command, env) :: commands) m.
Proof.
  assert (Hloop : forall cmds last m0,
             FileSimple.main_loop last cmds m0
             = process_each (fresh_commands last cmds) m0).
  { induction cmds as [| [c e] cmds IH]; intros last m0; [reflexivity |].
    cbn [FileSimple.main_loop fresh_commands].
    destruct (String.eqb c last); cbn [negb]; [apply IH |].
    cbn [process_each]. unfold bind.
    destruct (FileSimple.processCommand e c m0) as [[f m1] t1].
    destruct f; try reflexivity. rewrite IH. reflexivity. }
  split; [apply Hloop | split].
  - revert lastCommand. induction commands as [| [c e] cmds IH];
      intros last; [reflexivity |].
    cbn [fresh_commands map fst skip_repeats].
    destruct (String.eqb c last); [apply IH |].
    cbn [map fst]. rewrite IH. reflexivity.
  - rewrite !Hloop. f_equal.
    cbn [repeat app fresh_commands].
    destruct (String.eqb command lastCommand) eqn:Hlast.
    + induction n as [| n IH]; [reflexivity |].
      cbn [repeat app fresh_commands]. rewrite Hlast. exact IH.
    + f_equal. induction n as [| n IH]; [reflexivity |].
      cbn [repeat app fresh_commands]. rewrite String.eqb_refl. exact IH.
Qed.

End Watchers.

(** ** Writing a command back *)

Section RoundTrip.

Lemma upto_LF_some (fuel : nat) :
  forall s line, upto_LF fuel s = Some line ->
                 none_of isLF line = true /\ String.length line < fuel.
Proof.
  induction fuel as [| fuel IH]; intros s line; [discriminate |].
  destruct s as [| c rest]; cbn [upto_LF]; [discriminate |].
  destruct (Ascii.eqb c LF) eqn:Hc.
  - intros H. inversion H. cbn. split; [reflexivity | lia].
  - destruct (upto_LF fuel rest) as [l |] eqn:Hrest; [| discriminate].
    intros H. inversion H. destruct (IH rest l Hrest) as [Hn Hl].
    cbn [none_of String.length]. unfold isLF at 1. rewrite Hc, Hn.
    split; [reflexivity | lia].
Qed.

Lemma upto_LF_without (fuel : nat) :
  forall s, upto_LF fuel s = None -> String.length s < fuel ->
            none_of isLF s = true.
Proof.
  induction fuel as [| fuel IH]; intros s Hnone Hlen; [lia |].
  destruct s as [| c rest]; [reflexivity |].
  cbn [upto_LF String.length none_of] in *.
  unfold isLF at 1. destruct (Ascii.eqb c LF); [discriminate |].
  destruct (upto_LF fuel rest) eqn:Hrest; [discriminate |].
  rewrite (IH rest Hrest); [reflexivity | lia].
Qed.

Lemma upto_LF_of_line (fuel : nat) :
  forall s, none_of isLF s = true -> upto_LF fuel s = None.
Proof.
  induction fuel as [| fuel IH]; intros s Hs; [reflexivity |].
  destruct s as [| c rest]; [reflexivity |].
  cbn [upto_LF none_of] in *. apply andb_prop in Hs as [Hc Hrest].
  unfold isLF in Hc. apply negb_true_iff in Hc. rewrite Hc.
  rewrite (IH rest Hrest). reflexivity.
Qed.

Lemma dropCR_keeps (p : ascii -> bool) (s : string) :
  none_of p s = true ->
  none_of p (dropCR s) = true /\ String.length (dropCR s) <= String.length s.
Proof.
  induction s as [| c s IH]; [intros _; split; [reflexivity | cbn; lia] |].
  intros H. cbn [none_of] in H. apply andb_prop in H as [Hc Hs].
  destruct s as [| c' s'].
  - cbn [dropCR]. destruct (Ascii.eqb c CR); cbn [none_of String.length];
      [split; [reflexivity | lia] |].
    rewrite Hc. split; [reflexivity | lia].
  - destruct (IH Hs) as [Hn Hl].
    change (dropCR (String c (String c' s')))
      with (String c (dropCR (String c' s'))).
    cbn [none_of String.length] in *. rewrite Hc, Hn.
    split; [reflexivity | lia].
Qed.

Lemma TrimLeft_keeps (p : ascii -> bool) (s : string) :
  none_of p s = true ->
  none_of p (TrimLeft s) = true
  /\ String.length (TrimLeft s) <= String.length s.
Proof.
  induction s as [| c s IH]; [intros _; split; [reflexivity | cbn; lia] |].
  intros H. cbn [TrimLeft]. destruct (isSpace c).
  - cbn [none_of] in H. apply andb_prop in H as [_ Hs].
    destruct (IH Hs) as [Hn Hl]. cbn [String.length]. split; [exact Hn | lia].
  - split; [exact H | lia].
Qed.

Lemma TrimRight_keeps (p : ascii -> bool) (s : string) :
  none_of p s = true ->
  none_of p (TrimRight s) = true
  /\ String.length (TrimRight s) <= String.length s.
Proof.
  induction s as [| c s IH]; [intros _; split; [reflexivity | cbn; lia] |].
  intros H. cbn [none_of] in H. apply andb_prop in H as [Hc Hs].
  destruct (IH Hs) as [Hn Hl]. cbn [TrimRight].
  destruct (TrimRight s) as [| k kept].
  - destruct (isSpace c); cbn; [split; [reflexivity | lia] |].
    rewrite Hc. split; [reflexivity | lia].
  - cbn [none_of String.length] in *. rewrite Hc, Hn.
    split; [reflexivity | lia].
Qed.

Lemma isLF_toLower (c : ascii) : isLF (toLower c) = isLF c.
Proof. destruct c as [[] [] [] [] [] [] [] []]; reflexivity. Qed.

Lemma ToLower_keeps (s : string) :
  none_of isLF (ToLower s) = none_of isLF s
  /\ String.length (ToLower s) = String.length s.
Proof.
  induction s as [| c s [IHn IHl]]; [split; reflexivity |].
  cbn [ToLower none_of String.length]. rewrite isLF_toLower, IHn, IHl.
  split; reflexivity.
Qed.

Lemma dropCR_fixed (s : string) :
  match last_byte s with
  | Some c => isSpace c = false
  | None => True
  end -> dropCR s = s.
Proof.
  induction s as [| c s IH]; [reflexivity |].
  destruct s as [| c' s'].
  - cbn [last_byte dropCR]. intros Hc.
    destruct (Ascii.eqb_spec c CR) as [Heq | Hne];
      [subst c; discriminate Hc | reflexivity].
  - intros H.
    change (dropCR (String c (String c' s')))
      with (String c (dropCR (String c' s'))).
    rewrite (IH H). reflexivity.
Qed.

Lemma trimmed_last (s : string) :
  trimmed s = true ->
  match last_byte s with
  | Some c => isSpace c = false
  | None => True
  end.
Proof.
  unfold trimmed. destruct (first_byte s) as [a |] eqn:Hf.
  - destruct (last_byte s) as [b |]; [| intros _; exact I].
    intros H. apply andb_prop in H as [_ Hb].
    apply negb_true_iff in Hb. exact Hb.
  - destruct s; [intros _; exact I | discriminate].
Qed.

Lemma MaxScanTokenSize_pos : 0 < MaxScanTokenSize.
Proof. apply Nat.ltb_lt. vm_compute. reflexivity. Qed.

Lemma Scan_token_bounds (content : string) (read_err : option error)
    (text : string) :
  Scan content read_err = Token text ->
  none_of isLF text = true /\ String.length text < MaxScanTokenSize.
Proof.
  unfold Scan.
  destruct (upto_LF MaxScanTokenSize content) as [line |] eqn:Hline.
  - intros H. inversion H; subst text.
    destruct (upto_LF_some _ _ _ Hline) as [Hn Hl].
    destruct (dropCR_keeps isLF line Hn) as [Hn' Hl']. split; [exact Hn' | lia].
  - destruct (Nat.leb_spec MaxScanTokenSize (String.length content))
      as [Hlong | Hshort]; [discriminate |].
    destruct content as [| c rest]; [discriminate |].
    intros H. inversion H; subst text.
    pose proof (upto_LF_without _ _ Hline Hshort) as Hn.
    destruct (dropCR_keeps isLF _ Hn) as [Hn' Hl']. split; [exact Hn' |].
    exact (Nat.le_lt_trans _ _ _ Hl' Hshort).
Qed.

Lemma command_bounds (text : string) :
  none_of isLF text = true ->
  none_of isLF (ToLower (TrimSpace text)) = true
  /\ String.length (ToLower (TrimSpace text)) <= String.length text.
Proof.
  intros Hn. unfold TrimSpace.
  destruct (TrimLeft_keeps isLF text Hn) as [H1 L1].
  destruct (TrimRight_keeps isLF _ H1) as [H2 L2].
  destruct (ToLower_keeps (TrimRight (TrimLeft text))) as [H3 L3].
  rewrite H3, L3. split; [exact H2 | lia].
Qed.

(** X21. A command read from the command file, written back as the
    whole content of the file, is read as itself, without an error:
    reading normalises once and for all.  This holds for whatever the
    file held at first, also when reading it failed. *)
Theorem command_written_back_reads_the_same (o : FilePolled.OpenResult) :
  let command := fst (FilePolled.readCommandFromFile o) in
  FilePolled.readCommandFromFile (FilePolled.Opened command None)
  = (command, None).
Proof.
  intros command.
  destruct (command_normal_form o) as [_ [Ht [Hlow [Htrim _]]]].
  fold command in Hlow, Htrim, Ht.
  assert (Hb : none_of isLF command = true
               /\ String.length command < MaxScanTokenSize).
  { subst command.
    destruct o as [| e | content read_err];
      cbn [FilePolled.readCommandFromFile fst];
      [split; [reflexivity | exact MaxScanTokenSize_pos]
      | split; [reflexivity | exact MaxScanTokenSize_pos] |].
    destruct (Scan content read_err) as [text | e] eqn:Hscan; cbn [fst];
      [| split; [reflexivity | exact MaxScanTokenSize_pos]].
    destruct (Scan_token_bounds _ _ _ Hscan) as [Hn Hl].
    destruct (command_bounds text Hn) as [Hn' Hl'].
    split; [exact Hn' | lia]. }
  destruct Hb as [Hn Hl].
  cbn [FilePolled.readCommandFromFile]. unfold Scan.
  rewrite (upto_LF_of_line _ _ Hn).
  destruct (Nat.leb_spec MaxScanTokenSize (String.length command))
    as [Hlong | _]; [lia |].
  destruct command as [| c rest] eqn:Hc; [reflexivity |].
  rewrite <- Hc in *.
  rewrite (dropCR_fixed command (trimmed_last command Ht)).
  rewrite Htrim, Hlow. reflexivity.
Qed.

End RoundTrip.

(** ** What the command file watcher accepts *)

Section CommandFileProtocol.

Lemma upto_LF_whole_line (fuel : nat) :
  forall s, upto_LF fuel s = None -> String.length (first_line s) < fuel ->
            first_line s = s.
Proof.
  induction fuel as [| fuel IH]; intros s Hnone Hlen; [lia |].
  destruct s as [| c rest]; [reflexivity |].
  cbn [upto_LF first_line String.length] in *.
  destruct (Ascii.eqb c LF); [discriminate |].
  destruct (upto_LF fuel rest) eqn:Hrest; [discriminate |].
  cbn [String.length] in Hlen.
  rewrite (IH rest Hrest); [reflexivity | lia].
Qed.

(** A first line shorter than the scanner's buffer is the token of the
    first [Scan()], whatever the reader reports at its end. *)
Lemma Scan_short_first_line (content : string) (read_err : option error) :
  content <> "" ->
  String.length (first_line content) < MaxScanTokenSize ->
  Scan content read_err = Token (dropCR (first_line content)).
Proof.
  intros Hne Hlen. unfold Scan.
  destruct (upto_LF MaxScanTokenSize content) as [line |] eqn:Hline.
  - rewrite (upto_LF_first_line _ _ _ Hline). reflexivity.
  - rewrite (upto_LF_whole_line _ _ Hline Hlen) in Hlen |- *.
    destruct (Nat.leb_spec MaxScanTokenSize (String.length content))
      as [Hlong | Hshort].
    + exfalso. exact (Nat.lt_irrefl _ (Nat.lt_le_trans _ _ _ Hlen Hlong)).
    + destruct content as [| c rest]; [exfalso; apply Hne |]; reflexivity.
Qed.

Lemma first_line_keeps (p : ascii -> bool) (s : string) :
  none_of p s = true -> none_of p (first_line s) = true.
Proof.
  induction s as [| c s IH]; [intros _; reflexivity |].
  intros H. cbn [none_of] in H. apply andb_prop in H as [Hc Hs].
  cbn [first_line]. destruct (Ascii.eqb c LF); [reflexivity |].
  cbn [none_of]. rewrite Hc, (IH Hs). reflexivity.
Qed.

Lemma nonASCII_toLower (c : ascii) : nonASCII (toLower c) = nonASCII c.
Proof. destruct c as [[] [] [] [] [] [] [] []]; reflexivity. Qed.

Lemma ToLower_ascii (s : string) : isASCII (ToLower s) = isASCII s.
Proof.
  unfold isASCII. induction s as [| c s IH]; [reflexivity |].
  cbn [ToLower none_of]. rewrite nonASCII_toLower, IH. reflexivity.
Qed.

Lemma command_ascii (content : string) :
  isASCII content = true ->
  isASCII (ToLower (TrimSpace (dropCR (first_line content)))) = true.
Proof.
  unfold TrimSpace. intros H. rewrite ToLower_ascii.
  unfold isASCII in *.
  apply TrimRight_keeps, TrimLeft_keeps, dropCR_keeps, first_line_keeps.
  exact H.
Qed.

(** A tick that finds the file newer, with a first line that fits the
    scanner and is a command, sends it. *)
Lemma watch_tick_accepts
    (lastModTime modTime : Time) (t : FilePolled.Tick)
    (content : string) (read_err : option error) :
  FilePolled.stat t = FilePolled.StatInfo modTime ->
  (lastModTime < modTime)%Z ->
  FilePolled.opened t = FilePolled.Opened content read_err ->
  String.length (first_line content) < MaxScanTokenSize ->
  ToLower (TrimSpace (dropCR (first_line content))) <> "" ->
  FilePolled.watch_tick lastModTime t
  = (modTime, Some (ToLower (TrimSpace (dropCR (first_line content)))), []).
Proof.
  intros Hstat Hnew Hopen Hfits Hcmd.
  assert (Hne : content <> "").
  { intros E. subst content. apply Hcmd. reflexivity. }
  unfold FilePolled.watch_tick, FilePolled.readCommandFromFile, After.
  rewrite Hstat, Hopen.
  apply Z.ltb_lt in Hnew. rewrite Hnew.
  rewrite (Scan_short_first_line content read_err Hne Hfits).
  apply String.eqb_neq in Hcmd. rewrite Hcmd. reflexivity.
Qed.

Lemma watch_tick_not_newer
    (lastModTime modTime : Time) (t : FilePolled.Tick) :
  FilePolled.stat t = FilePolled.StatInfo modTime ->
  (modTime <= lastModTime)%Z ->
  FilePolled.watch_tick lastModTime t = (lastModTime, None, []).
Proof.
  intros Hstat Hold. unfold FilePolled.watch_tick, After. rewrite Hstat.
  apply Z.ltb_ge in Hold. rewrite Hold. reflexivity.
Qed.

(** C8.  For a command file that holds ASCII text, one tick of the
    watcher sends a command exactly as follows.  It sends only when the
    file's modification time is strictly after the modification time of
    the last accepted command, and never when it is not after it,
    whatever the file holds.  What it sends is the first line of the
    file (a final carriage return cut), trimmed and lowercased; it is
    not empty and it is ASCII.  It does send, that command and nothing
    logged, whenever the file is newer, opens, has a first line shorter
    than the scanner's buffer of 64 KiB, and that line trimmed is not
    empty.  The modification time of a command sent becomes the last
    accepted one, and a tick that sends nothing keeps the old one.  A
    command other than start, stop and exit is logged as unknown,
    leaves the manager as it is, and the command loop goes on with the
    commands that follow. *)
Theorem command_file_protocol
    (lastModTime : Time) (t : FilePolled.Tick) (env : FilePolled.Env)
    (m : FilePolled.SingBoxManager) (command : string)
    (rest : list (string * FilePolled.Env))
    (Hascii : ascii_file t = true) :
  (forall sent,
     snd (fst (FilePolled.watch_tick lastModTime t)) = Some sent ->
     exists modTime content read_err,
       FilePolled.stat t = FilePolled.StatInfo modTime
       /\ (lastModTime < modTime)%Z
       /\ FilePolled.opened t = FilePolled.Opened content read_err
       /\ sent = ToLower (TrimSpace (dropCR (first_line content)))
       /\ sent <> ""
       /\ isASCII sent = true
       /\ FilePolled.watch_tick lastModTime t = (modTime, Some sent, []))
  /\ (forall modTime content read_err,
        FilePolled.stat t = FilePolled.StatInfo modTime ->
        (lastModTime < modTime)%Z ->
        FilePolled.opened t = FilePolled.Opened content read_err ->
        String.length (first_line content) < MaxScanTokenSize ->
        ToLower (TrimSpace (dropCR (first_line content))) <> "" ->
        FilePolled.watch_tick lastModTime t
        = (modTime,
           Some (ToLower (TrimSpace (dropCR (first_line content)))), []))
  /\ (forall modTime,
        FilePolled.stat t = FilePolled.StatInfo modTime ->
        (modTime <= lastModTime)%Z ->
        FilePolled.watch_tick lastModTime t = (lastModTime, None, []))
  /\ (snd (fst (FilePolled.watch_tick lastModTime t)) = None ->
      fst (fst (FilePolled.watch_tick lastModTime t)) = lastModTime)
  /\ (command <> "start" -> command <> "stop" -> command <> "exit" ->
      FilePolled.processCommand env command m
      = (FilePolled.Running, m,
         [FilePolled.logMessage FilePolled.InfoLevel "processCommand"
            ("Processing command: " ++ command);
          FilePolled.logMessage FilePolled.WarningLevel "processCommand"
            ("Unknown command: " ++ command)])
      /\ FilePolled.serve ((command, env) :: rest) m
         = (result_of (FilePolled.serve rest m),
            state_of (FilePolled.serve rest m),
            [FilePolled.logMessage FilePolled.InfoLevel "processCommand"
               ("Processing command: " ++ command);
             FilePolled.logMessage FilePolled.WarningLevel "processCommand"
               ("Unknown command: " ++ command)]
            ++ trace_of (FilePolled.serve rest m))).
Proof.
  split; [| split; [| split; [| split]]].
  - intros sent Hsent.
    destruct (watch_tick_sent lastModTime t sent Hsent)
      as [modTime [content [read_err [Hstat [Hlt [Hopen [Hcmd [Hne Hmod]]]]]]]].
    exists modTime, content, read_err.
    repeat split; try assumption.
    + subst sent. apply command_ascii.
      unfold ascii_file in Hascii. rewrite Hopen in Hascii. exact Hascii.
    + revert Hsent Hmod. unfold FilePolled.watch_tick. rewrite Hstat.
      destruct (After modTime lastModTime); cbn; [| discriminate].
      destruct (FilePolled.readCommandFromFile (FilePolled.opened t))
        as [c e].
      destruct (negb (not_nil e) && negb (String.eqb c "")); cbn;
        [| discriminate].
      intros H _. inversion H. reflexivity.
  - intros modTime content read_err Hstat Hlt Hopen Hfits Hcmd.
    exact (watch_tick_accepts lastModTime modTime t content read_err
             Hstat Hlt Hopen Hfits Hcmd).
  - intros modTime. apply watch_tick_not_newer.
  - apply watch_tick_not_sent.
  - intros H1 H2 H3.
    pose proof (processCommand_unknown env command m H1 H2 H3) as Hp.
    split; [exact Hp |].
    cbn [FilePolled.serve]. unfold bind at 1. rewrite Hp.
    unfold result_of, state_of, trace_of.
    destruct (FilePolled.serve rest m) as [[f m'] t']. reflexivity.
Qed.

Lemma command_file_protocol_witness :
  let content := ("  StArT " ++ String CR (String LF "stop"))%string in
  let t := FilePolled.mkTick (FilePolled.StatInfo 11%Z)
             (FilePolled.Opened content None) in
  let m := FilePolled.newManager "/opt" in
  ascii_file t = true
  /\ ToLower (TrimSpace (dropCR (first_line content))) = "start"
  /\ FilePolled.watch_tick 10%Z t = (11%Z, Some "start", [])
  /\ FilePolled.watch_tick 11%Z t = (11%Z, None, [])
  /\ state_of (FilePolled.serve [("restart", quiet_env); ("bogus", quiet_env)]
                 m) = m
  /\ result_of (FilePolled.serve [("restart", quiet_env)] m)
     = FilePolled.Running.
Proof.
  intros content t m.
  assert (Hascii : ascii_file t = true) by reflexivity.
  destruct (command_file_protocol 10%Z t quiet_env m "restart"
              [("bogus", quiet_env)] Hascii) as [_ [Haccept [_ [_ Hunknown]]]].
  destruct (command_file_protocol 11%Z t quiet_env m "restart"
              [("bogus", quiet_env)] Hascii) as [_ [_ [Hold _]]].
  assert (Hfits : String.length (first_line content) < MaxScanTokenSize).
  { apply Nat.ltb_lt. vm_compute. reflexivity. }
  assert (Hcmd : ToLower (TrimSpace (dropCR (first_line content))) <> "").
  { vm_compute. discriminate. }
  assert (Hlt : (10 < 11)%Z) by reflexivity.
  assert (Hle : (11 <= 11)%Z) by discriminate.
  pose proof (Haccept 11%Z content None eq_refl Hlt eq_refl Hfits Hcmd)
    as Hsend.
  split; [exact Hascii |].
  split; [vm_compute; reflexivity |].
  split; [exact Hsend |].
  split; [exact (Hold 11%Z eq_refl Hle) |].
  assert (H1 : "restart" <> "start") by discriminate.
  assert (H2 : "restart" <> "stop") by discriminate.
  assert (H3 : "restart" <> "exit") by discriminate.
  destruct (Hunknown H1 H2 H3) as [_ Hserve].
  split; [rewrite Hserve; reflexivity | reflexivity].
Defined.

End CommandFileProtocol.
